(** * Snapshot reconciliation of the Sankhya mirror tables

    A shallow embedding of the two synchronisation services
    ([sync-excecao-preco-service.ts] and its financial twin): the value
    sanitizers, the positional field decoder, the upsert engine, the
    per-company reconciler and the batch driver, with the properties of
    the specification stated over them. *)

From Stdlib Require Import ZArith QArith Qabs Bool Lia Ascii String.
From Stdlib Require Import Floats.SpecFloat.
From stdpp Require Import base option list strings gmap pretty.

Local Open Scope Z_scope.

(** ** JavaScript values *)

Module JS.

(** A JavaScript number is an IEEE 754 binary64 value. *)
Definition number : Type := spec_float.
Definition prec : Z := 53.
Definition emax : Z := 1024.

Definition NaN : number := S754_nan.
Definition zero : number := S754_zero false.

(** The number denoted by an integer literal (correctly rounded). *)
Definition ofZ (z : Z) : number := binary_normalize prec emax z 0 false.

Definition isNaN (x : number) : bool :=
  match x with S754_nan => true | _ => false end.

(** [x > y] on numbers; false as soon as one side is NaN. *)
Definition gt (x y : number) : bool := SFltb y x.
Definition Math_abs (x : number) : number := SFabs x.
Definition neg (x : number) : number := SFopp x.
Definition sub (x y : number) : number := SFsub prec emax x y.
Definition div (x y : number) : number := SFdiv prec emax x y.

(** The sign bit of a number (NaN carries none). *)
Definition signbit (x : number) : bool :=
  match x with
  | S754_zero s | S754_infinity s | S754_finite s _ _ => s
  | S754_nan => false
  end.

(** The rational a finite number stands for. *)
Definition toQ (x : number) : Q :=
  match x with
  | S754_finite s m e => inject_Z (cond_Zopp s (Zpos m)) * 2 ^ e
  | _ => 0
  end%Q.

(** [Math.pow(10, n)] for an integral exponent. *)
Definition Math_pow10 (n : Z) : number :=
  if n <? 0 then div (ofZ 1) (ofZ (10 ^ (- n))) else ofZ (10 ^ n).

(** The literal [0.01]: the double nearest to 1/100. *)
Definition lit_0_01 : number := div (ofZ 1) (ofZ 100).

(** The values a field of a record or a bind variable holds: what the
    transport has under [$], handed over as it is, which is a JSON scalar
    (the transport carries texts; a cell whose [$] is itself an array or
    an object is not modelled); [undefined] for a field that is not
    there; and the [Date] objects that the date sanitizer builds, each
    represented by its time value, [None] being NaN, the time value of an
    invalid date. *)
Inductive value : Type :=
  | undefined
  | null
  | Bool (b : bool)
  | Num (x : number)
  | Str (s : string)
  | DateObj (tv : option Z).

(** ToBoolean. *)
Definition truthy (v : value) : bool :=
  match v with
  | undefined | null => false
  | Bool b => b
  | Num (S754_zero _) | Num S754_nan => false
  | Num _ => true
  | Str s => negb (String.eqb s "")
  | DateObj _ => true
  end.

(** [a || b]. *)
Definition or (a b : value) : value := if truthy a then a else b.

End JS.

(** ** Strings of the host language *)

Module Text.

(** Characters are code units below 256; the white space among them. *)
Definition isWhiteSpace (c : ascii) : bool :=
  let n := N_of_ascii c in
  ((9 <=? n) && (n <=? 13) || (n =? 32) || (n =? 160))%N.

Fixpoint trimStart (s : string) : string :=
  match s with
  | String c s' => if isWhiteSpace c then trimStart s' else s
  | EmptyString => EmptyString
  end.

Fixpoint trimEnd (s : string) : string :=
  match s with
  | EmptyString => EmptyString
  | String c s' =>
      match trimEnd s' with
      | EmptyString => if isWhiteSpace c then EmptyString else String c EmptyString
      | t => String c t
      end
  end.

(** [s.trim()] *)
Definition trim (s : string) : string := trimEnd (trimStart s).

(** [s.split(sep)] for a one-character separator. *)
Fixpoint split (sep : ascii) (s : string) : list string :=
  match s with
  | EmptyString => [EmptyString]
  | String c s' =>
      if Ascii.eqb c sep then EmptyString :: split sep s'
      else match split sep s' with
           | p :: ps => String c p :: ps
           | [] => [String c EmptyString]
           end
  end.

(** [x || d] where [x] is a string or [undefined]. *)
Definition orElse (x : option string) (d : string) : string :=
  match x with
  | Some (String c s) => String c s
  | Some EmptyString | None => d
  end.

(** [!x] where [x] is a string or [undefined]. *)
Definition falsy (x : option string) : bool :=
  match x with
  | Some (String _ _) => false
  | Some EmptyString | None => true
  end.

(** The value of a character as a digit, letters counting from ten. *)
Definition digitValue (c : ascii) : option Z :=
  let n := Z.of_N (N_of_ascii c) in
  if (48 <=? n) && (n <=? 57) then Some (n - 48)
  else if (97 <=? n) && (n <=? 122) then Some (n - 87)
  else if (65 <=? n) && (n <=? 90) then Some (n - 55)
  else None.

(** The longest prefix of radix-[R] digits of [s], read as an integer on
    top of [acc]; [None] when there is no digit at all. *)
Fixpoint digits (R : Z) (s : string) (acc : option Z) : option Z :=
  match s with
  | EmptyString => acc
  | String c s' =>
      match digitValue c with
      | Some d =>
          if d <? R then digits R s' (Some (default 0 acc * R + d)) else acc
      | None => acc
      end
  end.

Definition startsWith (c : ascii) (s : string) : bool :=
  match s with
  | String c' _ => Ascii.eqb c' c
  | EmptyString => false
  end.

Definition tail (s : string) : string :=
  match s with
  | String _ s' => s'
  | EmptyString => EmptyString
  end.

(** [parseInt(s)] with no radix argument; [None] is NaN. The result is
    the exact integer, which is also the number the host computes as long
    as it is below 2^53. *)
Definition parseInt (s : string) : option Z :=
  let S1 := trimStart s in
  let negative := startsWith "-"%char S1 in
  let S2 := if startsWith "-"%char S1 || startsWith "+"%char S1 then tail S1 else S1 in
  let hex := startsWith "0"%char S2 && (startsWith "x"%char (tail S2) || startsWith "X"%char (tail S2)) in
  let R := if hex then 16 else 10 in
  let S3 := if hex then tail (tail S2) else S2 in
  match digits R S3 None with
  | Some n => Some (if negative then - n else n)
  | None => None
  end.

(** *** The number a string denotes *)

(** The number nearest to [m * 10^e10], ties going to the even
    significand, with the sign asked for. *)
Definition roundDecimal (negative : bool) (m e10 : Z) : JS.number :=
  if m =? 0 then S754_zero negative
  else if 0 <=? e10
  then binary_normalize JS.prec JS.emax
         ((if negative then - m else m) * 10 ^ e10) 0 negative
  else SFdiv JS.prec JS.emax
         (S754_finite negative (Z.to_pos m) 0)
         (S754_finite false (Z.to_pos (10 ^ (- e10))) 0).

(** The decimal digits at the head of [s], read on top of [acc]; how
    many they are, on top of [n]; and what follows them. *)
Fixpoint decimalDigits (s : string) (acc : Z) (n : Z) : Z * Z * string :=
  match s with
  | String c s' =>
      let d := Z.of_N (N_of_ascii c) in
      if (48 <=? d) && (d <=? 57)
      then decimalDigits s' (acc * 10 + (d - 48)) (n + 1)
      else (acc, n, s)
  | EmptyString => (acc, n, s)
  end.

(** The integer written by a string of digits of radix [R] and nothing
    else; [None] when there is no digit or something else. *)
Fixpoint radixDigits (R : Z) (s : string) (acc : option Z) : option Z :=
  match s with
  | EmptyString => acc
  | String c s' =>
      match digitValue c with
      | Some d =>
          if d <? R then radixDigits R s' (Some (default 0 acc * R + d)) else None
      | None => None
      end
  end.

(** ExponentPart, or nothing, up to the end of the string. *)
Definition exponentPart (s : string) : option Z :=
  match s with
  | EmptyString => Some 0
  | String c s' =>
      if Ascii.eqb c "e" || Ascii.eqb c "E" then
        let negative := startsWith "-"%char s' in
        let s'' :=
          if startsWith "-"%char s' || startsWith "+"%char s' then tail s' else s' in
        match decimalDigits s'' 0 0 with
        | (x, n, EmptyString) =>
            if 0 <? n then Some (if negative then - x else x) else None
        | _ => None
        end
      else None
  end.

(** StrUnsignedDecimalLiteral: [Infinity], or digits with an optional
    fraction and an optional exponent. *)
Definition unsignedDecimal (negative : bool) (s : string) : JS.number :=
  if String.eqb s "Infinity" then S754_infinity negative
  else
    let '(i, a, r1) := decimalDigits s 0 0 in
    let '(m, b, r2) :=
      if startsWith "."%char r1 then decimalDigits (tail r1) i 0 else (i, 0, r1) in
    if a + b =? 0 then JS.NaN
    else match exponentPart r2 with
         | Some x => roundDecimal negative m (x - b)
         | None => JS.NaN
         end.

Definition nonDecimal (R : Z) (s : string) : JS.number :=
  match radixDigits R s None with
  | Some n => JS.ofZ n
  | None => JS.NaN
  end.

(** StringToNumber: the empty string and white space alone denote 0; a
    decimal literal, signed or not, and an unsigned hexadecimal, octal or
    binary literal denote their value, with white space allowed around
    them; every other string denotes NaN. *)
Definition StringToNumber (str : string) : JS.number :=
  match trim str with
  | EmptyString => JS.zero
  | String c s' =>
      let prefixed (x X : ascii) :=
        Ascii.eqb c "0" && (startsWith x s' || startsWith X s') in
      if prefixed "x"%char "X"%char then nonDecimal 16 (tail s')
      else if prefixed "o"%char "O"%char then nonDecimal 8 (tail s')
      else if prefixed "b"%char "B"%char then nonDecimal 2 (tail s')
      else if Ascii.eqb c "-" then unsignedDecimal true s'
      else if Ascii.eqb c "+" then unsignedDecimal false s'
      else unsignedDecimal false (String c s')
  end.

End Text.

(** ** Exceptions *)

(** A thrown [Error]; only its message is ever read. *)
Record Erro : Type := { message : string }.

(** A [TypeError] of the engine. The messages are worded as V8 words
    them, the engine of the host that the database driver runs on. *)
Definition TypeError (m : string) : Erro := {| message := m |}.

(** ** Dates of the host language *)

(** Time values, following the date arithmetic of the language
    standard. *)
Module DateTime.

Definition msPerDay : Z := 86400000.
Definition msPerHour : Z := 3600000.
Definition msPerMinute : Z := 60000.
Definition msPerSecond : Z := 1000.

Definition DayFromYear (y : Z) : Z :=
  365 * (y - 1970) + (y - 1969) / 4 - (y - 1901) / 100 + (y - 1601) / 400.

Definition InLeapYear (y : Z) : bool :=
  (y mod 4 =? 0) && (negb (y mod 100 =? 0) || (y mod 400 =? 0)).

(** Days of the year before the first day of month [mn] (0 = January). *)
Definition DaysBeforeMonth (leap : bool) (mn : Z) : Z :=
  let l := if leap then 1 else 0 in
  match mn with
  | 0 => 0 | 1 => 31 | 2 => 59 + l | 3 => 90 + l | 4 => 120 + l
  | 5 => 151 + l | 6 => 181 + l | 7 => 212 + l | 8 => 243 + l
  | 9 => 273 + l | 10 => 304 + l | _ => 334 + l
  end.

Definition MakeDay (year month date : Z) : Z :=
  let ym := year + month / 12 in
  let mn := month mod 12 in
  DayFromYear ym + DaysBeforeMonth (InLeapYear ym) mn + date - 1.

Definition MakeTime (hour min sec ms : Z) : Z :=
  hour * msPerHour + min * msPerMinute + sec * msPerSecond + ms.

Definition MakeDate (day time : Z) : Z := day * msPerDay + time.

(** [None] is NaN, the time value of an invalid date. *)
Definition TimeClip (time : Z) : option Z :=
  if Z.abs time >? 8640000000000000 then None else Some time.

(** Years 0 to 99 given to the constructor mean 1900 to 1999. *)
Definition fullYear (y : Z) : Z :=
  if (0 <=? y) && (y <=? 99) then 1900 + y else y.

(** The time zone of the host: [LocalTZA t true] is the offset of local
    time from UTC, in milliseconds, at the instant [t]; [LocalTZA t false]
    is the offset to take for the local time value [t], which for a local
    time that a change of offset skips or repeats is the offset in force
    before the change. *)
Record TimeZone : Type := { LocalTZA : Z -> bool -> Z }.

(** The instant of a local time value. *)
Definition UTC (tz : TimeZone) (t : Z) : Z := t - LocalTZA tz t false.


(** [new Date(year, month, date, hours, minutes, seconds).getTime()],
    each argument being an integer or NaN: the fields are those of a
    local time, the time value is that of its instant. *)
Definition Date_new (tz : TimeZone)
    (year month date hours minutes seconds : option Z) : option Z :=
  match year, month, date, hours, minutes, seconds with
  | Some y, Some m, Some dt, Some h, Some mi, Some s =>
      TimeClip (UTC tz (MakeDate (MakeDay (fullYear y) m dt) (MakeTime h mi s 0)))
  | _, _, _, _, _, _ => None
  end.

End DateTime.

(** ** Value sanitizer *)

Module Sanitizer.
Import JS Text DateTime.

(** [dataStr.trim()]: strings have the method, the other values that
    pass the test [!dataStr] have none. *)
Definition trimOf (dataStr : value) : Erro + string :=
  match dataStr with
  | Str s => inr (trim s)
  | _ => inl (TypeError "dataStr.trim is not a function")
  end.

(** [date.getTime()] *)
Definition getTime (date : value) : option Z :=
  match date with
  | DateObj tv => tv
  | _ => None
  end.

(** The [try] block of [parseDataSankhya]. *)
Definition parseDataSankhyaTry (tz : TimeZone) (dataStr : value) : Erro + value :=
  match trimOf dataStr with
  | inl error => inl error
  | inr trimmed =>
      let partes := split " "%char trimmed in
      let dataParte := default EmptyString (partes !! 0%nat) in
      let horaParte := orElse (partes !! 1%nat) "00:00:00"%string in
      let ds := split "/"%char dataParte in
      let dia := ds !! 0%nat in
      let mes := ds !! 1%nat in
      let ano := ds !! 2%nat in
      if falsy dia || falsy mes || falsy ano then inr null
      else
        let hs := split ":"%char horaParte in
        let hora := hs !! 0%nat in
        let minuto := hs !! 1%nat in
        let segundo := hs !! 2%nat in
        let date :=
          DateObj
            (Date_new tz
               (parseInt (default EmptyString ano))
               ((fun m => m - 1) <$> parseInt (default EmptyString mes))
               (parseInt (default EmptyString dia))
               (parseInt (orElse hora "0"%string))
               (parseInt (orElse minuto "0"%string))
               (parseInt (orElse segundo "0"%string))) in
        match getTime date with
        | None => inr null
        | Some _ => inr date
        end
  end.

(** [parseDataSankhya]: the test on the argument, then the [try] block
    with its [catch], which returns [null]. *)
Definition parseDataSankhya (tz : TimeZone) (dataStr : value) : Erro + value :=
  if negb (truthy dataStr) then inr null
  else
    match parseDataSankhyaTry tz dataStr with
    | inr date => inr date
    | inl error => inr null
    end.

(** [Number(valor)] *)
Definition ToNumber (valor : value) : number :=
  match valor with
  | undefined => NaN
  | null => zero
  | Bool b => if b then ofZ 1 else zero
  | Num x => x
  | Str s => StringToNumber s
  | DateObj tv => match tv with Some t => ofZ t | None => NaN end
  end.

(** [validarValorNumerico]; [None] is [null]. *)
Definition validarValorNumerico (valor : value) (maxDigits : Z) : option number :=
  match valor with
  | undefined | null => None
  | _ =>
      let valorNum := ToNumber valor in
      if isNaN valorNum then None
      else
        let maxValue := sub (Math_pow10 (maxDigits - 2)) lit_0_01 in
        if gt (Math_abs valorNum) maxValue
        then Some (if gt valorNum zero then maxValue else neg maxValue)
        else Some valorNum
  end.

(** The default value of the parameter [maxDigits]. *)
Definition maxDigits_default : Z := 15.

Definition limite : number := sub (Math_pow10 (maxDigits_default - 2)) lit_0_01.

End Sanitizer.

(** ** Field decoder *)

Module Decoder.
Import JS.

(** The body of a response, as the HTTP client hands it over: a parsed
    JSON text. [JUndefined] is what reading a missing property gives. The
    properties of an object are listed with their names, each name
    once; were a name listed twice, the first entry would be the
    property. *)
#[local] Set Warnings "-register-all".
Inductive json : Type :=
  | JUndefined
  | JNull
  | JBool (b : bool)
  | JNum (x : number)
  | JStr (s : string)
  | JArr (elems : list json)
  | JObj (props : list (string * json)).

(** ToBoolean. *)
Definition truthyJ (v : json) : bool :=
  match v with
  | JUndefined | JNull => false
  | JBool b => b
  | JNum (S754_zero _) | JNum S754_nan => false
  | JNum _ => true
  | JStr s => negb (String.eqb s "")
  | JArr _ | JObj _ => true
  end.

Fixpoint ownProperty (k : string) (props : list (string * json)) : option json :=
  match props with
  | [] => None
  | (k', v) :: rest => if String.eqb k' k then Some v else ownProperty k rest
  end.

(** The [TypeError] of reading a property of [undefined] or [null]. *)
Definition cannotRead (base prop : string) : Erro :=
  TypeError ("Cannot read properties of " +:+ base +:+ " (reading '" +:+ prop
             +:+ "')").

(** [v.k] and [v[k]], for the names the decoder reads ([responseBody],
    [entities], [entity], [metadata], [fields], [field], [name], the
    positional keys and [$]): none of them is a property of a built-in
    prototype, an index or [length], so that a scalar and an array have
    none of them and an object has those it owns. *)
Definition get (v : json) (k : string) : Erro + json :=
  match v with
  | JUndefined => inl (cannotRead "undefined" k)
  | JNull => inl (cannotRead "null" k)
  | JObj props => inr (default JUndefined (ownProperty k props))
  | _ => inr JUndefined
  end.

(** [v?.k] for the same names. *)
Definition getOpt (v : json) (k : string) : json :=
  match v with
  | JObj props => default JUndefined (ownProperty k props)
  | _ => JUndefined
  end.

(** [Array.isArray(v) ? v : [v]] *)
Definition arrayOf (v : json) : list json :=
  match v with
  | JArr elems => elems
  | _ => [v]
  end.

(** [f(x1), f(x2), ...] as [Array.prototype.map] evaluates them: in
    order, up to the first exception. *)
Fixpoint mapE {A B : Type} (f : A -> Erro + B) (l : list A) : Erro + list B :=
  match l with
  | [] => inr []
  | x :: rest =>
      match f x with
      | inl error => inl error
      | inr y =>
          match mapE f rest with
          | inl error => inl error
          | inr ys => inr (y :: ys)
          end
      end
  end.

(** [v.map(callback)], written [expr] in the source: a method of arrays
    only. *)
Definition mapOf {B : Type} (v : json) (expr : string) (callback : json -> Erro + B)
  : Erro + list B :=
  match v with
  | JArr elems => mapE callback elems
  | JUndefined => inl (cannotRead "undefined" "map")
  | JNull => inl (cannotRead "null" "map")
  | _ => inl (TypeError (expr +:+ ".map is not a function"))
  end.

(** The object under construction: the properties it owns and its
    prototype, which is [Object.prototype] to begin with. *)
Inductive prototype : Type :=
  | ObjectPrototype
  | NullPrototype
  | PrototypeOf (o : json).

Record object : Type := {
  own : gmap string json;
  proto : prototype
}.

(** [{}] *)
Definition emptyObject : object := {| own := ∅; proto := ObjectPrototype |}.

(** An assignment to [__proto__] reaches the accessor of
    [Object.prototype], unless a property of that name is met before it:
    one that the object owns, or one that its prototype, a parsed object,
    owns; with a [null] prototype no accessor is inherited. *)
Definition reachesAccessor (o : object) : bool :=
  match own o !! "__proto__"%string with
  | Some _ => false
  | None =>
      match proto o with
      | ObjectPrototype => true
      | NullPrototype => false
      | PrototypeOf (JObj props) =>
          match ownProperty "__proto__" props with
          | Some _ => false
          | None => true
          end
      | PrototypeOf _ => true
      end
  end.

(** [o[key] = v]: the object gets the property as its own, except for
    the key [__proto__] when the accessor is reached, which sets the
    prototype to [v] if [v] is an object or [null] and does nothing
    otherwise. *)
Definition assign (o : object) (key : string) (v : json) : object :=
  if String.eqb key "__proto__" && reachesAccessor o then
    match v with
    | JObj _ | JArr _ => {| own := own o; proto := PrototypeOf v |}
    | JNull => {| own := own o; proto := NullPrototype |}
    | _ => o
    end
  else {| own := <[key := v]> (own o); proto := proto o |}.

(** [`f${i}`] *)
Definition fieldKey (i : nat) : string := String.append "f" (pretty i).

Section Engine.

(** The text of a number, [Number::toString] of the engine. *)
Variable NumberToString : number -> string.

(** ToString. An object from a parsed text has no method of its own: it
    is converted by the inherited [toString], unless it owns a property
    of that name, which is no function and hides it; then the conversion
    throws. An array is converted by [join]. *)
Fixpoint ToString (v : json) : Erro + string :=
  match v with
  | JUndefined => inr "undefined"%string
  | JNull => inr "null"%string
  | JBool b => inr (if b then "true" else "false")%string
  | JNum x => inr (NumberToString x)
  | JStr s => inr s
  | JArr elems =>
      (fix join (l : list json) : Erro + string :=
         match l with
         | [] => inr ""%string
         | x :: rest =>
             let first :=
               match x with
               | JUndefined | JNull => inr ""%string
               | _ => ToString x
               end in
             match first, rest with
             | inl error, _ => inl error
             | inr s, [] => inr s
             | inr s, _ :: _ =>
                 match join rest with
                 | inl error => inl error
                 | inr t => inr (s +:+ "," +:+ t)
                 end
             end
         end) elems
  | JObj props =>
      match ownProperty "toString" props with
      | Some _ => inl (TypeError "Cannot convert object to primitive value")
      | None => inr "[object Object]"%string
      end
  end.

(** ToPropertyKey *)
Definition ToPropertyKey (v : json) : Erro + string := ToString v.

(** The [for] loop over the declared field names, from index [i] on. *)
Fixpoint decodeFrom (fieldNames : list json) (i : nat) (rawEntity : json)
    (cleanObject : object) : Erro + object :=
  match fieldNames with
  | [] => inr cleanObject
  | fieldName :: rest =>
      match get rawEntity (fieldKey i) with
      | inl error => inl error
      | inr cell =>
          if truthyJ cell then
            match get cell "$" with
            | inl error => inl error
            | inr v =>
                match ToPropertyKey fieldName with
                | inl error => inl error
                | inr key => decodeFrom rest (S i) rawEntity (assign cleanObject key v)
                end
            end
          else decodeFrom rest (S i) rawEntity cleanObject
      end
  end.

(** The callback of [entityArray.map]. *)
Definition decodeEntity (fieldNames : list json) (rawEntity : json) : Erro + object :=
  decodeFrom fieldNames 0 rawEntity emptyObject.

(** The body shared by [buscarExcecaoPrecoSankhya] and
    [buscarFinanceiroSankhya]. [resposta] is what [axios.post] gives: an
    exception, or a response, of which [response.data] is read. *)
Definition buscarSankhya (prefixo : string) (resposta : Erro + json)
  : Erro + list object :=
  let attempt : Erro + list object :=
    match resposta with
    | inl error => inl error
    | inr data =>
        if negb (truthyJ (getOpt (getOpt (getOpt data "responseBody") "entities")
                                 "entity"))
        then inr []
        else
          match get data "responseBody" with
          | inl error => inl error
          | inr responseBody =>
          match get responseBody "entities" with
          | inl error => inl error
          | inr entities =>
          match get entities "metadata" with
          | inl error => inl error
          | inr metadata =>
          match get metadata "fields" with
          | inl error => inl error
          | inr fields =>
          match get fields "field" with
          | inl error => inl error
          | inr field =>
          match mapOf field "entities.metadata.fields.field"
                      (fun f => get f "name") with
          | inl error => inl error
          | inr fieldNames =>
          match get entities "entity" with
          | inl error => inl error
          | inr entity => mapE (decodeEntity fieldNames) (arrayOf entity)
          end end end end end end end
    end in
  match attempt with
  | inr records => inr records
  | inl error => inl {| message := prefixo +:+ message error |}
  end.

Definition buscarExcecaoPrecoSankhya :=
  buscarSankhya "Erro ao buscar exceções de preço: ".
Definition buscarFinanceiroSankhya :=
  buscarSankhya "Erro ao buscar títulos financeiros: ".

End Engine.

End Decoder.

(** ** Computations that change a state and may throw *)

Module Exec.

Definition M (St A : Type) : Type := St -> St * (Erro + A).

Definition ret {St A} (a : A) : M St A := fun st => (st, inr a).

Definition throw {St A} (e : Erro) : M St A := fun st => (st, inl e).

Definition bind {St A B} (m : M St A) (k : A -> M St B) : M St B :=
  fun st =>
    match m st with
    | (st', inr a) => k a st'
    | (st', inl e) => (st', inl e)
    end.

Definition get {St} : M St St := fun st => (st, inr st).

Definition modify {St} (f : St -> St) : M St unit := fun st => (f st, inr tt).

(** [try { m } catch (error) { handler }] *)
Definition tryCatch {St A} (m : M St A) (handler : Erro -> M St A) : M St A :=
  fun st =>
    match m st with
    | (st', inr a) => (st', inr a)
    | (st', inl error) => handler error st'
    end.

(** [try { m } finally { f }]: [f] runs on every path, and an exception
    of [f] replaces the outcome of [m]. *)
Definition tryFinally {St A} (m : M St A) (f : M St unit) : M St A :=
  fun st =>
    match m st with
    | (st', r) =>
        match f st' with
        | (st'', inr _) => (st'', r)
        | (st'', inl e) => (st'', inl e)
        end
    end.

End Exec.

#[global] Instance M_ret {St} : MRet (Exec.M St) := @Exec.ret St.
#[global] Instance M_bind {St} : MBind (Exec.M St) :=
  fun A B k m => Exec.bind m k.

(** ** The mirror table and the reconciler *)

(** What distinguishes the two services: the record type fetched, the
    business key of the mirror table, its business columns, and the
    values bound to those columns by the UPDATE and by the INSERT. *)
Class Esquema : Type := {
  Registro : Type;
  Chave : Type;
  Campos : Type;
  Chave_eq_dec :: EqDecision Chave;
  chaveDe : Registro -> Chave;
  bindsUpdate : Registro -> Campos;
  bindsInsert : Registro -> Campos
}.

(** The effects of a run that the outside can observe, in order. *)
Inductive Evento : Type :=
  | EvToken (idSistema : Z)
  | EvBuscar (idSistema : Z)
  | EvConnect
  | EvMarcar (idSistema : Z)
  | EvSelect (i : nat)
  | EvUpdate (i : nat)
  | EvInsert (i : nat)
  | EvErroLinha (i : nat)
  | EvCommit
  | EvRollback
  | EvLog (idSistema : Z) (sucesso : bool)
  | EvClose
  | EvDiretorio
  | EvSleep (ms : Z).

Record SyncResult : Type := {
  success : bool;
  idSistema : Z;
  empresa : string;
  totalRegistros : nat;
  registrosInseridos : nat;
  registrosAtualizados : nat;
  registrosDeletados : nat;
  dataInicio : Z;
  dataFim : Z;
  duracao : Z;
  erro : option string
}.

Section Reconciler.
Context `{E : Esquema}.
Import Exec.

(** A row of the mirror table; [SANKHYA_ATUAL] is [true] for ['S']. *)
Record Linha : Type := {
  ID_SISTEMA : Z;
  chave : Chave;
  campos : Campos;
  SANKHYA_ATUAL : bool;
  DT_ULT_CARGA : Z;
  DT_CRIACAO : Z
}.

(** The mirror table: its rows, in insertion order. *)
Abbreviation Tabela := (list Linha).

(** The committed mirror table and the effects so far. *)
Record Mundo : Type := {
  espelho : Tabela;
  rastro : list Evento
}.

(** The state of one run: the world and the local variable
    [connection], which holds the table as the open transaction sees it. *)
Record Estado : Type := {
  mundo : Mundo;
  connection : option Tabela
}.

(** What the collaborators answer during one run: the token provider,
    the remote fetch, the connection provider, each statement (an
    exception, if it throws), the log sink, and the clocks. *)
Record Ambiente : Type := {
  relogioInicio : Z;
  relogioFim : Z;
  tokenResp : Erro + string;
  buscaResp : Erro + list Registro;
  conexaoResp : option Erro;
  marcarFalha : option Erro;
  selectFalha : nat -> option Erro;
  escritaFalha : nat -> option Erro;
  commitFalha : option Erro;
  rollbackFalha : option Erro;
  logFalha : option Erro;
  closeFalha : option Erro;
  timestampMarcar : Z;
  timestampLinha : nat -> Z
}.

Definition emite (ev : Evento) : M Estado unit :=
  modify (fun st =>
    {| mundo := {| espelho := espelho (mundo st);
                   rastro := rastro (mundo st) ++ [ev] |};
       connection := connection st |}).

Definition setConnection (t : Tabela) : M Estado unit :=
  modify (fun st => {| mundo := mundo st; connection := Some t |}).

(** Raise the exception of a collaborator, if it answers with one. *)
Definition falhaSe (f : option Erro) : M Estado unit :=
  match f with
  | Some e => throw e
  | None => ret tt
  end.

(** The table seen through [connection], for a call of its method
    [metodo]; on a connection that was never opened the call is a
    [TypeError]. *)
Definition sessao (metodo : string) : M Estado Tabela :=
  st ← get;
  match connection st with
  | Some t => ret t
  | None => throw (Decoder.cannotRead "undefined" metodo)
  end.

Definition obterToken (amb : Ambiente) (idSistema : Z) : M Estado string :=
  emite (EvToken idSistema) ;;
  match tokenResp amb with
  | inl e => throw e
  | inr token => ret token
  end.

Definition buscar (amb : Ambiente) (idSistema : Z) (bearerToken : string)
  : M Estado (list Registro) :=
  emite (EvBuscar idSistema) ;;
  match buscaResp amb with
  | inl e => throw e
  | inr registros => ret registros
  end.

(** [connection = await getOracleConnection()]: the new connection sees
    the committed table. *)
Definition getOracleConnection (amb : Ambiente) : M Estado unit :=
  emite EvConnect ;;
  falhaSe (conexaoResp amb) ;;
  st ← get;
  setConnection (espelho (mundo st)).

(** [WHERE ID_SISTEMA = :idSistema AND <key columns> = <key>] *)
Definition casa (idSistema : Z) (k : Chave) (l : Linha) : bool :=
  (ID_SISTEMA l =? idSistema) && bool_decide (chave l = k).

(** [WHERE ID_SISTEMA = :idSistema AND SANKHYA_ATUAL = 'S'] *)
Definition atualDe (idSistema : Z) (l : Linha) : bool :=
  (ID_SISTEMA l =? idSistema) && SANKHYA_ATUAL l.

Definition marcaNaoAtual (agora : Z) (l : Linha) : Linha :=
  {| ID_SISTEMA := ID_SISTEMA l; chave := chave l; campos := campos l;
     SANKHYA_ATUAL := false; DT_ULT_CARGA := agora;
     DT_CRIACAO := DT_CRIACAO l |}.

Definition atualiza (c : Campos) (agora : Z) (l : Linha) : Linha :=
  {| ID_SISTEMA := ID_SISTEMA l; chave := chave l; campos := c;
     SANKHYA_ATUAL := true; DT_ULT_CARGA := agora;
     DT_CRIACAO := DT_CRIACAO l |}.

Definition novaLinha (idSistema : Z) (k : Chave) (c : Campos) (agora : Z) : Linha :=
  {| ID_SISTEMA := idSistema; chave := k; campos := c;
     SANKHYA_ATUAL := true; DT_ULT_CARGA := agora; DT_CRIACAO := agora |}.

(** The three statements as functions on the table. *)
Definition sqlMarcar (idSistema agora : Z) (t : Tabela) : Tabela :=
  (fun l => if atualDe idSistema l then marcaNaoAtual agora l else l) <$> t.

Definition sqlCount (idSistema : Z) (k : Chave) (t : Tabela) : nat :=
  length (filter (fun l => casa idSistema k l = true) t).

Definition sqlUpdate (idSistema : Z) (k : Chave) (c : Campos) (agora : Z)
    (t : Tabela) : Tabela :=
  (fun l => if casa idSistema k l then atualiza c agora l else l) <$> t.

Definition sqlInsert (idSistema : Z) (k : Chave) (c : Campos) (agora : Z)
    (t : Tabela) : Tabela :=
  t ++ [novaLinha idSistema k c agora].

(** [marcarTodosComoNaoAtuais(connection, idSistema)] *)
Definition marcarTodosComoNaoAtuais (amb : Ambiente) (idSistema : Z) : M Estado nat :=
  t ← sessao "execute";
  emite (EvMarcar idSistema) ;;
  falhaSe (marcarFalha amb) ;;
  setConnection (sqlMarcar idSistema (timestampMarcar amb) t) ;;
  let rowsAffected := length (filter (fun l => atualDe idSistema l = true) t) in
  ret rowsAffected.

(** The body of the [try] inside the loop, for the record at position
    [i]: the existence check, then the UPDATE or the INSERT. A statement
    that throws changes nothing. *)
Definition upsertUm (amb : Ambiente) (idSistema : Z) (i : nat) (r : Registro)
    (inseridos atualizados : nat) : M Estado (nat * nat) :=
  t ← sessao "execute";
  emite (EvSelect i) ;;
  falhaSe (selectFalha amb i) ;;
  let exists_ := bool_decide (0 < sqlCount idSistema (chaveDe r) t)%nat in
  if exists_ then
    emite (EvUpdate i) ;;
    falhaSe (escritaFalha amb i) ;;
    setConnection (sqlUpdate idSistema (chaveDe r) (bindsUpdate r) (timestampLinha amb i) t) ;;
    ret (inseridos, S atualizados)
  else
    emite (EvInsert i) ;;
    falhaSe (escritaFalha amb i) ;;
    setConnection (sqlInsert idSistema (chaveDe r) (bindsInsert r) (timestampLinha amb i) t) ;;
    ret (S inseridos, atualizados).

(** The loop of the upsert engine from position [i] on; the [catch]
    logs the error and goes on with the next record. *)
Fixpoint upsertDesde (amb : Ambiente) (idSistema : Z) (i : nat)
    (registros : list Registro) (inseridos atualizados : nat)
  : M Estado (nat * nat) :=
  match registros with
  | [] => ret (inseridos, atualizados)
  | r :: resto =>
      '(ins, atu) ←
        tryCatch (upsertUm amb idSistema i r inseridos atualizados)
                 (fun error => emite (EvErroLinha i) ;; mret (inseridos, atualizados));
      upsertDesde amb idSistema (S i) resto ins atu
  end.

Definition upsert (amb : Ambiente) (idSistema : Z) (registros : list Registro)
  : M Estado (nat * nat) :=
  upsertDesde amb idSistema 0 registros 0%nat 0%nat.

(** [connection.commit()]: the table as the transaction sees it becomes
    the committed one; a commit that throws commits nothing. *)
Definition commit (amb : Ambiente) : M Estado unit :=
  t ← sessao "commit";
  emite EvCommit ;;
  falhaSe (commitFalha amb) ;;
  modify (fun st =>
    {| mundo := {| espelho := t; rastro := rastro (mundo st) |};
       connection := connection st |}).

(** [connection.rollback()]: the transaction sees the committed table
    again. *)
Definition rollback (amb : Ambiente) : M Estado unit :=
  emite EvRollback ;;
  falhaSe (rollbackFalha amb) ;;
  st ← get;
  setConnection (espelho (mundo st)).

(** [connection.close()]: what was not committed is lost with the
    connection. *)
Definition close (amb : Ambiente) : M Estado unit :=
  emite EvClose ;;
  falhaSe (closeFalha amb).

(** [salvarLogSincronizacao], after its dynamic import. *)
Definition salvarLogSincronizacao (amb : Ambiente) (idSistema : Z) (sucesso : bool)
  : M Estado unit :=
  emite (EvLog idSistema sucesso) ;;
  falhaSe (logFalha amb).

(** The [try { ... } catch { ... } finally { ... }] of the per-company
    run, on a state whose [connection] is still undefined. *)
Definition sincronizarCorpo (amb : Ambiente) (idSistema : Z) (empresaNome : string)
  : M Estado SyncResult :=
  let dataInicio := relogioInicio amb in
  tryFinally
    (tryCatch
       (bearerToken ← obterToken amb idSistema;
        registros ← buscar amb idSistema bearerToken;
        getOracleConnection amb ;;
        registrosDeletados ← marcarTodosComoNaoAtuais amb idSistema;
        '(inseridos, atualizados) ← upsert amb idSistema registros;
        commit amb ;;
        let dataFim := relogioFim amb in
        let duracao := dataFim - dataInicio in
        tryCatch (salvarLogSincronizacao amb idSistema true) (fun logError => ret tt) ;;
        ret {| success := true;
               idSistema := idSistema;
               empresa := empresaNome;
               totalRegistros := length registros;
               registrosInseridos := inseridos;
               registrosAtualizados := atualizados;
               registrosDeletados := registrosDeletados;
               dataInicio := dataInicio;
               dataFim := dataFim;
               duracao := duracao;
               erro := None |})
       (fun error =>
          st ← get;
          match connection st with
          | Some _ => tryCatch (rollback amb) (fun rollbackError => ret tt)
          | None => ret tt
          end ;;
          let dataFim := relogioFim amb in
          let duracao := dataFim - dataInicio in
          tryCatch (salvarLogSincronizacao amb idSistema false) (fun logError => ret tt) ;;
          ret {| success := false;
                 idSistema := idSistema;
                 empresa := empresaNome;
                 totalRegistros := 0;
                 registrosInseridos := 0;
                 registrosAtualizados := 0;
                 registrosDeletados := 0;
                 dataInicio := dataInicio;
                 dataFim := dataFim;
                 duracao := duracao;
                 erro := Some (message error) |}))
    (st ← get;
     match connection st with
     | Some _ => tryCatch (close amb) (fun closeError => ret tt)
     | None => ret tt
     end).

(** The per-company reconciliation as a computation on the world:
    [connection] is a variable of the call. *)
Definition sincronizarPorEmpresa (amb : Ambiente) (idSistema : Z) (empresaNome : string)
  : M Mundo SyncResult :=
  fun w =>
    match sincronizarCorpo amb idSistema empresaNome
            {| mundo := w; connection := None |} with
    | (st, r) => (mundo st, r)
    end.

(** *** Batch driver *)

(** A row of the company directory. *)
Record Empresa : Type := {
  ID_EMPRESA : Z;
  EMPRESA : string
}.

(** What the collaborators answer during one batch: the directory
    connection, the directory query ([result.rows], possibly undefined),
    the two [close] calls, and the environment of the run at each
    position of the directory. *)
Record AmbienteLote : Type := {
  dirConexao : option Erro;
  dirConsulta : Erro + option (list Empresa);
  dirClose : option Erro;
  dirCloseFinal : option Erro;
  ambienteDe : nat -> Ambiente
}.

(** The state of the driver: the world, and whether its own variable
    [connection] is set. *)
Record EstadoLote : Type := {
  mundoL : Mundo;
  connectionL : bool
}.

(** Run a computation on the world inside the driver. *)
Definition noMundo {A} (m : M Mundo A) : M EstadoLote A :=
  fun st =>
    match m (mundoL st) with
    | (w, r) => ({| mundoL := w; connectionL := connectionL st |}, r)
    end.

Definition emiteMundo (ev : Evento) : M Mundo unit :=
  modify (fun w => {| espelho := espelho w; rastro := rastro w ++ [ev] |}).

Definition emiteL (ev : Evento) : M EstadoLote unit := noMundo (emiteMundo ev).

Definition setConnectionL (b : bool) : M EstadoLote unit :=
  modify (fun st => {| mundoL := mundoL st; connectionL := b |}).

Definition falhaSeL (f : option Erro) : M EstadoLote unit :=
  match f with
  | Some e => throw e
  | None => ret tt
  end.

(** The [for] loop over the directory rows from position [i] on. *)
Fixpoint loteDesde (lote : AmbienteLote) (i : nat) (empresas : list Empresa)
    (resultados : list SyncResult) : M EstadoLote (list SyncResult) :=
  match empresas with
  | [] => ret resultados
  | empresa :: resto =>
      resultado ← noMundo (sincronizarPorEmpresa (ambienteDe lote i)
                             (ID_EMPRESA empresa) (EMPRESA empresa));
      emiteL (EvSleep 2000) ;;
      loteDesde lote (S i) resto (resultados ++ [resultado])
  end.

Definition sincronizarTodasCorpo (lote : AmbienteLote) : M EstadoLote (list SyncResult) :=
  tryFinally
    (tryCatch
       (emiteL EvConnect ;;
        falhaSeL (dirConexao lote) ;;
        setConnectionL true ;;
        emiteL EvDiretorio ;;
        rows ← match dirConsulta lote with
               | inl e => throw e
               | inr rows => ret rows
               end;
        emiteL EvClose ;;
        falhaSeL (dirClose lote) ;;
        setConnectionL false ;;
        match rows with
        | None | Some [] => ret []
        | Some empresas => loteDesde lote 0 empresas []
        end)
       (fun error => throw error))
    (st ← get;
     if connectionL st
     then tryCatch (emiteL EvClose ;; falhaSeL (dirCloseFinal lote))
                   (fun closeError => ret tt)
     else ret tt).

Definition sincronizarTodasEmpresas (lote : AmbienteLote) : M Mundo (list SyncResult) :=
  fun w =>
    match sincronizarTodasCorpo lote {| mundoL := w; connectionL := false |} with
    | (st, r) => (mundoL st, r)
    end.

End Reconciler.

(** ** Vocabulary of the statements about the reconciler *)

Section ReconcilerVocabulary.
Context `{E : Esquema}.
Abbreviation Tabela := (list Linha).

(** Some row keyed [(idSistema, k)] exists. *)
Definition existe (t : Tabela) (idSistema : Z) (k : Chave) : bool :=
  existsb (casa idSistema k) t.

(** Some row keyed [(idSistema, k)] is active. *)
Definition ativa (t : Tabela) (idSistema : Z) (k : Chave) : bool :=
  existsb (fun l => casa idSistema k l && SANKHYA_ATUAL l) t.

(** The number of active rows keyed [(idSistema, k)]. *)
Definition ativasCount (idSistema : Z) (k : Chave) (t : Tabela) : nat :=
  length (filter (fun l => casa idSistema k l && SANKHYA_ATUAL l = true) t).

(** One of the statements run for the record at position [i] throws. *)
Definition linhaFalha (amb : Ambiente) (i : nat) : bool :=
  match selectFalha amb i, escritaFalha amb i with
  | None, None => false
  | _, _ => true
  end.

(** The table after the [try] of the loop for the record [r] at
    position [i]. *)
Definition tabelaApos (amb : Ambiente) (idSistema : Z) (i : nat) (r : Registro)
    (t : Tabela) : Tabela :=
  if linhaFalha amb i then t
  else if existe t idSistema (chaveDe r)
       then sqlUpdate idSistema (chaveDe r) (bindsUpdate r) (timestampLinha amb i) t
       else sqlInsert idSistema (chaveDe r) (bindsInsert r) (timestampLinha amb i) t.

(** The counters [(inseridos, atualizados)] after it. *)
Definition contagemApos (amb : Ambiente) (idSistema : Z) (i : nat) (r : Registro)
    (t : Tabela) (c : nat * nat) : nat * nat :=
  if linhaFalha amb i then c
  else if existe t idSistema (chaveDe r) then (c.1, S c.2) else (S c.1, c.2).

(** The effects it has. *)
Definition eventosDe (amb : Ambiente) (idSistema : Z) (i : nat) (r : Registro)
    (t : Tabela) : list Evento :=
  EvSelect i ::
  match selectFalha amb i with
  | Some _ => [EvErroLinha i]
  | None =>
      (if existe t idSistema (chaveDe r) then EvUpdate i else EvInsert i) ::
      match escritaFalha amb i with
      | Some _ => [EvErroLinha i]
      | None => []
      end
  end.

(** The loop of the upsert engine as a function: table, counters and
    effects after the records from position [i] on. *)
Fixpoint upsertPuro (amb : Ambiente) (idSistema : Z) (i : nat)
    (registros : list Registro) (t : Tabela) (c : nat * nat)
  : Tabela * (nat * nat) * list Evento :=
  match registros with
  | [] => (t, c, [])
  | r :: resto =>
      let '(t', c', evs) :=
        upsertPuro amb idSistema (S i) resto
          (tabelaApos amb idSistema i r t) (contagemApos amb idSistema i r t c) in
      (t', c', eventosDe amb idSistema i r t ++ evs)
  end.

(** The keys of the records from position [i] on whose statements did
    not throw. *)
Fixpoint chavesGravadas (amb : Ambiente) (i : nat) (registros : list Registro)
  : list Chave :=
  match registros with
  | [] => []
  | r :: resto =>
      if linhaFalha amb i then chavesGravadas amb (S i) resto
      else chaveDe r :: chavesGravadas amb (S i) resto
  end.

(** The events that delimit a run inside a batch. *)
Definition marco (ev : Evento) : bool :=
  match ev with
  | EvToken _ | EvLog _ _ | EvSleep _ => true
  | _ => false
  end.

(** The events on the database connection of a run. *)
Definition eventoBD (ev : Evento) : bool :=
  match ev with
  | EvConnect | EvMarcar _ | EvSelect _ | EvUpdate _ | EvInsert _
  | EvCommit | EvRollback | EvClose => true
  | _ => false
  end.

(** A state of a run, field by field. *)
Definition estado (e : Tabela) (tr : list Evento) (c : option Tabela) : Estado :=
  {| mundo := {| espelho := e; rastro := tr |}; connection := c |}.

(** The result returned on the success path. *)
Definition resultadoSucesso (amb : Ambiente) (idSistema : Z) (empresaNome : string)
    (total deletados : nat) (c : nat * nat) : SyncResult :=
  {| success := true;
     idSistema := idSistema;
     empresa := empresaNome;
     totalRegistros := total;
     registrosInseridos := c.1;
     registrosAtualizados := c.2;
     registrosDeletados := deletados;
     dataInicio := relogioInicio amb;
     dataFim := relogioFim amb;
     duracao := relogioFim amb - relogioInicio amb;
     erro := None |}.

(** The delimiting events of a batch that returned [rs]: for each run
    its token request, its log entry and the pause after it. *)
Definition marcosDe (rs : list SyncResult) : list Evento :=
  rs ≫= fun r => [EvToken (idSistema r); EvLog (idSistema r) (success r);
                  EvSleep 2000].

(** The result [r] is the one of the directory row [emp]. *)
Definition resultadoDe (emp : Empresa) (r : SyncResult) : Prop :=
  idSistema r = ID_EMPRESA emp /\ empresa r = EMPRESA emp.

(** The result returned on the failure path. *)
Definition resultadoFalha (amb : Ambiente) (idSistema : Z) (empresaNome : string)
    (error : Erro) : SyncResult :=
  {| success := false;
     idSistema := idSistema;
     empresa := empresaNome;
     totalRegistros := 0;
     registrosInseridos := 0;
     registrosAtualizados := 0;
     registrosDeletados := 0;
     dataInicio := relogioInicio amb;
     dataFim := relogioFim amb;
     duracao := relogioFim amb - relogioInicio amb;
     erro := Some (message error) |}.

End ReconcilerVocabulary.

(** ** The two services *)

(** The records that the reconcilers work on are the decoded ones, read
    through their interfaces: the fields of the business key hold the
    numbers the interfaces declare, each other field holds what the
    transport had for it, or [undefined]. *)

Module Excecao.

(** [interface ExcecaoPreco] *)
Record ExcecaoPreco : Type := {
  CODPROD : Z;
  VLRANT : JS.value;
  VARIACAO : JS.value;
  NUTAB : Z;
  TIPO : JS.value;
  VLRVENDA : JS.value;
  CODLOCAL : Z;
  CONTROLE : JS.value
}.

(** The business columns of AS_EXCECAO_PRECO, named as the bind
    variables; [JS.null] is SQL NULL. *)
Record Colunas : Type := {
  vlrant : JS.value;
  variacao : JS.value;
  tipo : JS.value;
  vlrvenda : JS.value;
  controle : JS.value
}.

(** The bind object of the UPDATE. *)
Definition bindsDoUpdate (excecao : ExcecaoPreco) : Colunas :=
  {| vlrant := JS.or (VLRANT excecao) JS.null;
     variacao := JS.or (VARIACAO excecao) JS.null;
     tipo := JS.or (TIPO excecao) JS.null;
     vlrvenda := JS.or (VLRVENDA excecao) JS.null;
     controle := JS.or (CONTROLE excecao) JS.null |}.

(** The bind object of the INSERT. *)
Definition bindsDoInsert (excecao : ExcecaoPreco) : Colunas :=
  {| vlrant := JS.or (VLRANT excecao) JS.null;
     variacao := JS.or (VARIACAO excecao) JS.null;
     tipo := JS.or (TIPO excecao) JS.null;
     vlrvenda := JS.or (VLRVENDA excecao) JS.null;
     controle := JS.or (CONTROLE excecao) JS.null |}.

#[global] Instance esquema : Esquema := {|
  Registro := ExcecaoPreco;
  Chave := Z * Z * Z;
  Campos := Colunas;
  chaveDe excecao := (CODPROD excecao, NUTAB excecao, CODLOCAL excecao);
  bindsUpdate := bindsDoUpdate;
  bindsInsert := bindsDoInsert
|}.

Definition upsertExcecaoPreco := upsert (E := esquema).
Definition sincronizarExcecaoPrecoPorEmpresa := sincronizarPorEmpresa (E := esquema).
Definition sincronizarTodasEmpresas := sincronizarTodasEmpresas (E := esquema).

End Excecao.

Module Financeiro.
Import Sanitizer.

(** [interface Financeiro] *)
Record Financeiro : Type := {
  NUFIN : Z;
  CODPARC : JS.value;
  CODEMP : JS.value;
  VLRDESDOB : JS.value;
  DTVENC : JS.value;
  DTNEG : JS.value;
  PROVISAO : JS.value;
  DHBAIXA : JS.value;
  VLRBAIXA : JS.value;
  RECDESP : JS.value;
  NOSSONUM : JS.value;
  CODCTABCOINT : JS.value;
  HISTORICO : JS.value;
  NUMNOTA : JS.value
}.

(** The business columns of AS_FINANCEIRO, named as the bind variables. *)
Record Colunas : Type := {
  codparc : JS.value;
  codemp : JS.value;
  vlrdesdob : JS.value;
  dtvenc : JS.value;
  dtneg : JS.value;
  provisao : JS.value;
  dhbaixa : JS.value;
  vlrbaixa : JS.value;
  recdesp : JS.value;
  nossonum : JS.value;
  codctabcoint : JS.value;
  historico : JS.value;
  numnota : JS.value
}.

(** What a call of [parseDataSankhya] returned. The function returns on
    every argument, which is proved of it below; the second case is there
    for the type alone. *)
Definition returned (r : Erro + JS.value) : JS.value :=
  match r with
  | inr v => v
  | inl _ => JS.null
  end.

(** A [number | null] as a bind value. *)
Definition numOuNull (n : option JS.number) : JS.value :=
  match n with
  | Some x => JS.Num x
  | None => JS.null
  end.

(** The bind object of the UPDATE, on a host in the time zone [tz]. *)
Definition bindsDoUpdate (tz : DateTime.TimeZone) (financeiro : Financeiro) : Colunas :=
  let dtvenc := returned (parseDataSankhya tz (DTVENC financeiro)) in
  let dtneg := returned (parseDataSankhya tz (DTNEG financeiro)) in
  let dhbaixa := returned (parseDataSankhya tz (DHBAIXA financeiro)) in
  let vlrdesdob := validarValorNumerico (VLRDESDOB financeiro) maxDigits_default in
  let vlrbaixa := validarValorNumerico (VLRBAIXA financeiro) maxDigits_default in
  {| codparc := JS.or (CODPARC financeiro) JS.null;
     codemp := JS.or (CODEMP financeiro) JS.null;
     vlrdesdob := numOuNull vlrdesdob;
     dtvenc := dtvenc;
     dtneg := dtneg;
     provisao := JS.or (PROVISAO financeiro) JS.null;
     dhbaixa := dhbaixa;
     vlrbaixa := numOuNull vlrbaixa;
     recdesp := JS.or (RECDESP financeiro) JS.null;
     nossonum := JS.or (NOSSONUM financeiro) JS.null;
     codctabcoint := JS.or (CODCTABCOINT financeiro) JS.null;
     historico := JS.or (HISTORICO financeiro) JS.null;
     numnota := JS.or (NUMNOTA financeiro) JS.null |}.

(** The bind object of the INSERT. *)
Definition bindsDoInsert (tz : DateTime.TimeZone) (financeiro : Financeiro) : Colunas :=
  let dtvenc := returned (parseDataSankhya tz (DTVENC financeiro)) in
  let dtneg := returned (parseDataSankhya tz (DTNEG financeiro)) in
  let dhbaixa := returned (parseDataSankhya tz (DHBAIXA financeiro)) in
  let vlrdesdob := validarValorNumerico (VLRDESDOB financeiro) maxDigits_default in
  let vlrbaixa := validarValorNumerico (VLRBAIXA financeiro) maxDigits_default in
  {| codparc := JS.or (CODPARC financeiro) JS.null;
     codemp := JS.or (CODEMP financeiro) JS.null;
     vlrdesdob := numOuNull vlrdesdob;
     dtvenc := dtvenc;
     dtneg := dtneg;
     provisao := JS.or (PROVISAO financeiro) JS.null;
     dhbaixa := dhbaixa;
     vlrbaixa := numOuNull vlrbaixa;
     recdesp := JS.or (RECDESP financeiro) JS.null;
     nossonum := JS.or (NOSSONUM financeiro) JS.null;
     codctabcoint := JS.or (CODCTABCOINT financeiro) JS.null;
     historico := JS.or (HISTORICO financeiro) JS.null;
     numnota := JS.or (NUMNOTA financeiro) JS.null |}.

(** The financial mirror of a host in the time zone [tz]. *)
Definition esquema (tz : DateTime.TimeZone) : Esquema := {|
  Registro := Financeiro;
  Chave := Z;
  Campos := Colunas;
  chaveDe financeiro := NUFIN financeiro;
  bindsUpdate := bindsDoUpdate tz;
  bindsInsert := bindsDoInsert tz
|}.

Definition upsertFinanceiro (tz : DateTime.TimeZone) := upsert (E := esquema tz).
Definition sincronizarFinanceiroPorEmpresa (tz : DateTime.TimeZone) :=
  sincronizarPorEmpresa (E := esquema tz).
Definition sincronizarTodasEmpresas (tz : DateTime.TimeZone) :=
  sincronizarTodasEmpresas (E := esquema tz).

End Financeiro.

(** ** Vocabulary of the statements about dates *)

Module DateForms.
Import Text DateTime.

Definition isDigit (c : ascii) : bool :=
  let n := N_of_ascii c in ((48 <=? n) && (n <=? 57))%N.

Fixpoint allDigits (s : string) : bool :=
  match s with
  | EmptyString => true
  | String c s' => isDigit c && allDigits s'
  end.

(** A string of exactly [n] decimal digits. *)
Definition digitString (n : nat) (s : string) : bool :=
  (String.length s =? n)%nat && allDigits s.

(** The number written by a string of decimal digits, on top of [acc]. *)
Fixpoint decimalFrom (acc : Z) (s : string) : Z :=
  match s with
  | EmptyString => acc
  | String c s' => decimalFrom (acc * 10 + (Z.of_N (N_of_ascii c) - 48)) s'
  end.

Definition decimal (s : string) : Z := decimalFrom 0 s.

(** Occurrences of a character in a string. *)
Fixpoint count (c : ascii) (s : string) : nat :=
  match s with
  | EmptyString => 0%nat
  | String c' s' => ((if Ascii.eqb c' c then 1 else 0) + count c s')%nat
  end.

(** [dd/mm/yyyy] *)
Definition dateText (dd mm yyyy : string) : string :=
  dd +:+ "/" +:+ mm +:+ "/" +:+ yyyy.


(** A text with no white space and no slash in it. *)
Fixpoint word (s : string) : bool :=
  match s with
  | EmptyString => true
  | String c s' => negb (isWhiteSpace c) && negb (Ascii.eqb c "/") && word s'
  end.



(** The [Date] of a time value, [null] for NaN. *)
Definition dateOrNull (tv : option Z) : JS.value :=
  match tv with
  | Some t => JS.DateObj (Some t)
  | None => JS.null
  end.


(** The offsets of a time zone stay within a day. *)
Definition boundedZone (tz : TimeZone) : Prop :=
  forall (t : Z) (isUTC : bool), Z.abs (LocalTZA tz t isUTC) <= msPerDay.

(** Coordinated universal time. *)
Definition utc : TimeZone := {| LocalTZA := fun _ _ => 0 |}.

(** The time zone America/Sao_Paulo for the times from 18 February 2018
    on, the only ones it is used at: three hours behind UTC, two during
    the daylight saving time that began on 4 November 2018, when the
    clocks went from 00:00 to 01:00, and ended on 17 February 2019, when
    they went from 00:00 back to 23:00. *)
Definition America_Sao_Paulo : TimeZone :=
  {| LocalTZA := fun t isUTC =>
       if isUTC
       then if (1541300400000 <=? t) && (t <? 1550368800000)
            then - 2 * msPerHour else - 3 * msPerHour
       else if (1541293200000 <=? t) && (t <? 1550361600000)
            then - 2 * msPerHour else - 3 * msPerHour |}.

End DateForms.

(** ** Vocabulary of the statements about numbers *)

Module NumberForms.

(** The characters that a numeric literal can begin with: a decimal
    digit, a sign, the point, and the [I] of [Infinity]. *)
Definition opensLiteral (c : ascii) : bool :=
  DateForms.isDigit c || Ascii.eqb c "+" || Ascii.eqb c "-" || Ascii.eqb c "."
  || Ascii.eqb c "I".

End NumberForms.

(** ** Vocabulary of the statements about the decoder *)

Module DecoderForms.
Import Decoder.

(** [{"$": v}], a cell of the transport format. *)
Definition cell (v : json) : json := JObj [("$"%string, v)].

(** [{"name": n}], an entry of [metadata.fields.field]. *)
Definition named (n : string) : json := JObj [("name"%string, JStr n)].

(** A response body with the declared fields [fields] and [entity] under
    [responseBody.entities]. *)
Definition body (fields entity : json) : json :=
  JObj [("responseBody"%string,
         JObj [("entities"%string,
                JObj [("metadata"%string,
                       JObj [("fields"%string, JObj [("field"%string, fields)])]);
                      ("entity"%string, entity)])])].

(** [undefined] or [null] *)
Definition nullish (v : json) : bool :=
  match v with
  | JUndefined | JNull => true
  | _ => false
  end.

(** What is under [responseBody.entities] of a response body. *)
Definition entitiesOf (data : json) : json :=
  getOpt (getOpt data "responseBody") "entities".

(** [if (rawEntity[fieldKey])], for an entity that is there. *)
Definition present (rawEntity : json) (i : nat) : bool :=
  truthyJ (getOpt rawEntity (fieldKey i)).

(** An engine for declared names that are texts: how it writes a number
    is never looked at. *)
Definition unread : JS.number -> string := fun _ => ""%string.

Section Engine.
Variable NumberToString : JS.number -> string.

(** The entity can be decoded under the names [fieldNames]: it is there,
    unless no name is declared, and the name of every position that holds
    a value has a text. *)
Definition decodable (fieldNames : list json) (rawEntity : json) : Prop :=
  (fieldNames = [] \/ nullish rawEntity = false)
  /\ forall (i : nat) (fieldName : json),
       fieldNames !! i = Some fieldName -> present rawEntity i = true ->
       exists key, ToPropertyKey NumberToString fieldName = inr key.

(** The keys that the declared names stand for. *)
Definition declared (fieldNames : list json) : gset string :=
  list_to_set
    (omap (fun fieldName =>
             match ToPropertyKey NumberToString fieldName with
             | inr key => Some key
             | inl _ => None
             end) fieldNames).

(** The response is one that the decoder goes through: the declared
    fields are an array of entries that are there, and every entity can
    be decoded under their names. *)
Definition wellFormed (data : json) : Prop :=
  exists fields : list json,
    getOpt (getOpt (getOpt (entitiesOf data) "metadata") "fields") "field"
      = JArr fields
    /\ Forall (fun f => nullish f = false) fields
    /\ Forall (decodable ((fun f => getOpt f "name") <$> fields))
              (arrayOf (getOpt (entitiesOf data) "entity")).

End Engine.

End DecoderForms.

(** ** A scenario on the financial mirror *)

Module Cenario.
Import Financeiro.

(** The host of the scenario keeps coordinated universal time. *)
Definition fuso : DateTime.TimeZone := DateForms.utc.

(** The financial mirror on that host. *)
#[export] Instance esquema : Esquema := Financeiro.esquema fuso.

(** A financial record that has its key and nothing else. *)
Definition titulo (nufin : Z) : Financeiro :=
  {| NUFIN := nufin; CODPARC := JS.undefined; CODEMP := JS.undefined;
     VLRDESDOB := JS.undefined; DTVENC := JS.undefined; DTNEG := JS.undefined;
     PROVISAO := JS.undefined; DHBAIXA := JS.undefined;
     VLRBAIXA := JS.undefined; RECDESP := JS.undefined;
     NOSSONUM := JS.undefined; CODCTABCOINT := JS.undefined;
     HISTORICO := JS.undefined; NUMNOTA := JS.undefined |}.

(** A row of AS_FINANCEIRO written at time 0. *)
Definition linha (idSistema nufin : Z) (atual : bool) : Linha :=
  {| ID_SISTEMA := idSistema; chave := nufin;
     campos := bindsDoInsert fuso (titulo nufin);
     SANKHYA_ATUAL := atual; DT_ULT_CARGA := 0; DT_CRIACAO := 0 |}.

(** Rows 5 and 6 of system 1 and row 5 of system 2, all active. *)
Definition mundo0 : Mundo :=
  {| espelho := [linha 1 5 true; linha 1 6 true; linha 2 5 true];
     rastro := [] |}.

(** The remote system now holds the records 5 and 7. *)
Definition snapshot : list Financeiro := [titulo 5; titulo 7].

Definition ORA_12899 : Erro := {| message := "ORA-12899: value too large for column" |}.
Definition ETIMEDOUT : Erro := {| message := "connect ETIMEDOUT" |}.

(** Every collaborator answers. *)
Definition ambOk : Ambiente :=
  {| relogioInicio := 1000; relogioFim := 1250;
     tokenResp := inr "bearer"%string;
     buscaResp := inr snapshot;
     conexaoResp := None; marcarFalha := None;
     selectFalha := fun _ => None; escritaFalha := fun _ => None;
     commitFalha := None; rollbackFalha := None; logFalha := None;
     closeFalha := None;
     timestampMarcar := 1100; timestampLinha := fun i => 1101 + Z.of_nat i |}.

(** The write of the first record is rejected by the database. *)
Definition ambLinhaRejeitada : Ambiente :=
  {| relogioInicio := 1000; relogioFim := 1250;
     tokenResp := inr "bearer"%string;
     buscaResp := inr snapshot;
     conexaoResp := None; marcarFalha := None;
     selectFalha := fun _ => None;
     escritaFalha := fun i => if (i =? 0)%nat then Some ORA_12899 else None;
     commitFalha := None; rollbackFalha := None; logFalha := None;
     closeFalha := None;
     timestampMarcar := 1100; timestampLinha := fun i => 1101 + Z.of_nat i |}.

(** The token provider is unreachable. *)
Definition ambSemToken : Ambiente :=
  {| relogioInicio := 1000; relogioFim := 1250;
     tokenResp := inl ETIMEDOUT;
     buscaResp := inr snapshot;
     conexaoResp := None; marcarFalha := None;
     selectFalha := fun _ => None; escritaFalha := fun _ => None;
     commitFalha := None; rollbackFalha := None; logFalha := None;
     closeFalha := None;
     timestampMarcar := 1100; timestampLinha := fun i => 1101 + Z.of_nat i |}.

(** A directory of two companies; the run of the first one fails. *)
Definition lote2 : AmbienteLote :=
  {| dirConexao := None;
     dirConsulta := inr (Some [ {| ID_EMPRESA := 1; EMPRESA := "ACME" |};
                                {| ID_EMPRESA := 2; EMPRESA := "BETA" |} ]);
     dirClose := None; dirCloseFinal := None;
     ambienteDe := fun i => if (i =? 0)%nat then ambSemToken else ambOk |}.

End Cenario.

(** ** Synchronisation statistics *)

Module Estatisticas.

(** A row of the statistics query. *)
Record linha : Type := {
  ID_SISTEMA : Z;
  TOTAL_REGISTROS : nat;
  REGISTROS_ATIVOS : nat;
  REGISTROS_DELETADOS : nat;
  ULTIMA_SINCRONIZACAO : Z
}.

End Estatisticas.

Section Statistics.
Context `{E : Esquema}.
Import Exec.
Abbreviation Tabela := (list Linha).

(** [MAX] over a group whose first value is [x]. *)
Definition maximo (x : Z) (xs : list Z) : Z := foldr Z.max x xs.

(** The row that [GROUP BY ID_SISTEMA] gives for the system [s]: the
    count of its rows, of those with ['S'], of those with ['N'], and the
    latest [DT_ULT_CARGA]. *)
Definition agrega (t : Tabela) (s : Z) : Estatisticas.linha :=
  let g := filter (fun l => ID_SISTEMA l = s) t in
  {| Estatisticas.ID_SISTEMA := s;
     Estatisticas.TOTAL_REGISTROS := length g;
     Estatisticas.REGISTROS_ATIVOS :=
       length (filter (fun l => SANKHYA_ATUAL l = true) g);
     Estatisticas.REGISTROS_DELETADOS :=
       length (filter (fun l => SANKHYA_ATUAL l = false) g);
     Estatisticas.ULTIMA_SINCRONIZACAO :=
       match DT_ULT_CARGA <$> g with
       | [] => 0
       | x :: xs => maximo x xs
       end |}.

(** The statistics query, with or without [WHERE ID_SISTEMA = :idSistema]:
    one row per system that has rows. The query fixes no order; the rows
    are listed by first appearance of the system in the table. *)
Definition sqlEstatisticas (filtro : option Z) (t : Tabela) : list Estatisticas.linha :=
  let t' :=
    match filtro with
    | Some s => filter (fun l => ID_SISTEMA l = s) t
    | None => t
    end in
  agrega t' <$> remove_dups (ID_SISTEMA <$> t').

(** [idSistema ? ... : ...] on [number | undefined]: zero is falsy. *)
Definition filtroDe (idSistema : option Z) : option Z :=
  match idSistema with
  | Some s => if s =? 0 then None else Some s
  | None => None
  end.

(** What the collaborators answer to the statistics function: the
    connection provider, the query and the [close]. *)
Record AmbienteEstatisticas : Type := {
  estConexao : option Erro;
  estConsulta : option Erro;
  estClose : option Erro
}.

Definition obterEstatisticasCorpo (ae : AmbienteEstatisticas) (idSistema : option Z)
  : M EstadoLote (list Estatisticas.linha) :=
  tryFinally
    (tryCatch
       (emiteL EvConnect ;;
        falhaSeL (estConexao ae) ;;
        setConnectionL true ;;
        let query := filtroDe idSistema in
        falhaSeL (estConsulta ae) ;;
        st ← get;
        ret (sqlEstatisticas query (espelho (mundoL st))))
       (fun error => throw error))
    (st ← get;
     if connectionL st
     then tryCatch (emiteL EvClose ;; falhaSeL (estClose ae))
                   (fun closeError => ret tt)
     else ret tt).

(** [obterEstatisticasSincronizacao(idSistema?)] on the committed table. *)
Definition obterEstatisticasSincronizacao (ae : AmbienteEstatisticas)
    (idSistema : option Z) : M Mundo (list Estatisticas.linha) :=
  fun w =>
    match obterEstatisticasCorpo ae idSistema {| mundoL := w; connectionL := false |} with
    | (st, r) => (mundoL st, r)
    end.

(** *** Vocabulary of the further statements *)

(** The row [l'] is the row [l] with its identity kept: same system, same
    business key, same creation time. *)
Definition mesmaLinha (l l' : Linha) : Prop :=
  ID_SISTEMA l' = ID_SISTEMA l /\ chave l' = chave l
  /\ DT_CRIACAO l' = DT_CRIACAO l.

(** The rows of the other systems. *)
Definition alheias (idSistema : Z) (t : Tabela) : Tabela :=
  filter (fun l => ID_SISTEMA l <> idSistema) t.

(** How many of the positions below [n] have a statement that throws. *)
Definition falhasAte (amb : Ambiente) (n : nat) : nat :=
  length (filter (fun i => linhaFalha amb i = true) (seq 0 n)).

(** Every row keyed [(idSistema, k)] satisfies [P]. *)
Definition todasDe (idSistema : Z) (k : Chave) (P : Linha -> Prop) (t : Tabela) : Prop :=
  forall l, l ∈ t -> casa idSistema k l = true -> P l.

(** The table [t'] keeps every row of [t], in its place and with its
    identity, and has after them [n] more rows, all of the system
    [idSistema]. *)
Definition conserva (idSistema : Z) (t t' : Tabela) (n : nat) : Prop :=
  exists antigas novas : Tabela,
    t' = antigas ++ novas
    /\ Forall2 mesmaLinha t antigas
    /\ Forall (fun l => ID_SISTEMA l = idSistema) novas
    /\ length novas = n.

(** The active rows of a system. *)
Definition ativasDe (idSistema : Z) (t : Tabela) : Tabela :=
  filter (fun l => atualDe idSistema l = true) t.

(** One of the five collaborators of a run throws. *)
Definition colaboradorFalha (amb : Ambiente) : Prop :=
  (exists e, tokenResp amb = inl e)
  \/ (exists e, buscaResp amb = inl e)
  \/ (exists e, conexaoResp amb = Some e)
  \/ (exists e, marcarFalha amb = Some e)
  \/ (exists e, commitFalha amb = Some e).

End Statistics.

(** ** More of the scenario *)

Module CenarioMais.
Import Financeiro Cenario.

(** The statistics function with every collaborator answering. *)
Definition estOk : AmbienteEstatisticas :=
  {| estConexao := None; estConsulta := None; estClose := None |}.

(** The remote system sends the record 7 twice. *)
Definition repetido : list Financeiro :=
  [titulo 7; titulo 5; titulo 7].

Definition ambRepetido : Ambiente :=
  {| relogioInicio := 1000; relogioFim := 1250;
     tokenResp := inr "bearer"%string;
     buscaResp := inr repetido;
     conexaoResp := None; marcarFalha := None;
     selectFalha := fun _ => None; escritaFalha := fun _ => None;
     commitFalha := None; rollbackFalha := None; logFalha := None;
     closeFalha := None;
     timestampMarcar := 1100; timestampLinha := fun i => 1101 + Z.of_nat i |}.

(** A directory with the company 1 only. *)
Definition lote1 : AmbienteLote :=
  {| dirConexao := None;
     dirConsulta := inr (Some [ {| ID_EMPRESA := 1; EMPRESA := "ACME" |} ]);
     dirClose := None; dirCloseFinal := None;
     ambienteDe := fun _ => ambOk |}.

(** The directory answers, and closing its connection fails. *)
Definition loteCloseFalha : AmbienteLote :=
  {| dirConexao := None;
     dirConsulta := inr (Some [ {| ID_EMPRESA := 1; EMPRESA := "ACME" |} ]);
     dirClose := Some ETIMEDOUT; dirCloseFinal := Some ETIMEDOUT;
     ambienteDe := fun _ => ambOk |}.

End CenarioMais.

(** * Properties *)

(** ** Numeric clamping *)

Module SanitizerNumeric.
Import JS Text Sanitizer NumberForms.

Lemma limite_value : limite = S754_finite false 5119999999999995 (-9).
Proof. vm_compute. reflexivity. Qed.

Lemma lit_0_01_value : lit_0_01 = S754_finite false 5764607523034235 (-59).
Proof. vm_compute. reflexivity. Qed.

(** After the test for [undefined] and [null] the function works on the
    number that its argument converts to. *)
Lemma validar_unfold (valor : value) :
  valor <> undefined -> valor <> null ->
  validarValorNumerico valor maxDigits_default =
    if isNaN (ToNumber valor) then None
    else if gt (Math_abs (ToNumber valor)) limite
         then Some (if gt (ToNumber valor) zero then limite else neg limite)
         else Some (ToNumber valor).
Proof. intros Hu Hn. destruct valor; try congruence; reflexivity. Qed.

Lemma validar_unfold_num (x : number) :
  validarValorNumerico (Num x) maxDigits_default =
    if isNaN x then None
    else if gt (Math_abs x) limite
         then Some (if gt x zero then limite else neg limite)
         else Some x.
Proof. reflexivity. Qed.

(** Beyond the limit a number is positive exactly when its sign bit is
    clear: zeros and NaN are not beyond it. *)
Lemma gt_zero_signbit (x : number) :
  gt (Math_abs x) limite = true -> gt x zero = negb (signbit x).
Proof.
  rewrite limite_value.
  destruct x as [s | s | | s m e]; simpl; try discriminate.
  - destruct s; reflexivity.
  - destruct s; reflexivity.
Qed.

(** A text that does not begin as a numeric literal denotes no number. *)
Lemma StringToNumber_not_literal (str : string) (c : ascii) (s : string) :
  trim str = String c s -> opensLiteral c = false -> StringToNumber str = NaN.
Proof.
  intros Ht Hc. unfold StringToNumber. rewrite Ht.
  unfold opensLiteral in Hc.
  apply orb_false_iff in Hc as [Hc HI].
  apply orb_false_iff in Hc as [Hc Hpoint].
  apply orb_false_iff in Hc as [Hc Hminus].
  apply orb_false_iff in Hc as [Hc Hplus].
  assert (Hzero : Ascii.eqb c "0" = false).
  { destruct (Ascii.eqb_spec c "0") as [->|]; [discriminate Hc | reflexivity]. }
  rewrite Hzero, Hminus, Hplus. cbn [andb].
  unfold unsignedDecimal.
  assert (Hinf : String.eqb (String c s) "Infinity" = false).
  { cbn [String.eqb]. now rewrite HI. }
  rewrite Hinf. cbn [decimalDigits].
  unfold DateForms.isDigit in Hc.
  assert (Hd : (48 <=? Z.of_N (N_of_ascii c)) && (Z.of_N (N_of_ascii c) <=? 57) = false).
  { rewrite <- Hc. f_equal.
    - destruct (N.leb_spec 48 (N_of_ascii c)), (Z.leb_spec 48 (Z.of_N (N_of_ascii c)));
        try reflexivity; lia.
    - destruct (N.leb_spec (N_of_ascii c) 57), (Z.leb_spec (Z.of_N (N_of_ascii c)) 57);
        try reflexivity; lia. }
  rewrite Hd. cbn [startsWith]. rewrite Hpoint. reflexivity.
Qed.

(** C6. With the default [maxDigits = 15] the limit computed is the
    double nearest to 10^13 - 0.01 (it is 5119999999999995 * 2^-9, within
    2^-10 of that real number). [undefined] and [null] give [null]. A
    number whose magnitude exceeds the limit is replaced by the limit with
    the sign of the number; a number whose magnitude does not exceed it is
    returned unchanged; NaN gives [null]. Every other argument is first
    converted by [Number(valor)] and treated as the number it converts
    to: [null] when that is NaN, as for every text that does not begin as
    a numeric literal (["abc"]); the number otherwise, so that ["12.5"]
    gives 12.5 and the empty string, a blank string and [false] give 0. *)
Theorem validarValorNumerico_clamp :
  limite = S754_finite false 5119999999999995 (-9)
  /\ (Qabs (toQ limite - (10 ^ 13 - (1 # 100))) <= (1 # 1024))%Q
  /\ validarValorNumerico undefined maxDigits_default = None
  /\ validarValorNumerico null maxDigits_default = None
  /\ validarValorNumerico (Num NaN) maxDigits_default = None
  /\ (forall v : number,
        isNaN v = false ->
        gt (Math_abs v) limite = true ->
        validarValorNumerico (Num v) maxDigits_default
          = Some (if signbit v then neg limite else limite))
  /\ (forall v : number,
        isNaN v = false ->
        gt (Math_abs v) limite = false ->
        validarValorNumerico (Num v) maxDigits_default = Some v)
  /\ (forall valor : value,
        valor <> undefined -> valor <> null ->
        validarValorNumerico valor maxDigits_default
          = validarValorNumerico (Num (ToNumber valor)) maxDigits_default)
  /\ (forall valor : value,
        isNaN (ToNumber valor) = true ->
        validarValorNumerico valor maxDigits_default = None)
  /\ (forall (str : string) (c : ascii) (s : string),
        trim str = String c s -> opensLiteral c = false ->
        validarValorNumerico (Str str) maxDigits_default = None)
  /\ validarValorNumerico (Str "abc") maxDigits_default = None
  /\ validarValorNumerico (Str "12.5") maxDigits_default
       = Some (S754_finite false 7036874417766400 (-49))
  /\ validarValorNumerico (Str "") maxDigits_default = Some zero
  /\ validarValorNumerico (Str "  ") maxDigits_default = Some zero
  /\ validarValorNumerico (Bool false) maxDigits_default = Some zero.
Proof.
  split; [exact limite_value|].
  split; [vm_compute; intros H; discriminate H|].
  do 3 (split; [reflexivity|]).
  split.
  { intros v Hnan Hgt. rewrite validar_unfold_num, Hnan, Hgt.
    rewrite (gt_zero_signbit v Hgt). destruct (signbit v); reflexivity. }
  split.
  { intros v Hnan Hgt. rewrite validar_unfold_num, Hnan, Hgt. reflexivity. }
  split.
  { intros valor Hu Hn. rewrite validar_unfold_num.
    now apply validar_unfold. }
  split.
  { intros valor Hnan. destruct valor; try reflexivity.
    all: rewrite validar_unfold by discriminate; now rewrite Hnan. }
  split.
  { intros str c s Ht Hc. rewrite validar_unfold by discriminate.
    cbn [ToNumber]. now rewrite (StringToNumber_not_literal str c s Ht Hc). }
  repeat split; vm_compute; reflexivity.
Qed.

(** The clamp at work on 2 * 10^13, on its opposite and on 1234; the
    conversion at work on a text and on [true]. *)
Lemma validarValorNumerico_clamp_witness :
  validarValorNumerico (Num (ofZ (2 * 10 ^ 13))) maxDigits_default = Some limite
  /\ validarValorNumerico (Num (ofZ (- 2 * 10 ^ 13))) maxDigits_default
       = Some (neg limite)
  /\ validarValorNumerico (Num (ofZ 1234)) maxDigits_default = Some (ofZ 1234)
  /\ validarValorNumerico (Str "-2e13") maxDigits_default
       = validarValorNumerico (Num (ToNumber (Str "-2e13"))) maxDigits_default
  /\ validarValorNumerico (Num (div zero zero)) maxDigits_default = None
  /\ validarValorNumerico (Str " R$ 10,00") maxDigits_default = None.
Proof.
  destruct validarValorNumerico_clamp
    as (_ & _ & _ & _ & _ & Hbig & Hsmall & Hconv & Hnan & Htext & _).
  split; [|split; [|split; [|split; [|split]]]].
  - apply (Hbig (ofZ (2 * 10 ^ 13))); vm_compute; reflexivity.
  - apply (Hbig (ofZ (- 2 * 10 ^ 13))); vm_compute; reflexivity.
  - apply (Hsmall (ofZ 1234)); vm_compute; reflexivity.
  - apply (Hconv (Str "-2e13")); discriminate.
  - apply (Hnan (Num (div zero zero))); vm_compute; reflexivity.
  - apply (Htext " R$ 10,00"%string "R"%char "$ 10,00"%string);
      vm_compute; reflexivity.
Defined.

(** The empty string and [false] are no numbers, and the function
    returns 0 for them, not [null]. *)
Lemma validarValorNumerico_empty_string :
  validarValorNumerico (Str "") maxDigits_default = Some zero
  /\ validarValorNumerico (Bool false) maxDigits_default = Some zero
  /\ ~ (forall valor : value,
          (forall x : number, valor <> Num x) ->
          validarValorNumerico valor maxDigits_default = None).
Proof.
  split; [reflexivity|]. split; [reflexivity|].
  intros H.
  assert (E : validarValorNumerico (Str "") maxDigits_default = Some zero)
    by reflexivity.
  rewrite H in E; [discriminate E | intros x; discriminate].
Qed.

End SanitizerNumeric.

(** ** Date parsing *)

Module SanitizerDates.
Import JS Text DateTime Sanitizer DateForms.

(** *** Characters *)

Lemma isDigit_range (c : ascii) :
  isDigit c = true -> (48 <= N_of_ascii c <= 57)%N.
Proof.
  unfold isDigit. intros [H1 H2]%andb_true_iff.
  apply N.leb_le in H1, H2. lia.
Qed.

Lemma digit_not_white (c : ascii) : isDigit c = true -> isWhiteSpace c = false.
Proof.
  intros H%isDigit_range. unfold isWhiteSpace.
  replace (N_of_ascii c <=? 13)%N with false by (symmetry; apply N.leb_gt; lia).
  replace (N_of_ascii c =? 32)%N with false by (symmetry; apply N.eqb_neq; lia).
  replace (N_of_ascii c =? 160)%N with false by (symmetry; apply N.eqb_neq; lia).
  now rewrite andb_false_r.
Qed.

Lemma digit_neq (c d : ascii) :
  isDigit c = true -> isDigit d = false -> Ascii.eqb c d = false.
Proof.
  intros Hc Hd. destruct (Ascii.eqb_spec c d) as [->|]; [congruence | reflexivity].
Qed.

Lemma digitValue_digit (c : ascii) :
  isDigit c = true -> digitValue c = Some (Z.of_N (N_of_ascii c) - 48).
Proof.
  intros H%isDigit_range. unfold digitValue.
  replace (48 <=? Z.of_N (N_of_ascii c)) with true by (symmetry; apply Z.leb_le; lia).
  replace (Z.of_N (N_of_ascii c) <=? 57) with true by (symmetry; apply Z.leb_le; lia).
  reflexivity.
Qed.

(** *** Appending *)

Lemma append_nil (b : string) : "" +:+ b = b.
Proof. reflexivity. Qed.

Lemma append_cons (c : ascii) (a b : string) :
  String c a +:+ b = String c (a +:+ b).
Proof. reflexivity. Qed.

Ltac unappend := rewrite ?append_cons, ?append_nil.

Lemma allDigits_cons_inv (s : string) :
  allDigits s = true -> s <> EmptyString ->
  exists c s', s = String c s' /\ isDigit c = true /\ allDigits s' = true.
Proof.
  destruct s as [|c s']; [congruence|]. simpl.
  intros [? ?]%andb_true_iff _. eauto.
Qed.

(** *** Trimming *)

Lemma trimEnd_digits (s : string) : allDigits s = true -> trimEnd s = s.
Proof.
  induction s as [|c s IH]; simpl; [reflexivity|].
  intros [Hc Hs]%andb_true_iff. rewrite (IH Hs).
  destruct s; [now rewrite digit_not_white | reflexivity].
Qed.

Lemma trimEnd_append (a b : string) :
  trimEnd b = b -> b <> EmptyString -> trimEnd (a +:+ b) = a +:+ b.
Proof.
  intros Hb Hne. induction a as [|c a IH]; unappend; simpl; [exact Hb|].
  rewrite IH. destruct (a +:+ b) eqn:Hab; [|reflexivity].
  destruct a; rewrite ?append_cons, ?append_nil in Hab; congruence.
Qed.

Lemma trimStart_digit (c : ascii) (s : string) :
  isDigit c = true -> trimStart (String c s) = String c s.
Proof. intros H. simpl. now rewrite digit_not_white. Qed.

(** *** Splitting *)


Lemma split_without (sep : ascii) (s : string) :
  count sep s = 0%nat -> split sep s = [s].
Proof.
  induction s as [|c s IH]; simpl; [reflexivity|].
  destruct (Ascii.eqb c sep); [discriminate|]. intros H.
  now rewrite IH.
Qed.

Lemma split_append (sep : ascii) (a b : string) :
  count sep a = 0%nat ->
  split sep (a +:+ String sep b) = a :: split sep b.
Proof.
  induction a as [|c a IH]; unappend; simpl.
  - intros _. now rewrite Ascii.eqb_refl.
  - destruct (Ascii.eqb c sep); [discriminate|]. intros H.
    now rewrite IH.
Qed.


Lemma count_digits (sep : ascii) (s : string) :
  isDigit sep = false -> allDigits s = true -> count sep s = 0%nat.
Proof.
  intros Hsep. induction s as [|c s IH]; simpl; [reflexivity|].
  intros [Hc Hs]%andb_true_iff. now rewrite (digit_neq c sep), IH.
Qed.

Lemma count_append (c : ascii) (a b : string) :
  count c (a +:+ b) = (count c a + count c b)%nat.
Proof. induction a as [|x a IH]; unappend; simpl; [reflexivity | rewrite IH; lia]. Qed.

(** *** Reading integers *)

Lemma digits_decimal (s : string) (acc : option Z) :
  allDigits s = true ->
  digits 10 s acc =
    match s, acc with
    | EmptyString, _ => acc
    | _, _ => Some (decimalFrom (default 0 acc) s)
    end.
Proof.
  revert acc. induction s as [|c s IH]; intros acc; simpl; [reflexivity|].
  intros [Hc Hs]%andb_true_iff.
  rewrite (digitValue_digit c Hc).
  pose proof (isDigit_range c Hc) as Hr.
  replace (_ <? 10) with true by (symmetry; apply Z.ltb_lt; lia).
  rewrite (IH _ Hs). destruct s; reflexivity.
Qed.

Lemma parseInt_digits (s : string) :
  allDigits s = true -> s <> EmptyString -> parseInt s = Some (decimal s).
Proof.
  intros Hs Hne.
  destruct (allDigits_cons_inv s Hs Hne) as (c & s' & -> & Hc & Hs').
  unfold parseInt. rewrite (trimStart_digit c s' Hc).
  cbn [startsWith tail].
  rewrite (digit_neq c "-"), (digit_neq c "+") by (exact Hc || reflexivity).
  cbn [orb].
  assert (Hhex : Ascii.eqb c "0" && (startsWith "x" s' || startsWith "X" s') = false).
  { destruct s' as [|d s'']; cbn [startsWith]; [now rewrite andb_false_r|].
    simpl in Hs'. apply andb_true_iff in Hs' as [Hd _].
    rewrite (digit_neq d "x"), (digit_neq d "X") by (exact Hd || reflexivity).
    now rewrite andb_false_r. }
  cbn [startsWith tail]. rewrite Hhex.
  rewrite (digits_decimal _ None Hs). reflexivity.
Qed.

(** *** Strings that end in digits *)

Lemma append_assoc (a b c : string) : (a +:+ b) +:+ c = a +:+ (b +:+ c).
Proof. induction a as [|x a IH]; unappend; [reflexivity | now rewrite IH]. Qed.

Lemma trimEnd_cons (c : ascii) (s : string) :
  trimEnd s = s -> s <> EmptyString -> trimEnd (String c s) = String c s.
Proof. intros Hs Hne. simpl. rewrite Hs. destruct s; [congruence | reflexivity]. Qed.

Lemma append_nonempty (a b : string) : b <> EmptyString -> a +:+ b <> EmptyString.
Proof. destruct a; unappend; [trivial | discriminate]. Qed.

(** Strings built from digit strings and separators that end in a digit
    string are left alone by [trimEnd]. *)
Ltac trim_end :=
  repeat first
    [ assumption
    | discriminate
    | apply trimEnd_digits; assumption
    | apply trimEnd_append
    | apply trimEnd_cons
    | apply append_nonempty ].

(** *** The function on a string *)

Lemma parseDataSankhya_unfold (tz : TimeZone) (c : ascii) (s : string) :
  parseDataSankhya tz (Str (String c s)) =
    let partes := split " " (trim (String c s)) in
    let dataParte := default EmptyString (partes !! 0%nat) in
    let horaParte := orElse (partes !! 1%nat) "00:00:00" in
    let ds := split "/" dataParte in
    if falsy (ds !! 0%nat) || falsy (ds !! 1%nat) || falsy (ds !! 2%nat)
    then inr null
    else
      let hs := split ":" horaParte in
      inr (dateOrNull
             (Date_new tz
                (parseInt (default EmptyString (ds !! 2%nat)))
                ((fun m => m - 1) <$> parseInt (default EmptyString (ds !! 1%nat)))
                (parseInt (default EmptyString (ds !! 0%nat)))
                (parseInt (orElse (hs !! 0%nat) "0"))
                (parseInt (orElse (hs !! 1%nat) "0"))
                (parseInt (orElse (hs !! 2%nat) "0")))).
Proof.
  unfold parseDataSankhya, parseDataSankhyaTry.
  cbn [truthy String.eqb negb trimOf]. cbv zeta.
  destruct (_ || _); [reflexivity|]. cbn [getTime].
  destruct (Date_new _ _ _ _ _ _ _); reflexivity.
Qed.

(** A falsy argument is answered before the [try]. *)
Lemma parseDataSankhya_falsy (tz : TimeZone) (dataStr : value) :
  truthy dataStr = false -> parseDataSankhya tz dataStr = inr null.
Proof. intros H. unfold parseDataSankhya. now rewrite H. Qed.

(** An argument that is no string has no [trim]: the [try] block throws
    and the [catch] answers. *)
Lemma parseDataSankhya_not_string (tz : TimeZone) (dataStr : value) :
  (forall s : string, dataStr <> Str s) -> parseDataSankhya tz dataStr = inr null.
Proof.
  intros H. unfold parseDataSankhya, parseDataSankhyaTry.
  destruct dataStr; cbn [trimOf]; try (now destruct (negb _)).
  now contradiction (H s).
Qed.

(** What the function returns is [null] or a date with a time value. *)
Lemma parseDataSankhya_returns (tz : TimeZone) (dataStr : value) :
  parseDataSankhya tz dataStr = inr null
  \/ exists t : Z,
       parseDataSankhya tz dataStr = inr (DateObj (Some t))
       /\ - 8640000000000000 <= t <= 8640000000000000.
Proof.
  destruct dataStr as [| | b | x | s | tv];
    try (left; apply parseDataSankhya_not_string; discriminate).
  destruct s as [|c s]; [now left|].
  rewrite parseDataSankhya_unfold. cbv zeta.
  destruct (_ || _); [now left|].
  unfold Date_new.
  repeat match goal with
         | |- context [match ?o with Some _ => _ | None => _ end] =>
             destruct o; try (now left)
         end.
  unfold TimeClip.
  match goal with
  | |- context [Z.abs ?x >? ?y] => destruct (Z.gtb_spec (Z.abs x) y) as [Hgt|Hle]
  end; [now left|].
  right. eexists. split; [reflexivity|]. lia.
Qed.

Lemma split_dateText (dd mm yyyy : string) :
  count "/" dd = 0%nat -> count "/" mm = 0%nat -> count "/" yyyy = 0%nat ->
  split "/" (dateText dd mm yyyy) = [dd; mm; yyyy].
Proof.
  intros Hd Hm Hy. unfold dateText. unappend.
  rewrite (split_append "/" dd) by assumption.
  rewrite (split_append "/" mm) by assumption.
  rewrite (split_without "/" yyyy) by assumption.
  reflexivity.
Qed.


Lemma count_space_dateText (dd mm yyyy : string) :
  count " " dd = 0%nat -> count " " mm = 0%nat -> count " " yyyy = 0%nat ->
  count " " (dateText dd mm yyyy) = 0%nat.
Proof.
  intros Hd Hm Hy. unfold dateText. rewrite !count_append, Hd, Hm, Hy.
  reflexivity.
Qed.


Lemma orElse_nonempty (s d : string) : s <> EmptyString -> orElse (Some s) d = s.
Proof. destruct s; [congruence | reflexivity]. Qed.

Lemma falsy_nonempty (s : string) : s <> EmptyString -> falsy (Some s) = false.
Proof. destruct s; [congruence | reflexivity]. Qed.

(** *** Words *)

Lemma word_cons (c : ascii) (s : string) :
  word (String c s) = true ->
  isWhiteSpace c = false /\ Ascii.eqb c "/" = false /\ word s = true.
Proof.
  cbn [word]. intros [[H1 H2]%andb_true_iff H3]%andb_true_iff.
  apply negb_true_iff in H1, H2. auto.
Qed.

Lemma word_digits (s : string) : allDigits s = true -> word s = true.
Proof.
  induction s as [|c s IH]; [reflexivity|]. cbn [allDigits word].
  intros [Hc Hs]%andb_true_iff.
  rewrite (digit_not_white c Hc), (digit_neq c "/" Hc eq_refl), (IH Hs).
  reflexivity.
Qed.

Lemma count_slash_word (s : string) : word s = true -> count "/" s = 0%nat.
Proof.
  induction s as [|c s IH]; [reflexivity|].
  intros (_ & Hc & Hs)%word_cons. cbn [count]. now rewrite Hc, IH.
Qed.

Lemma count_space_word (s : string) : word s = true -> count " " s = 0%nat.
Proof.
  induction s as [|c s IH]; [reflexivity|].
  intros (Hc & _ & Hs)%word_cons. cbn [count].
  destruct (Ascii.eqb_spec c " ") as [->|]; [discriminate Hc | now rewrite IH].
Qed.

Lemma trimEnd_word (s : string) : word s = true -> trimEnd s = s.
Proof.
  induction s as [|c s IH]; [reflexivity|].
  intros (Hc & _ & Hs)%word_cons. cbn [trimEnd]. rewrite (IH Hs), Hc.
  now destruct s.
Qed.

(** A date of three words, of which the first is not empty, is its own
    trimmed form. *)
Lemma trim_dateText (dd mm yyyy : string) :
  word dd = true -> word mm = true -> word yyyy = true ->
  trim (dateText dd mm yyyy) = dateText dd mm yyyy.
Proof.
  intros Hd Hm Hy. unfold trim, dateText.
  assert (Hstart : trimStart (dd +:+ "/" +:+ mm +:+ "/" +:+ yyyy)
                   = dd +:+ "/" +:+ mm +:+ "/" +:+ yyyy).
  { destruct dd as [|c dd]; [reflexivity|].
    apply word_cons in Hd as (Hc & _). unappend. cbn [trimStart]. now rewrite Hc. }
  rewrite Hstart.
  assert (Hyy : trimEnd (String "/" yyyy) = String "/" yyyy).
  { cbn [trimEnd]. rewrite (trimEnd_word yyyy Hy). now destruct yyyy. }
  apply trimEnd_append; [|discriminate].
  change ("/" +:+ mm +:+ "/" +:+ yyyy) with (String "/" (mm +:+ String "/" yyyy)).
  apply trimEnd_cons.
  - apply trimEnd_append; [exact Hyy | discriminate].
  - apply append_nonempty. discriminate.
Qed.

(** The parts of a date of three words. *)
Lemma parseDataSankhya_words (tz : TimeZone) (dd mm yyyy : string) :
  word dd = true -> word mm = true -> word yyyy = true ->
  parseDataSankhya tz (Str (dateText dd mm yyyy)) =
    if falsy (Some dd) || falsy (Some mm) || falsy (Some yyyy) then inr null
    else inr (dateOrNull
                (Date_new tz (parseInt yyyy) ((fun m => m - 1) <$> parseInt mm)
                          (parseInt dd) (Some 0) (Some 0) (Some 0))).
Proof.
  intros Hd Hm Hy.
  pose proof (split_dateText dd mm yyyy (count_slash_word _ Hd)
                (count_slash_word _ Hm) (count_slash_word _ Hy)) as Hsplit.
  pose proof (count_space_dateText dd mm yyyy (count_space_word _ Hd)
                (count_space_word _ Hm) (count_space_word _ Hy)) as Hcount.
  pose proof (trim_dateText dd mm yyyy Hd Hm Hy) as Htrim.
  assert (Ehead : exists c s, dateText dd mm yyyy = String c s).
  { unfold dateText. destruct dd; unappend; eauto. }
  destruct Ehead as (c & s & Ehead).
  rewrite Ehead at 1. rewrite parseDataSankhya_unfold, <- Ehead. cbv zeta.
  rewrite Htrim, (split_without " " _ Hcount).
  cbn [lookup list_lookup default from_option id].
  rewrite Hsplit. cbn [lookup list_lookup default from_option id orElse].
  reflexivity.
Qed.

(** A date of decimal digits alone is read field by field, the time
    being midnight. *)
Lemma parseDataSankhya_date (tz : TimeZone) (dd mm yyyy : string) :
  allDigits dd = true -> dd <> EmptyString ->
  allDigits mm = true -> mm <> EmptyString ->
  allDigits yyyy = true -> yyyy <> EmptyString ->
  parseDataSankhya tz (Str (dateText dd mm yyyy)) =
    inr (dateOrNull
           (Date_new tz (Some (decimal yyyy)) (Some (decimal mm - 1))
                     (Some (decimal dd)) (Some 0) (Some 0) (Some 0))).
Proof.
  intros Hd Hdn Hm Hmn Hy Hyn.
  rewrite parseDataSankhya_words by now apply word_digits.
  rewrite !falsy_nonempty by assumption. cbn [orb].
  rewrite !parseInt_digits by assumption.
  reflexivity.
Qed.



(** *** Sizes *)

Lemma decimalFrom_bounds (s : string) :
  allDigits s = true ->
  forall acc, 0 <= acc ->
    0 <= decimalFrom acc s < (acc + 1) * 10 ^ Z.of_nat (String.length s).
Proof.
  induction s as [|c s IH]; intros Hs acc Hacc.
  - simpl. lia.
  - simpl in Hs. apply andb_true_iff in Hs as [Hc Hs].
    pose proof (isDigit_range c Hc) as Hr.
    cbn [decimalFrom String.length].
    specialize (IH Hs (acc * 10 + (Z.of_N (N_of_ascii c) - 48)) ltac:(lia)).
    rewrite Nat2Z.inj_succ, Z.pow_succ_r by lia.
    assert (0 < 10 ^ Z.of_nat (String.length s)) by (apply Z.pow_pos_nonneg; lia).
    nia.
Qed.

Lemma digitString_inv (n : nat) (s : string) :
  digitString n s = true ->
  allDigits s = true /\ String.length s = n /\ 0 <= decimal s < 10 ^ Z.of_nat n.
Proof.
  unfold digitString. intros [Hl Hs]%andb_true_iff. apply Nat.eqb_eq in Hl.
  repeat split; try assumption;
    pose proof (decimalFrom_bounds s Hs 0 ltac:(lia)) as Hb;
    rewrite Hl in Hb; unfold decimal; lia.
Qed.

Lemma digitString_nonempty (n : nat) (s : string) :
  digitString (S n) s = true -> s <> EmptyString.
Proof. intros (_ & Hl & _)%digitString_inv ->. discriminate. Qed.

Lemma DaysBeforeMonth_bounds (leap : bool) (mn : Z) :
  0 <= DaysBeforeMonth leap mn <= 335.
Proof.
  unfold DaysBeforeMonth.
  destruct leap, mn as [|p|p]; try lia;
    repeat (destruct p as [p|p|]; try lia).
Qed.

(** Fields of at most four digits for the year and two for the others
    stay far inside the range of time values, in every time zone. *)
Lemma TimeClip_small (tz : TimeZone) (y m d h mi s : Z) :
  boundedZone tz ->
  0 <= y < 10000 -> 0 <= m < 100 -> 0 <= d < 100 ->
  0 <= h < 100 -> 0 <= mi < 100 -> 0 <= s < 100 ->
  TimeClip (UTC tz (MakeDate (MakeDay (fullYear y) (m - 1) d) (MakeTime h mi s 0)))
    = Some (UTC tz (MakeDate (MakeDay (fullYear y) (m - 1) d) (MakeTime h mi s 0))).
Proof.
  intros Htz Hy Hm Hd Hh Hmi Hs. unfold TimeClip.
  replace (_ >? _) with false; [reflexivity|].
  symmetry. rewrite Z.gtb_ltb. apply Z.ltb_ge.
  unfold UTC.
  set (L := MakeDate _ _).
  pose proof (Htz L false) as Hoff. unfold msPerDay in Hoff.
  enough (Z.abs L <= 8000000000000000) by lia.
  unfold L, MakeDate, MakeTime, MakeDay, msPerDay, msPerHour, msPerMinute, msPerSecond.
  set (ym := fullYear y + (m - 1) / 12).
  pose proof (DaysBeforeMonth_bounds (InLeapYear ym) ((m - 1) mod 12)) as Hb.
  assert (Hym : 99 <= ym <= 10007).
  { unfold ym, fullYear. destruct (_ && _) eqn:E.
    - apply andb_true_iff in E as [E1 E2]. apply Z.leb_le in E1, E2.
      pose proof (Z.div_le_mono (-1) (m - 1) 12 ltac:(lia) ltac:(lia)).
      pose proof (Z.div_le_mono (m - 1) 98 12 ltac:(lia) ltac:(lia)).
      change (-1 / 12) with (-1) in *. change (98 / 12) with 8 in *. lia.
    - apply andb_false_iff in E as [E|E];
        [apply Z.leb_gt in E | apply Z.leb_gt in E];
        pose proof (Z.div_le_mono (-1) (m - 1) 12 ltac:(lia) ltac:(lia));
        pose proof (Z.div_le_mono (m - 1) 98 12 ltac:(lia) ltac:(lia));
        change (-1 / 12) with (-1) in *; change (98 / 12) with 8 in *; lia. }
  assert (Hday : -700000 <= DayFromYear ym <= 3000000).
  { unfold DayFromYear.
    pose proof (Z.div_le_mono (-2000) (ym - 1969) 4 ltac:(lia) ltac:(lia)).
    pose proof (Z.div_le_mono (ym - 1969) 10000 4 ltac:(lia) ltac:(lia)).
    pose proof (Z.div_le_mono (-2000) (ym - 1901) 100 ltac:(lia) ltac:(lia)).
    pose proof (Z.div_le_mono (ym - 1901) 10000 100 ltac:(lia) ltac:(lia)).
    pose proof (Z.div_le_mono (-2000) (ym - 1601) 400 ltac:(lia) ltac:(lia)).
    pose proof (Z.div_le_mono (ym - 1601) 10000 400 ltac:(lia) ltac:(lia)).
    change (-2000 / 4) with (-500) in *. change (10000 / 4) with 2500 in *.
    change (-2000 / 100) with (-20) in *. change (10000 / 100) with 100 in *.
    change (-2000 / 400) with (-5) in *. change (10000 / 400) with 25 in *.
    lia. }
  lia.
Qed.



(** *** Inputs with fewer than two slashes *)







Lemma utc_bounded : boundedZone utc.
Proof. intros t b. vm_compute. discriminate. Qed.

Lemma America_Sao_Paulo_bounded : boundedZone America_Sao_Paulo.
Proof.
  intros t b. unfold America_Sao_Paulo, LocalTZA, msPerDay, msPerHour.
  destruct b; destruct (_ && _); lia.
Qed.




End SanitizerDates.

(** ** Field decoder *)

Module DecoderProps.
Import Decoder DecoderForms.

(** *** Reading properties *)

Lemma get_getOpt (v : json) (k : string) :
  nullish v = false -> get v k = inr (getOpt v k).
Proof. destruct v; try discriminate; reflexivity. Qed.

Lemma truthyJ_not_nullish (v : json) : truthyJ v = true -> nullish v = false.
Proof. destruct v; try discriminate; reflexivity. Qed.

Lemma getOpt_object (v : json) (k : string) :
  getOpt v k <> JUndefined -> exists props, v = JObj props.
Proof. destruct v; cbn; try congruence. eauto. Qed.

Lemma getOpt_truthy_object (v : json) (k : string) :
  truthyJ (getOpt v k) = true -> exists props, v = JObj props.
Proof. intros H. apply (getOpt_object v k). intros E. now rewrite E in H. Qed.

Lemma present_not_nullish (rawEntity : json) (i : nat) :
  present rawEntity i = true -> nullish rawEntity = false.
Proof.
  unfold present. intros (props & ->)%getOpt_truthy_object. reflexivity.
Qed.

(** *** Assignments *)

Lemma assign_other (o : object) (key key' : string) (v : json) :
  key' <> key -> own (assign o key v) !! key' = own o !! key'.
Proof.
  intros Hne. unfold assign.
  destruct (_ && _); [destruct v; reflexivity|].
  cbn [own]. now apply lookup_insert_ne.
Qed.

Lemma assign_same (o : object) (key : string) (v : json) :
  key <> "__proto__"%string -> own (assign o key v) !! key = Some v.
Proof.
  intros Hne. unfold assign.
  destruct (String.eqb_spec key "__proto__") as [->|_]; [congruence|].
  cbn [andb own]. apply lookup_insert_eq.
Qed.

(** An assignment gives the object at most the one key, with the value
    assigned. *)
Lemma assign_origin (o : object) (key key' : string) (v v' : json) :
  own (assign o key v) !! key' = Some v' ->
  own o !! key' = Some v' \/ (key' = key /\ v' = v).
Proof.
  unfold assign. destruct (_ && _).
  - destruct v; cbn [own]; auto.
  - cbn [own]. destruct (decide (key = key')) as [->|Hne].
    + rewrite lookup_insert_eq. intros [= <-]. auto.
    + rewrite lookup_insert_ne by assumption. auto.
Qed.

Lemma assign_dom (o : object) (key : string) (v : json) :
  dom (own (assign o key v)) ⊆ {[key]} ∪ dom (own o).
Proof.
  intros k [v' Hv']%elem_of_dom.
  apply assign_origin in Hv' as [H | [-> _]].
  - apply elem_of_union_r, elem_of_dom. eauto.
  - apply elem_of_union_l, elem_of_singleton. reflexivity.
Qed.

Section Engine.
Variable NumberToString : JS.number -> string.

#[local] Abbreviation ToPropertyKey := (Decoder.ToPropertyKey NumberToString).
#[local] Abbreviation decodeFrom := (Decoder.decodeFrom NumberToString).
#[local] Abbreviation decodeEntity := (Decoder.decodeEntity NumberToString).
#[local] Abbreviation buscarSankhya := (Decoder.buscarSankhya NumberToString).
#[local] Abbreviation decodable := (DecoderForms.decodable NumberToString).

(** *** The loop *)

Lemma decodeFrom_cons (fieldName : json) (rest : list json) (i : nat)
    (rawEntity : json) (acc : object) :
  nullish rawEntity = false ->
  decodeFrom (fieldName :: rest) i rawEntity acc =
    if present rawEntity i then
      match ToPropertyKey fieldName with
      | inl error => inl error
      | inr key =>
          decodeFrom rest (S i) rawEntity
            (assign acc key (getOpt (getOpt rawEntity (fieldKey i)) "$"))
      end
    else decodeFrom rest (S i) rawEntity acc.
Proof.
  intros Hraw. cbn [Decoder.decodeFrom]. rewrite (get_getOpt _ _ Hraw).
  unfold present. destruct (truthyJ _) eqn:Hcell; [|reflexivity].
  now rewrite (get_getOpt _ _ (truthyJ_not_nullish _ Hcell)).
Qed.

(** An entity that is [undefined] or [null] has no position to read. *)
Lemma decodeFrom_nullish (fieldName : json) (rest : list json) (i : nat)
    (rawEntity : json) (acc : object) :
  nullish rawEntity = true ->
  decodeFrom (fieldName :: rest) i rawEntity acc
  = inl (cannotRead (if rawEntity is JNull then "null" else "undefined")
                    (fieldKey i)).
Proof. destruct rawEntity; try discriminate; reflexivity. Qed.

Lemma decodeFrom_inr_not_nullish (fieldName : json) (rest : list json) (i : nat)
    (rawEntity : json) (acc o : object) :
  decodeFrom (fieldName :: rest) i rawEntity acc = inr o ->
  nullish rawEntity = false.
Proof.
  destruct (nullish rawEntity) eqn:Hraw; [|reflexivity].
  now rewrite decodeFrom_nullish.
Qed.

(** A key none of whose positions holds a value keeps what the
    accumulator had for it. *)
Lemma decodeFrom_absent (fieldNames : list json) (rawEntity : json)
    (key : string) :
  forall (i : nat) (acc o : object),
    decodeFrom fieldNames i rawEntity acc = inr o ->
    (forall k fieldName,
       fieldNames !! k = Some fieldName -> ToPropertyKey fieldName = inr key ->
       present rawEntity (i + k) = false) ->
    own o !! key = own acc !! key.
Proof.
  induction fieldNames as [|n rest IH]; intros i acc o Hdec Habs.
  - now injection Hdec as <-.
  - pose proof (decodeFrom_inr_not_nullish _ _ _ _ _ _ Hdec) as Hraw.
    rewrite (decodeFrom_cons _ _ _ _ _ Hraw) in Hdec.
    assert (Hrest : forall k fieldName,
              rest !! k = Some fieldName -> ToPropertyKey fieldName = inr key ->
              present rawEntity (S i + k) = false).
    { intros k fieldName Hk Hkey.
      replace (S i + k)%nat with (i + S k)%nat by lia. now apply (Habs (S k) fieldName). }
    destruct (present rawEntity i) eqn:Hi; [|now apply (IH (S i) acc)].
    destruct (ToPropertyKey n) as [error|key'] eqn:Hkey; [discriminate|].
    rewrite (IH _ _ _ Hdec Hrest). apply assign_other. intros ->.
    specialize (Habs 0%nat n eq_refl Hkey). rewrite Nat.add_0_r in Habs. congruence.
Qed.

(** The last position of a key that holds a value decides the field. *)
Lemma decodeFrom_last (fieldNames : list json) (rawEntity : json)
    (fieldName : json) (key : string) :
  ToPropertyKey fieldName = inr key -> key <> "__proto__"%string ->
  forall (j i : nat) (acc o : object),
    decodeFrom fieldNames i rawEntity acc = inr o ->
    fieldNames !! j = Some fieldName ->
    present rawEntity (i + j) = true ->
    (forall k fieldName',
       (j < k)%nat -> fieldNames !! k = Some fieldName' ->
       ToPropertyKey fieldName' = inr key -> present rawEntity (i + k) = false) ->
    own o !! key = Some (getOpt (getOpt rawEntity (fieldKey (i + j))) "$").
Proof.
  intros Hkey Hproto.
  induction fieldNames as [|n rest IH]; intros j i acc o Hdec Hj Hpres Hlater;
    [discriminate|].
  pose proof (decodeFrom_inr_not_nullish _ _ _ _ _ _ Hdec) as Hraw.
  rewrite (decodeFrom_cons _ _ _ _ _ Hraw) in Hdec.
  destruct j as [|j].
  - injection Hj as ->. rewrite Nat.add_0_r in *. rewrite Hpres, Hkey in Hdec.
    rewrite (decodeFrom_absent _ _ key _ _ _ Hdec); [now apply assign_same|].
    intros k fieldName' Hk Hkey'.
    replace (S i + k)%nat with (i + S k)%nat by lia.
    apply (Hlater (S k) fieldName'); [lia | exact Hk | exact Hkey'].
  - replace (i + S j)%nat with (S i + j)%nat in * by lia.
    assert (Hrest : forall k fieldName',
              (j < k)%nat -> rest !! k = Some fieldName' ->
              ToPropertyKey fieldName' = inr key ->
              present rawEntity (S i + k) = false).
    { intros k fieldName' Hlt Hk Hkey'.
      replace (S i + k)%nat with (i + S k)%nat by lia.
      apply (Hlater (S k) fieldName'); [lia | exact Hk | exact Hkey']. }
    destruct (present rawEntity i).
    + destruct (ToPropertyKey n); [discriminate|].
      now apply (IH j (S i) _ o Hdec).
    + now apply (IH j (S i) _ o Hdec).
Qed.

(** What the record owns was assigned: it comes from a position that
    holds a value and is declared under that key. *)
Lemma decodeFrom_origin (fieldNames : list json) (rawEntity : json)
    (key : string) (v : json) :
  forall (i : nat) (acc o : object),
    decodeFrom fieldNames i rawEntity acc = inr o ->
    own o !! key = Some v ->
    own acc !! key = Some v
    \/ exists (j : nat) (fieldName : json),
         fieldNames !! j = Some fieldName /\ ToPropertyKey fieldName = inr key
         /\ present rawEntity (i + j) = true
         /\ v = getOpt (getOpt rawEntity (fieldKey (i + j))) "$".
Proof.
  induction fieldNames as [|n rest IH]; intros i acc o Hdec Hv.
  - injection Hdec as <-. now left.
  - pose proof (decodeFrom_inr_not_nullish _ _ _ _ _ _ Hdec) as Hraw.
    rewrite (decodeFrom_cons _ _ _ _ _ Hraw) in Hdec.
    assert (Hshift : forall acc',
              decodeFrom rest (S i) rawEntity acc' = inr o ->
              own acc' !! key = Some v
              \/ exists j fieldName,
                   (n :: rest) !! j = Some fieldName
                   /\ ToPropertyKey fieldName = inr key
                   /\ present rawEntity (i + j) = true
                   /\ v = getOpt (getOpt rawEntity (fieldKey (i + j))) "$").
    { intros acc' Hdec'.
      destruct (IH _ _ _ Hdec' Hv) as [H | (j & fieldName & Hj & Hk & Hp & Hval)];
        [now left|].
      right. exists (S j), fieldName.
      replace (i + S j)%nat with (S i + j)%nat by lia. auto. }
    destruct (present rawEntity i) eqn:Hi; [|exact (Hshift _ Hdec)].
    destruct (ToPropertyKey n) as [error|key'] eqn:Hkey; [discriminate|].
    destruct (Hshift _ Hdec) as [H | H]; [|now right].
    apply assign_origin in H as [H | [-> ->]]; [now left|].
    right. exists 0%nat, n. rewrite Nat.add_0_r. auto.
Qed.

(** When the loop goes through. *)
Lemma decodeFrom_returns (fieldNames : list json) (rawEntity : json) :
  forall (i : nat) (acc : object),
    (exists o, decodeFrom fieldNames i rawEntity acc = inr o)
    <-> (fieldNames = [] \/ nullish rawEntity = false)
        /\ forall k fieldName,
             fieldNames !! k = Some fieldName ->
             present rawEntity (i + k) = true ->
             exists key, ToPropertyKey fieldName = inr key.
Proof.
  induction fieldNames as [|n rest IH]; intros i acc.
  - split; [|intros _; now exists acc].
    intros _. split; [now left|]. intros k fieldName Hk. discriminate Hk.
  - destruct (nullish rawEntity) eqn:Hraw.
    { rewrite (decodeFrom_nullish _ _ _ _ _ Hraw). split.
      - intros (o & Ho). discriminate Ho.
      - intros [[H|H] _]; discriminate H. }
    rewrite (decodeFrom_cons _ _ _ _ _ Hraw).
    assert (Hshift : forall fieldNames' : list json,
              (forall k fieldName,
                 (n :: rest) !! k = Some fieldName ->
                 present rawEntity (i + k) = true ->
                 exists key, ToPropertyKey fieldName = inr key)
              <-> (present rawEntity i = true -> exists key, ToPropertyKey n = inr key)
                  /\ forall k fieldName,
                       rest !! k = Some fieldName ->
                       present rawEntity (S i + k) = true ->
                       exists key, ToPropertyKey fieldName = inr key).
    { intros _. split.
      - intros H. split.
        + intros Hp. apply (H 0%nat n eq_refl). now rewrite Nat.add_0_r.
        + intros k fieldName Hk Hp. apply (H (S k) fieldName Hk).
          now replace (i + S k)%nat with (S i + k)%nat by lia.
      - intros [H0 H] [|k] fieldName Hk Hp.
        + injection Hk as <-. apply H0. now rewrite Nat.add_0_r in Hp.
        + apply (H k fieldName Hk).
          now replace (S i + k)%nat with (i + S k)%nat by lia. }
    rewrite (Hshift []).
    destruct (present rawEntity i) eqn:Hi.
    + destruct (ToPropertyKey n) as [error|key] eqn:Hkey.
      * split; [intros (o & Ho); discriminate Ho|].
        intros (_ & H & _). destruct (H eq_refl) as (key & Hk). discriminate Hk.
      * rewrite IH. split.
        -- intros (_ & H). split; [now right|]. split; [eauto | exact H].
        -- intros (_ & _ & H). split; [now right | exact H].
    + rewrite IH. split.
      * intros (_ & H). split; [now right|]. split; [discriminate | exact H].
      * intros (_ & _ & H). split; [now right | exact H].
Qed.

Lemma decodeEntity_returns (fieldNames : list json) (rawEntity : json) :
  decodable fieldNames rawEntity
  <-> exists o, decodeEntity fieldNames rawEntity = inr o.
Proof.
  unfold DecoderForms.decodable, Decoder.decodeEntity.
  now rewrite (decodeFrom_returns fieldNames rawEntity 0 emptyObject).
Qed.

(** *** The fetch *)

Lemma mapE_inr {A B : Type} (f : A -> Erro + B) (l : list A) (ys : list B) :
  mapE f l = inr ys <-> Forall2 (fun x y => f x = inr y) l ys.
Proof.
  revert ys. induction l as [|x l IH]; intros ys; cbn [mapE].
  - split; [intros [= <-]; constructor | intros H; inversion H; reflexivity].
  - destruct (f x) as [error|y] eqn:Hx.
    + split; [discriminate|]. intros H. inversion H; congruence.
    + destruct (mapE f l) as [error|ys'] eqn:Hl.
      * split; [discriminate|]. intros H. inversion H as [|? y' ? ys'' Hy Hys]; subst.
        apply IH in Hys. discriminate Hys.
      * split.
        -- intros [= <-]. constructor; [exact Hx | now apply IH].
        -- intros H. inversion H as [|? y' ? ys'' Hy Hys]; subst.
           apply IH in Hys. congruence.
Qed.

Lemma mapE_total {A B : Type} (f : A -> Erro + B) (g : A -> B) (l : list A) :
  Forall (fun x => f x = inr (g x)) l -> mapE f l = inr (g <$> l).
Proof.
  induction 1 as [|x l Hx _ IH]; [reflexivity|].
  cbn [mapE]. now rewrite Hx, IH.
Qed.

(** With an entity in the response, the fetch reads the declared names
    and decodes the entities. *)
Lemma buscarSankhya_entity (prefixo : string) (data : json) :
  truthyJ (getOpt (entitiesOf data) "entity") = true ->
  buscarSankhya prefixo (inr data) =
    match
      match get (getOpt (entitiesOf data) "metadata") "fields" with
      | inl error => inl error
      | inr fields =>
          match get fields "field" with
          | inl error => inl error
          | inr field =>
              match mapOf field "entities.metadata.fields.field"
                          (fun f => get f "name") with
              | inl error => inl error
              | inr fieldNames =>
                  mapE (decodeEntity fieldNames)
                       (arrayOf (getOpt (entitiesOf data) "entity"))
              end
          end
      end
    with
    | inr records => inr records
    | inl error => inl {| message := prefixo +:+ message error |}
    end.
Proof.
  intros Hentity. unfold Decoder.buscarSankhya.
  change (getOpt (getOpt data "responseBody") "entities") with (entitiesOf data).
  rewrite Hentity. cbn [negb].
  destruct (getOpt_truthy_object _ _ Hentity) as (ents & Hents).
  assert (Hbody : exists body, getOpt data "responseBody" = JObj body).
  { apply (getOpt_object _ "entities"). unfold entitiesOf in Hents.
    rewrite Hents. discriminate. }
  destruct Hbody as (body & Hbody).
  assert (Hdata : exists props, data = JObj props).
  { apply (getOpt_object _ "responseBody"). rewrite Hbody. discriminate. }
  destruct Hdata as (props & ->).
  rewrite (get_getOpt (JObj props)) by reflexivity. rewrite Hbody.
  rewrite (get_getOpt (JObj body)) by reflexivity.
  unfold entitiesOf in *. rewrite Hbody in *. rewrite Hents.
  rewrite !(get_getOpt (JObj ents)) by reflexivity.
  destruct (get (getOpt (JObj ents) "metadata") "fields") as [|fields]; [reflexivity|].
  destruct (get fields "field") as [|field]; [reflexivity|].
  destruct (mapOf _ _ _); reflexivity.
Qed.

(** With the declared names an array of entries that are there, the
    fetch is the decoding of the entities under their names. *)
Lemma buscarSankhya_fields (prefixo : string) (data : json) (fields : list json) :
  truthyJ (getOpt (entitiesOf data) "entity") = true ->
  getOpt (getOpt (getOpt (entitiesOf data) "metadata") "fields") "field"
    = JArr fields ->
  Forall (fun f => nullish f = false) fields ->
  buscarSankhya prefixo (inr data) =
    match mapE (decodeEntity ((fun f => getOpt f "name") <$> fields))
               (arrayOf (getOpt (entitiesOf data) "entity")) with
    | inr records => inr records
    | inl error => inl {| message := prefixo +:+ message error |}
    end.
Proof.
  intros Hentity Hfield Hfields.
  rewrite (buscarSankhya_entity _ _ Hentity).
  assert (Hf : exists fs, getOpt (getOpt (entitiesOf data) "metadata") "fields" = JObj fs).
  { apply (getOpt_object _ "field"). rewrite Hfield. discriminate. }
  destruct Hf as (fs & Hf).
  assert (Hm : exists ms, getOpt (entitiesOf data) "metadata" = JObj ms).
  { apply (getOpt_object _ "fields"). rewrite Hf. discriminate. }
  destruct Hm as (ms & Hm).
  rewrite Hm in *. rewrite (get_getOpt (JObj ms)) by reflexivity.
  rewrite Hf in *. rewrite (get_getOpt (JObj fs)) by reflexivity.
  rewrite Hfield. cbn [mapOf].
  rewrite (mapE_total _ (fun f => getOpt f "name")); [reflexivity|].
  eapply Forall_impl; [exact Hfields|]. intros f Hnull. now apply get_getOpt.
Qed.

Lemma ToPropertyKey_string (s : string) : ToPropertyKey (JStr s) = inr s.
Proof. reflexivity. Qed.

(** With declared names that are distinct texts, none of them
    [__proto__], an entity that is there is decoded field by field. *)
Lemma decodeEntity_distinct (names : list string) (rawEntity : json) :
  NoDup names -> "__proto__"%string ∉ names -> nullish rawEntity = false ->
  exists o : object,
    decodeEntity (JStr <$> names) rawEntity = inr o
    /\ forall (i : nat) (name : string),
         names !! i = Some name ->
         own o !! name =
           if present rawEntity i
           then Some (getOpt (getOpt rawEntity (fieldKey i)) "$")
           else None.
Proof.
  intros Hnd Hproto Hraw.
  assert (Hdec : decodable (JStr <$> names) rawEntity).
  { split; [now right|]. intros i fieldName Hi _.
    apply list_lookup_fmap_Some in Hi as (name & -> & _). now exists name. }
  apply decodeEntity_returns in Hdec as (o & Ho). exists o. split; [exact Ho|].
  intros i name Hi.
  assert (Hother : forall k fieldName,
            (JStr <$> names) !! k = Some fieldName ->
            ToPropertyKey fieldName = inr name -> k = i).
  { intros k fieldName Hk Hkey.
    apply list_lookup_fmap_Some in Hk as (name' & -> & Hk).
    injection Hkey as ->. exact (NoDup_lookup _ _ _ _ Hnd Hk Hi). }
  destruct (present rawEntity i) eqn:Hp.
  - assert (Hname : name <> "__proto__"%string).
    { intros ->. apply Hproto. eapply list_elem_of_lookup_2; eassumption. }
    apply (decodeFrom_last (JStr <$> names) rawEntity (JStr name) name eq_refl Hname
             i 0%nat emptyObject o Ho).
    + now rewrite list_lookup_fmap, Hi.
    + exact Hp.
    + intros k fieldName' Hlt Hk Hkey. pose proof (Hother _ _ Hk Hkey). lia.
  - rewrite (decodeFrom_absent _ _ name _ _ _ Ho); [reflexivity|].
    intros k fieldName Hk Hkey. now rewrite (Hother _ _ Hk Hkey).
Qed.

(** C4, as the code has it. A position holds a value when what the
    entity has under [f<i>] is truthy: never when the key is missing,
    always when it is an object, as the cells of the transport format are;
    the value copied is what the cell has under [$]. With declared names
    that are distinct texts other than [__proto__], an entity that is
    there is decoded into a record that has, for every declared index,
    the value of the position under the name when the position holds one
    and no field of that name otherwise. In general, when the decoding
    returns a record, it has the value of position [i] under the key of
    the [i]-th name provided that the key is not [__proto__] and that no
    later index declares the same key and holds a value too; a key none of
    whose positions holds a value is not a key of the record. The decoding
    returns a record exactly for the entities that are decodable. The
    fetch decodes every entity of the response with the declared names,
    in order; a payload with a single entity object is fetched as the
    payload with the one-element array of that entity. *)
Theorem decoder_fields (fieldNames : list json) (rawEntity : json) :
  (forall k : nat,
     (getOpt rawEntity (fieldKey k) = JUndefined -> present rawEntity k = false)
     /\ (forall props, getOpt rawEntity (fieldKey k) = JObj props ->
                       present rawEntity k = true)
     /\ (forall v, getOpt rawEntity (fieldKey k) = cell v ->
                   getOpt (getOpt rawEntity (fieldKey k)) "$" = v))
  /\ (forall names : list string,
        fieldNames = JStr <$> names ->
        NoDup names -> "__proto__"%string ∉ names -> nullish rawEntity = false ->
        exists o : object,
          decodeEntity fieldNames rawEntity = inr o
          /\ forall (i : nat) (name : string),
               names !! i = Some name ->
               own o !! name =
                 if present rawEntity i
                 then Some (getOpt (getOpt rawEntity (fieldKey i)) "$")
                 else None)
  /\ (forall (i : nat) (fieldName : json) (key : string) (o : object),
        decodeEntity fieldNames rawEntity = inr o ->
        fieldNames !! i = Some fieldName ->
        ToPropertyKey fieldName = inr key ->
        present rawEntity i = true ->
        key <> "__proto__"%string ->
        (forall k fieldName',
           (i < k)%nat -> fieldNames !! k = Some fieldName' ->
           ToPropertyKey fieldName' = inr key -> present rawEntity k = false) ->
        own o !! key = Some (getOpt (getOpt rawEntity (fieldKey i)) "$"))
  /\ (forall (key : string) (o : object),
        decodeEntity fieldNames rawEntity = inr o ->
        (forall k fieldName,
           fieldNames !! k = Some fieldName ->
           ToPropertyKey fieldName = inr key -> present rawEntity k = false) ->
        own o !! key = None)
  /\ (decodable fieldNames rawEntity
      <-> exists o, decodeEntity fieldNames rawEntity = inr o)
  /\ (forall (prefixo : string) (data : json) (fields : list json)
             (records : list object),
        truthyJ (getOpt (entitiesOf data) "entity") = true ->
        getOpt (getOpt (getOpt (entitiesOf data) "metadata") "fields") "field"
          = JArr fields ->
        Forall (fun f => nullish f = false) fields ->
        fieldNames = (fun f => getOpt f "name") <$> fields ->
        (buscarSankhya prefixo (inr data) = inr records
         <-> Forall2 (fun raw o => decodeEntity fieldNames raw = inr o)
                     (arrayOf (getOpt (entitiesOf data) "entity")) records))
  /\ (forall (prefixo : string) (data data' : json) (props : list (string * json)),
        rawEntity = JObj props ->
        getOpt (entitiesOf data) "entity" = rawEntity ->
        getOpt (entitiesOf data') "entity" = JArr [rawEntity] ->
        getOpt (entitiesOf data) "metadata" = getOpt (entitiesOf data') "metadata" ->
        buscarSankhya prefixo (inr data) = buscarSankhya prefixo (inr data')).
Proof.
  split.
  { intros k. unfold present. split; [now intros ->|].
    split; [now intros props ->|]. now intros v ->. }
  split.
  { intros names -> Hnd Hproto Hraw. now apply decodeEntity_distinct. }
  split.
  { intros i fieldName key o Ho Hi Hkey Hp Hproto Hlater.
    exact (decodeFrom_last fieldNames rawEntity fieldName key Hkey Hproto
             i 0%nat emptyObject o Ho Hi Hp Hlater). }
  split.
  { intros key o Ho Habs.
    now rewrite (decodeFrom_absent fieldNames rawEntity key 0 emptyObject o Ho Habs). }
  split; [apply decodeEntity_returns|].
  split.
  { intros prefixo data fields records Hentity Hfield Hfields ->.
    rewrite (buscarSankhya_fields prefixo data fields Hentity Hfield Hfields).
    rewrite <- mapE_inr. destruct (mapE _ _); [|reflexivity].
    split; discriminate. }
  intros prefixo data data' props -> Hone Hmany Hmeta.
  rewrite (buscarSankhya_entity prefixo data) by now rewrite Hone.
  rewrite (buscarSankhya_entity prefixo data') by now rewrite Hmany.
  now rewrite Hone, Hmany, Hmeta.
Qed.

End Engine.

(** The theorem at a two-field entity whose second position is absent,
    and at the payload carrying that entity alone. *)
Lemma decoder_fields_witness :
  let rawEntity := JObj [("f0"%string, cell (JStr "1042"))] in
  let fields := JArr [named "NUFIN"; named "CODPARC"] in
  (exists o : object,
     decodeEntity unread [JStr "NUFIN"; JStr "CODPARC"] rawEntity = inr o
     /\ own o !! "NUFIN"%string = Some (JStr "1042")
     /\ own o !! "CODPARC"%string = None)
  /\ buscarSankhya unread "" (inr (body fields rawEntity))
     = buscarSankhya unread "" (inr (body fields (JArr [rawEntity])))
  /\ exists o : object,
       buscarSankhya unread "" (inr (body fields rawEntity)) = inr [o]
       /\ decodeEntity unread [JStr "NUFIN"; JStr "CODPARC"] rawEntity = inr o.
Proof.
  intros rawEntity fields.
  destruct (decoder_fields unread [JStr "NUFIN"; JStr "CODPARC"] rawEntity)
    as (_ & Hdistinct & _ & _ & Hreturns & Hfetch & Hsingle).
  assert (Hdec : DecoderForms.decodable unread [JStr "NUFIN"; JStr "CODPARC"] rawEntity).
  { split; [now right|].
    intros [|[|i]] fieldName [= <-] _; eexists; reflexivity. }
  split; [|split].
  - destruct (Hdistinct ["NUFIN"; "CODPARC"]%string eq_refl) as (o & Ho & Hfields).
    + compute_done.
    + compute_done.
    + reflexivity.
    + exists o. split; [exact Ho|]. split.
      * exact (Hfields 0%nat "NUFIN"%string eq_refl).
      * exact (Hfields 1%nat "CODPARC"%string eq_refl).
  - apply (Hsingle "" (body fields rawEntity) (body fields (JArr [rawEntity]))
             [("f0"%string, cell (JStr "1042"))]); reflexivity.
  - destruct (proj1 Hreturns Hdec) as (o & Ho). exists o. split; [|exact Ho].
    apply (Hfetch "" (body fields rawEntity) [named "NUFIN"; named "CODPARC"] [o]);
      try reflexivity.
    + repeat constructor.
    + repeat constructor. exact Ho.
Defined.

(** C4 as stated fails for a name declared twice, where the value of
    the later position replaces that of the earlier one, and for the name
    [__proto__], under which nothing is stored: the assignment reaches
    the accessor of the prototype, which ignores a value that is neither
    an object nor [null]. *)
Lemma decoder_field_not_copied :
  let twice := JObj [("f0"%string, cell (JStr "1")); ("f1"%string, cell (JStr "2"))] in
  let once := JObj [("f0"%string, cell (JStr "1"))] in
  present twice 0 = true
  /\ getOpt (getOpt twice (fieldKey 0)) "$" = JStr "1"
  /\ (exists o : object,
        decodeEntity unread [JStr "VLRVENDA"; JStr "VLRVENDA"] twice = inr o
        /\ own o !! "VLRVENDA"%string = Some (JStr "2"))
  /\ present once 0 = true
  /\ decodeEntity unread [JStr "__proto__"] once = inr emptyObject
  /\ ~ (forall (fieldNames : list json) (rawEntity : json) (i : nat)
               (name : string) (o : object),
          decodeEntity unread fieldNames rawEntity = inr o ->
          fieldNames !! i = Some (JStr name) ->
          present rawEntity i = true ->
          own o !! name = Some (getOpt (getOpt rawEntity (fieldKey i)) "$")).
Proof.
  intros twice once.
  split; [reflexivity|]. split; [reflexivity|].
  split; [eexists; split; reflexivity|].
  split; [reflexivity|]. split; [reflexivity|].
  intros H.
  specialize (H [JStr "__proto__"] once 0%nat "__proto__"%string emptyObject
                eq_refl eq_refl eq_refl).
  discriminate H.
Qed.

End DecoderProps.

(** ** Bind values of the two upsert engines *)

Module BindProps.
Import JS Sanitizer DateForms.

Lemma or_null_falsy (v : value) : truthy v = false -> JS.or v null = null.
Proof. unfold JS.or. now intros ->. Qed.

Lemma or_null_truthy (v : value) : truthy v = true -> JS.or v null = v.
Proof. unfold JS.or. now intros ->. Qed.

(** The falsy values: [undefined], [null], [false], the two zeros, NaN
    and the empty string. *)
Lemma truthy_false_iff (v : value) :
  truthy v = false <->
  v = undefined \/ v = null \/ v = Bool false \/ v = Num (S754_zero false)
  \/ v = Num (S754_zero true) \/ v = Num S754_nan \/ v = Str "".
Proof.
  split.
  - destruct v as [| |[]|[[]|s| |s m e]|[|c s]|t]; simpl; intros H;
      try discriminate; tauto.
  - intros [->|[->|[->|[->|[->|[->| ->]]]]]]; reflexivity.
Qed.

(** The date sanitizer returns, so that what is bound for a date is
    what it returned. *)
Lemma returned_parseDataSankhya (tz : DateTime.TimeZone) (dataStr : value) :
  parseDataSankhya tz dataStr
  = inr (Financeiro.returned (parseDataSankhya tz dataStr)).
Proof.
  destruct (SanitizerDates.parseDataSankhya_returns tz dataStr) as [H | (t & H & _)];
    now rewrite H.
Qed.

(** What an amount is bound as. *)
Lemma amount_bound (valor : value) :
  let bound := Financeiro.numOuNull (validarValorNumerico valor maxDigits_default) in
  (valor = undefined \/ valor = null -> bound = null)
  /\ (forall s : bool, valor = Num (S754_zero s) -> bound = Num (S754_zero s))
  /\ (valor = Str "" \/ valor = Str "0" \/ valor = Bool false -> bound = Num zero).
Proof.
  cbv zeta. split; [|split].
  - intros [-> | ->]; reflexivity.
  - intros s ->. now destruct s.
  - intros [-> | [-> | ->]]; vm_compute; reflexivity.
Qed.

(** C10, as the code has it. A value coerced with [|| null] is [null]
    when it is falsy, that is [undefined], [null], [false], a zero, NaN or
    the empty string, and is itself otherwise, as the text ["0"] is. In
    both statements of both engines every optional field bound through
    that coercion is NULL when its decoded value is falsy and its decoded
    value otherwise. The two amounts and the three dates of the financial
    engine are not bound that way. An amount is bound, in both
    statements, as what [validarValorNumerico] returns: NULL for
    [undefined] and [null], each zero as that zero, and the number 0 for
    the empty string, the text ["0"] and [false]. A date is bound, in
    both statements, as what [parseDataSankhya] returns, which is NULL for
    every falsy value. *)
Theorem binds_falsy_null :
  let coerced (field boundUpdate boundInsert : value) :=
    (truthy field = false -> boundUpdate = null /\ boundInsert = null)
    /\ (truthy field = true -> boundUpdate = field /\ boundInsert = field) in
  let amount (field boundUpdate boundInsert : value) :=
    boundUpdate
      = Financeiro.numOuNull (validarValorNumerico field maxDigits_default)
    /\ boundInsert = boundUpdate
    /\ (field = undefined \/ field = null -> boundUpdate = null)
    /\ (forall s : bool, field = Num (S754_zero s) -> boundUpdate = Num (S754_zero s))
    /\ (field = Str "" \/ field = Str "0" \/ field = Bool false ->
        boundUpdate = Num zero) in
  let date (tz : DateTime.TimeZone) (field boundUpdate boundInsert : value) :=
    parseDataSankhya tz field = inr boundUpdate
    /\ boundInsert = boundUpdate
    /\ (truthy field = false -> boundUpdate = null) in
  (forall v : value,
     (truthy v = false <->
        v = undefined \/ v = null \/ v = Bool false \/ v = Num (S754_zero false)
        \/ v = Num (S754_zero true) \/ v = Num S754_nan \/ v = Str "")
     /\ (truthy v = false -> JS.or v null = null)
     /\ (truthy v = true -> JS.or v null = v))
  /\ JS.or (Str "0") null = Str "0"
  /\ (forall e : Excecao.ExcecaoPreco,
        let u := Excecao.bindsDoUpdate e in
        let i := Excecao.bindsDoInsert e in
        coerced (Excecao.VLRANT e) (Excecao.vlrant u) (Excecao.vlrant i)
        /\ coerced (Excecao.VARIACAO e) (Excecao.variacao u) (Excecao.variacao i)
        /\ coerced (Excecao.TIPO e) (Excecao.tipo u) (Excecao.tipo i)
        /\ coerced (Excecao.VLRVENDA e) (Excecao.vlrvenda u) (Excecao.vlrvenda i)
        /\ coerced (Excecao.CONTROLE e) (Excecao.controle u) (Excecao.controle i))
  /\ (forall (tz : DateTime.TimeZone) (f : Financeiro.Financeiro),
        let u := Financeiro.bindsDoUpdate tz f in
        let i := Financeiro.bindsDoInsert tz f in
        coerced (Financeiro.CODPARC f) (Financeiro.codparc u) (Financeiro.codparc i)
        /\ coerced (Financeiro.CODEMP f) (Financeiro.codemp u) (Financeiro.codemp i)
        /\ coerced (Financeiro.PROVISAO f) (Financeiro.provisao u)
                   (Financeiro.provisao i)
        /\ coerced (Financeiro.RECDESP f) (Financeiro.recdesp u) (Financeiro.recdesp i)
        /\ coerced (Financeiro.NOSSONUM f) (Financeiro.nossonum u)
                   (Financeiro.nossonum i)
        /\ coerced (Financeiro.CODCTABCOINT f) (Financeiro.codctabcoint u)
                   (Financeiro.codctabcoint i)
        /\ coerced (Financeiro.HISTORICO f) (Financeiro.historico u)
                   (Financeiro.historico i)
        /\ coerced (Financeiro.NUMNOTA f) (Financeiro.numnota u) (Financeiro.numnota i)
        /\ amount (Financeiro.VLRDESDOB f) (Financeiro.vlrdesdob u)
                  (Financeiro.vlrdesdob i)
        /\ amount (Financeiro.VLRBAIXA f) (Financeiro.vlrbaixa u)
                  (Financeiro.vlrbaixa i)
        /\ date tz (Financeiro.DTVENC f) (Financeiro.dtvenc u) (Financeiro.dtvenc i)
        /\ date tz (Financeiro.DTNEG f) (Financeiro.dtneg u) (Financeiro.dtneg i)
        /\ date tz (Financeiro.DHBAIXA f) (Financeiro.dhbaixa u)
                (Financeiro.dhbaixa i)).
Proof.
  cbv zeta.
  assert (Hcoerced : forall field : value,
            (truthy field = false ->
             JS.or field null = null /\ JS.or field null = null)
            /\ (truthy field = true ->
                JS.or field null = field /\ JS.or field null = field)).
  { intros field. split; intros H.
    - now rewrite (or_null_falsy _ H).
    - now rewrite (or_null_truthy _ H). }
  assert (Hdate : forall tz field,
            parseDataSankhya tz field
            = inr (Financeiro.returned (parseDataSankhya tz field))
            /\ Financeiro.returned (parseDataSankhya tz field)
               = Financeiro.returned (parseDataSankhya tz field)
            /\ (truthy field = false ->
                Financeiro.returned (parseDataSankhya tz field) = null)).
  { intros tz field. split; [apply returned_parseDataSankhya|].
    split; [reflexivity|]. intros H.
    now rewrite (SanitizerDates.parseDataSankhya_falsy tz field H). }
  assert (Hamount : forall field,
            Financeiro.numOuNull (validarValorNumerico field maxDigits_default)
            = Financeiro.numOuNull (validarValorNumerico field maxDigits_default)
            /\ Financeiro.numOuNull (validarValorNumerico field maxDigits_default)
               = Financeiro.numOuNull (validarValorNumerico field maxDigits_default)
            /\ (field = undefined \/ field = null ->
                Financeiro.numOuNull (validarValorNumerico field maxDigits_default)
                = null)
            /\ (forall s : bool, field = Num (S754_zero s) ->
                Financeiro.numOuNull (validarValorNumerico field maxDigits_default)
                = Num (S754_zero s))
            /\ (field = Str "" \/ field = Str "0" \/ field = Bool false ->
                Financeiro.numOuNull (validarValorNumerico field maxDigits_default)
                = Num zero)).
  { intros field. split; [reflexivity|]. split; [reflexivity|].
    exact (amount_bound field). }
  split.
  { intros v. split; [apply truthy_false_iff|].
    split; [apply or_null_falsy | apply or_null_truthy]. }
  split; [reflexivity|].
  split.
  - intros e. cbn [Excecao.bindsDoUpdate Excecao.bindsDoInsert Excecao.vlrant
                   Excecao.variacao Excecao.tipo Excecao.vlrvenda Excecao.controle].
    do 4 (split; [apply Hcoerced|]). apply Hcoerced.
  - intros tz f.
    cbn [Financeiro.bindsDoUpdate Financeiro.bindsDoInsert Financeiro.codparc
         Financeiro.codemp Financeiro.vlrdesdob Financeiro.dtvenc Financeiro.dtneg
         Financeiro.provisao Financeiro.dhbaixa Financeiro.vlrbaixa
         Financeiro.recdesp Financeiro.nossonum Financeiro.codctabcoint
         Financeiro.historico Financeiro.numnota].
    do 8 (split; [apply Hcoerced|]).
    do 2 (split; [apply Hamount|]).
    do 2 (split; [apply Hdate|]). apply Hdate.
Qed.

(** The theorem at a price exception with [VLRANT = 0], [TIPO = ""] and
    [VLRVENDA = "0"], and at a financial record with [NUMNOTA = 0], an
    amount of zero, an amount of [""] and no due date. *)
Lemma binds_falsy_null_witness :
  let e := {| Excecao.CODPROD := 7; Excecao.VLRANT := Num zero;
              Excecao.VARIACAO := undefined; Excecao.NUTAB := 1;
              Excecao.TIPO := Str ""; Excecao.VLRVENDA := Str "0";
              Excecao.CODLOCAL := 0; Excecao.CONTROLE := null |} in
  let f := {| Financeiro.NUFIN := 9; Financeiro.CODPARC := undefined;
              Financeiro.CODEMP := undefined; Financeiro.VLRDESDOB := Num zero;
              Financeiro.DTVENC := undefined; Financeiro.DTNEG := Str "";
              Financeiro.PROVISAO := undefined; Financeiro.DHBAIXA := null;
              Financeiro.VLRBAIXA := Str ""; Financeiro.RECDESP := undefined;
              Financeiro.NOSSONUM := undefined;
              Financeiro.CODCTABCOINT := undefined;
              Financeiro.HISTORICO := undefined; Financeiro.NUMNOTA := Num zero |} in
  JS.or (Num zero) null = null
  /\ (Excecao.vlrant (Excecao.bindsDoUpdate e) = null
      /\ Excecao.vlrant (Excecao.bindsDoInsert e) = null)
  /\ (Excecao.tipo (Excecao.bindsDoUpdate e) = null
      /\ Excecao.tipo (Excecao.bindsDoInsert e) = null)
  /\ (Excecao.vlrvenda (Excecao.bindsDoUpdate e) = Str "0"
      /\ Excecao.vlrvenda (Excecao.bindsDoInsert e) = Str "0")
  /\ (Financeiro.numnota (Financeiro.bindsDoUpdate utc f) = null
      /\ Financeiro.numnota (Financeiro.bindsDoInsert utc f) = null)
  /\ Financeiro.vlrdesdob (Financeiro.bindsDoUpdate utc f) = Num zero
  /\ Financeiro.vlrbaixa (Financeiro.bindsDoUpdate utc f) = Num zero
  /\ Financeiro.dtvenc (Financeiro.bindsDoUpdate utc f) = null
  /\ Financeiro.dtneg (Financeiro.bindsDoUpdate utc f) = null.
Proof.
  intros e f.
  destruct binds_falsy_null as (Hor & _ & Hexc & Hfin).
  destruct (Hexc e) as ((Hvlrant & _) & _ & (Htipo & _) & (_ & Hvlrvenda) & _).
  destruct (Hfin utc f)
    as (_ & _ & _ & _ & _ & _ & _ & (Hnumnota & _)
        & (_ & _ & _ & Hzero & _) & (_ & _ & _ & _ & Hempty)
        & (_ & _ & Hdtvenc) & (_ & _ & Hdtneg) & _).
  split; [apply (Hor (Num zero)); reflexivity|].
  split; [apply Hvlrant; reflexivity|].
  split; [apply Htipo; reflexivity|].
  split; [apply Hvlrvenda; reflexivity|].
  split; [apply Hnumnota; reflexivity|].
  split; [apply (Hzero false); reflexivity|].
  split; [apply Hempty; left; reflexivity|].
  split; [apply Hdtvenc; reflexivity|].
  apply Hdtneg; reflexivity.
Defined.

(** C10 as stated fails in the financial engine: the amounts [VLRDESDOB]
    and [VLRBAIXA] are optional business fields, zero is falsy, and yet a
    zero is bound as the number zero, not as NULL, by the UPDATE and by
    the INSERT. *)
Lemma financeiro_zero_amount_kept :
  let f := {| Financeiro.NUFIN := 9; Financeiro.CODPARC := undefined;
              Financeiro.CODEMP := undefined; Financeiro.VLRDESDOB := Num zero;
              Financeiro.DTVENC := undefined; Financeiro.DTNEG := undefined;
              Financeiro.PROVISAO := undefined; Financeiro.DHBAIXA := undefined;
              Financeiro.VLRBAIXA := Num zero; Financeiro.RECDESP := undefined;
              Financeiro.NOSSONUM := undefined;
              Financeiro.CODCTABCOINT := undefined;
              Financeiro.HISTORICO := undefined; Financeiro.NUMNOTA := undefined |} in
  truthy (Financeiro.VLRDESDOB f) = false
  /\ truthy (Financeiro.VLRBAIXA f) = false
  /\ Financeiro.vlrdesdob (Financeiro.bindsDoUpdate utc f) = Num zero
  /\ Financeiro.vlrdesdob (Financeiro.bindsDoInsert utc f) = Num zero
  /\ Financeiro.vlrbaixa (Financeiro.bindsDoUpdate utc f) = Num zero
  /\ Financeiro.vlrbaixa (Financeiro.bindsDoInsert utc f) = Num zero
  /\ Num zero <> null.
Proof. cbv zeta. repeat split; try reflexivity. discriminate. Qed.

End BindProps.

(** ** The reconciler *)

Section ReconcilerProps.
Context `{E : Esquema}.
Import Exec.
Abbreviation Tabela := (list Linha).

(** *** Running the statements *)

#[local] Arguments sqlCount : simpl never.
#[local] Arguments sqlUpdate : simpl never.
#[local] Arguments sqlInsert : simpl never.
#[local] Arguments sqlMarcar : simpl never.
#[local] Arguments existe : simpl never.
#[local] Arguments ativa : simpl never.

(** Run the primitive operations of a computation on an explicit state,
    leaving the statements on the table folded. *)
Ltac exec :=
  cbv beta iota zeta delta
    [mbind mret M_bind M_ret Exec.bind Exec.ret Exec.throw Exec.get Exec.modify
     Exec.tryCatch Exec.tryFinally emite setConnection falhaSe sessao estado
     upsertUm obterToken buscar getOracleConnection marcarTodosComoNaoAtuais
     commit rollback close salvarLogSincronizacao
     mundo connection espelho rastro].

Lemma sqlCount_existe (t : Tabela) (idSistema : Z) (k : Chave) :
  bool_decide (0 < sqlCount idSistema k t)%nat = existe t idSistema k.
Proof.
  unfold sqlCount, existe. induction t as [|l t IH]; [reflexivity|].
  cbn [existsb]. rewrite filter_cons. destruct (casa idSistema k l) eqn:Ec.
  - rewrite decide_True by reflexivity. cbn. apply bool_decide_eq_true_2. lia.
  - rewrite decide_False by discriminate. exact IH.
Qed.

Lemma upsertUm_run (amb : Ambiente) (idSistema : Z) (i : nat) (r : Registro)
    (ins atu : nat) (e : Tabela) (tr : list Evento) (t : Tabela) :
  tryCatch (upsertUm amb idSistema i r ins atu)
           (fun error => emite (EvErroLinha i) ;; mret (ins, atu))
           (estado e tr (Some t))
  = (estado e (tr ++ eventosDe amb idSistema i r t)
            (Some (tabelaApos amb idSistema i r t)),
     inr (contagemApos amb idSistema i r t (ins, atu))).
Proof.
  unfold tabelaApos, contagemApos, eventosDe, linhaFalha.
  exec. rewrite sqlCount_existe.
  destruct (selectFalha amb i) as [es|]; exec.
  { now rewrite <- app_assoc. }
  destruct (existe t idSistema (chaveDe r)); exec;
    destruct (escritaFalha amb i) as [ew|]; exec;
    now rewrite <- !app_assoc.
Qed.

Lemma upsertDesde_run (amb : Ambiente) (idSistema : Z) (registros : list Registro) :
  forall (i ins atu : nat) (e : Tabela) (tr : list Evento) (t : Tabela),
    upsertDesde amb idSistema i registros ins atu (estado e tr (Some t))
    = let '(t', c, evs) := upsertPuro amb idSistema i registros t (ins, atu) in
      (estado e (tr ++ evs) (Some t'), inr c).
Proof.
  induction registros as [|r resto IH]; intros i ins atu e tr t.
  - cbn. now rewrite app_nil_r.
  - cbn [upsertDesde upsertPuro].
    unfold mbind at 1, M_bind at 1, Exec.bind at 1.
    rewrite upsertUm_run.
    destruct (contagemApos amb idSistema i r t (ins, atu)) as [ins' atu'] eqn:Ec.
    rewrite IH.
    destruct (upsertPuro amb idSistema (S i) resto _ _) as [[t' c'] evs].
    now rewrite app_assoc.
Qed.

(** *** The paths of a run *)

Lemma run_token_falha (amb : Ambiente) (idSistema : Z) (nome : string)
    (w : Mundo) (e : Erro) :
  tokenResp amb = inl e ->
  sincronizarPorEmpresa amb idSistema nome w
  = ({| espelho := espelho w;
        rastro := rastro w ++ [EvToken idSistema; EvLog idSistema false] |},
     inr (resultadoFalha amb idSistema nome e)).
Proof.
  intros Ht. destruct w as [esp tr].
  unfold sincronizarPorEmpresa, sincronizarCorpo. exec. rewrite Ht. exec.
  rewrite <- app_assoc. destruct (logFalha amb); reflexivity.
Qed.

Lemma run_busca_falha (amb : Ambiente) (idSistema : Z) (nome : string)
    (w : Mundo) (token : string) (e : Erro) :
  tokenResp amb = inr token ->
  buscaResp amb = inl e ->
  sincronizarPorEmpresa amb idSistema nome w
  = ({| espelho := espelho w;
        rastro := rastro w ++
                  [EvToken idSistema; EvBuscar idSistema; EvLog idSistema false] |},
     inr (resultadoFalha amb idSistema nome e)).
Proof.
  intros Ht Hb. destruct w as [esp tr].
  unfold sincronizarPorEmpresa, sincronizarCorpo. exec. rewrite Ht. exec.
  rewrite Hb. exec.
  rewrite <- !app_assoc. destruct (logFalha amb); reflexivity.
Qed.

Lemma run_conexao_falha (amb : Ambiente) (idSistema : Z) (nome : string)
    (w : Mundo) (token : string) (registros : list Registro) (e : Erro) :
  tokenResp amb = inr token ->
  buscaResp amb = inr registros ->
  conexaoResp amb = Some e ->
  sincronizarPorEmpresa amb idSistema nome w
  = ({| espelho := espelho w;
        rastro := rastro w ++
                  [EvToken idSistema; EvBuscar idSistema; EvConnect;
                   EvLog idSistema false] |},
     inr (resultadoFalha amb idSistema nome e)).
Proof.
  intros Ht Hb Hc. destruct w as [esp tr].
  unfold sincronizarPorEmpresa, sincronizarCorpo. exec. rewrite Ht. exec.
  rewrite Hb. exec. rewrite Hc. exec.
  rewrite <- !app_assoc. destruct (logFalha amb); reflexivity.
Qed.

Lemma run_marcar_falha (amb : Ambiente) (idSistema : Z) (nome : string)
    (w : Mundo) (token : string) (registros : list Registro) (e : Erro) :
  tokenResp amb = inr token ->
  buscaResp amb = inr registros ->
  conexaoResp amb = None ->
  marcarFalha amb = Some e ->
  sincronizarPorEmpresa amb idSistema nome w
  = ({| espelho := espelho w;
        rastro := rastro w ++
                  [EvToken idSistema; EvBuscar idSistema; EvConnect;
                   EvMarcar idSistema; EvRollback; EvLog idSistema false;
                   EvClose] |},
     inr (resultadoFalha amb idSistema nome e)).
Proof.
  intros Ht Hb Hc Hm. destruct w as [esp tr].
  unfold sincronizarPorEmpresa, sincronizarCorpo. exec. rewrite Ht. exec.
  rewrite Hb. exec. rewrite Hc. exec. rewrite Hm. exec.
  rewrite <- !app_assoc.
  destruct (rollbackFalha amb); exec; destruct (logFalha amb); exec;
    destruct (closeFalha amb); exec; rewrite <- ?app_assoc; reflexivity.
Qed.

Lemma upsert_run (amb : Ambiente) (idSistema : Z) (registros : list Registro)
    (e : Tabela) (tr : list Evento) (t : Tabela) :
  upsert amb idSistema registros
    {| mundo := {| espelho := e; rastro := tr |}; connection := Some t |}
  = let '(t', c, evs) := upsertPuro amb idSistema 0 registros t (0%nat, 0%nat) in
    ({| mundo := {| espelho := e; rastro := tr ++ evs |}; connection := Some t' |},
     inr c).
Proof. apply (upsertDesde_run amb idSistema registros 0 0 0 e tr t). Qed.

Lemma run_commit_falha (amb : Ambiente) (idSistema : Z) (nome : string)
    (w : Mundo) (token : string) (registros : list Registro) (e : Erro) :
  tokenResp amb = inr token ->
  buscaResp amb = inr registros ->
  conexaoResp amb = None ->
  marcarFalha amb = None ->
  commitFalha amb = Some e ->
  sincronizarPorEmpresa amb idSistema nome w
  = ({| espelho := espelho w;
        rastro := rastro w ++
                  [EvToken idSistema; EvBuscar idSistema; EvConnect;
                   EvMarcar idSistema] ++
                  (upsertPuro amb idSistema 0 registros
                     (sqlMarcar idSistema (timestampMarcar amb) (espelho w))
                     (0%nat, 0%nat)).2 ++
                  [EvCommit; EvRollback; EvLog idSistema false; EvClose] |},
     inr (resultadoFalha amb idSistema nome e)).
Proof.
  intros Ht Hb Hc Hm Hk. destruct w as [esp tr].
  unfold sincronizarPorEmpresa, sincronizarCorpo. exec. rewrite Ht. exec.
  rewrite Hb. exec. rewrite Hc. exec. rewrite Hm. exec.
  rewrite upsert_run.
  destruct (upsertPuro amb idSistema 0 registros _ _) as [[t' [ins atu]] evs].
  exec. rewrite Hk. exec. cbn [snd].
  destruct (rollbackFalha amb); exec; destruct (logFalha amb); exec;
    destruct (closeFalha amb); exec;
    repeat (rewrite <- ?app_assoc; cbn [app]); reflexivity.
Qed.

Lemma run_sucesso (amb : Ambiente) (idSistema : Z) (nome : string)
    (w : Mundo) (token : string) (registros : list Registro) :
  tokenResp amb = inr token ->
  buscaResp amb = inr registros ->
  conexaoResp amb = None ->
  marcarFalha amb = None ->
  commitFalha amb = None ->
  let marcada := sqlMarcar idSistema (timestampMarcar amb) (espelho w) in
  let fim := upsertPuro amb idSistema 0 registros marcada (0%nat, 0%nat) in
  sincronizarPorEmpresa amb idSistema nome w
  = ({| espelho := fim.1.1;
        rastro := rastro w ++
                  [EvToken idSistema; EvBuscar idSistema; EvConnect;
                   EvMarcar idSistema] ++ fim.2 ++
                  [EvCommit; EvLog idSistema true; EvClose] |},
     inr (resultadoSucesso amb idSistema nome (length registros)
            (length (filter (fun l => atualDe idSistema l = true) (espelho w)))
            fim.1.2)).
Proof.
  intros Ht Hb Hc Hm Hk marcada fim. subst marcada fim. destruct w as [esp tr].
  unfold sincronizarPorEmpresa, sincronizarCorpo. exec. rewrite Ht. exec.
  rewrite Hb. exec. rewrite Hc. exec. rewrite Hm. exec.
  rewrite upsert_run.
  destruct (upsertPuro amb idSistema 0 registros _ _) as [[t' [ins atu]] evs].
  exec. rewrite Hk. exec. cbn [fst snd].
  destruct (logFalha amb); exec;
    destruct (closeFalha amb); exec;
    repeat (rewrite <- ?app_assoc; cbn [app]); reflexivity.
Qed.

Lemma run_sucesso_inv (amb : Ambiente) (idSistema : Z) (nome : string)
    (w w' : Mundo) (r : SyncResult) :
  sincronizarPorEmpresa amb idSistema nome w = (w', inr r) ->
  success r = true ->
  exists token registros,
    tokenResp amb = inr token /\ buscaResp amb = inr registros
    /\ conexaoResp amb = None /\ marcarFalha amb = None /\ commitFalha amb = None.
Proof.
  intros Hrun Hs.
  destruct (tokenResp amb) as [e|token] eqn:Ht.
  { rewrite (run_token_falha _ _ _ _ e Ht) in Hrun.
    injection Hrun as _ <-. discriminate. }
  destruct (buscaResp amb) as [e|registros] eqn:Hb.
  { rewrite (run_busca_falha _ _ _ _ token e Ht Hb) in Hrun.
    injection Hrun as _ <-. discriminate. }
  destruct (conexaoResp amb) as [e|] eqn:Hc.
  { rewrite (run_conexao_falha _ _ _ _ token registros e Ht Hb Hc) in Hrun.
    injection Hrun as _ <-. discriminate. }
  destruct (marcarFalha amb) as [e|] eqn:Hm.
  { rewrite (run_marcar_falha _ _ _ _ token registros e Ht Hb Hc Hm) in Hrun.
    injection Hrun as _ <-. discriminate. }
  destruct (commitFalha amb) as [e|] eqn:Hk.
  { rewrite (run_commit_falha _ _ _ _ token registros e Ht Hb Hc Hm Hk) in Hrun.
    injection Hrun as _ <-. discriminate. }
  eauto 10.
Qed.

(** *** The statements on the table *)

Lemma casa_spec (idSistema : Z) (k : Chave) (l : Linha) :
  casa idSistema k l = true <-> ID_SISTEMA l = idSistema /\ chave l = k.
Proof.
  unfold casa. rewrite andb_true_iff, Z.eqb_eq, bool_decide_eq_true. reflexivity.
Qed.

Lemma casa_marcaNaoAtual (s : Z) (k : Chave) (agora : Z) (l : Linha) :
  casa s k (marcaNaoAtual agora l) = casa s k l.
Proof. reflexivity. Qed.

Lemma casa_atualiza (s : Z) (k : Chave) (c : Campos) (agora : Z) (l : Linha) :
  casa s k (atualiza c agora l) = casa s k l.
Proof. reflexivity. Qed.

Lemma casa_novaLinha (s s' : Z) (k k' : Chave) (c : Campos) (agora : Z) :
  casa s' k' (novaLinha s k c agora) = (s' =? s) && bool_decide (k' = k).
Proof.
  unfold casa. cbn. rewrite (Z.eqb_sym s s').
  destruct (s' =? s); [cbn | reflexivity].
  apply bool_decide_ext. split; congruence.
Qed.

Lemma existe_marcar (s agora : Z) (t : Tabela) (s' : Z) (k' : Chave) :
  existe (sqlMarcar s agora t) s' k' = existe t s' k'.
Proof.
  unfold existe, sqlMarcar. induction t as [|l t IH]; [reflexivity|].
  cbn. rewrite IH. destruct (atualDe s l); reflexivity.
Qed.

Lemma count_marcar (s agora : Z) (t : Tabela) (s' : Z) (k' : Chave) :
  sqlCount s' k' (sqlMarcar s agora t) = sqlCount s' k' t.
Proof.
  unfold sqlCount, sqlMarcar. induction t as [|l t IH]; [reflexivity|].
  rewrite fmap_cons, !filter_cons.
  replace (casa s' k' (if atualDe s l then marcaNaoAtual agora l else l))
    with (casa s' k' l) by (destruct (atualDe s l); reflexivity).
  destruct (decide (casa s' k' l = true)); cbn; now rewrite IH.
Qed.

Lemma ativa_marcar (s agora : Z) (t : Tabela) (s' : Z) (k' : Chave) :
  ativa (sqlMarcar s agora t) s' k' = negb (s' =? s) && ativa t s' k'.
Proof.
  unfold ativa, sqlMarcar. induction t as [|l t IH].
  - cbn. now rewrite andb_false_r.
  - rewrite fmap_cons. cbn [existsb]. rewrite IH.
    assert (Hkey : casa s' k' l = true -> ID_SISTEMA l = s')
      by (now intros [? _]%casa_spec).
    destruct (atualDe s l) eqn:Ha.
    + rewrite casa_marcaNaoAtual. cbn [SANKHYA_ATUAL marcaNaoAtual].
      apply andb_true_iff in Ha as [Hs%Z.eqb_eq Hat]. rewrite Hat.
      rewrite andb_false_r, andb_true_r. cbn [orb].
      destruct (casa s' k' l) eqn:Hc; [|reflexivity].
      rewrite <- (Hkey eq_refl), Hs, Z.eqb_refl. reflexivity.
    + destruct (casa s' k' l && SANKHYA_ATUAL l) eqn:Hc; [|reflexivity].
      apply andb_true_iff in Hc as [Hc Hat]. cbn [orb].
      rewrite andb_true_r. unfold atualDe in Ha. rewrite Hat, andb_true_r in Ha.
      rewrite <- (Hkey Hc), Ha. reflexivity.
Qed.

Lemma existe_update (s : Z) (k : Chave) (c : Campos) (agora : Z) (t : Tabela)
    (s' : Z) (k' : Chave) :
  existe (sqlUpdate s k c agora t) s' k' = existe t s' k'.
Proof.
  unfold existe, sqlUpdate. induction t as [|l t IH]; [reflexivity|].
  cbn. rewrite IH. destruct (casa s k l); reflexivity.
Qed.

Lemma count_update (s : Z) (k : Chave) (c : Campos) (agora : Z) (t : Tabela)
    (s' : Z) (k' : Chave) :
  sqlCount s' k' (sqlUpdate s k c agora t) = sqlCount s' k' t.
Proof.
  unfold sqlCount, sqlUpdate. induction t as [|l t IH]; [reflexivity|].
  rewrite fmap_cons, !filter_cons.
  replace (casa s' k' (if casa s k l then atualiza c agora l else l))
    with (casa s' k' l) by (destruct (casa s k l); reflexivity).
  destruct (decide (casa s' k' l = true)); cbn; now rewrite IH.
Qed.

Lemma casa_outro (s s' : Z) (k k' : Chave) (l : Linha) :
  casa s k l = true -> casa s' k' l = (s' =? s) && bool_decide (k' = k).
Proof.
  intros [Hs Hk]%casa_spec. unfold casa. rewrite Hs, Hk, (Z.eqb_sym s s').
  destruct (s' =? s); [cbn | reflexivity].
  apply bool_decide_ext. split; congruence.
Qed.

Lemma ativa_update (s : Z) (k : Chave) (c : Campos) (agora : Z) (t : Tabela)
    (s' : Z) (k' : Chave) :
  ativa (sqlUpdate s k c agora t) s' k'
  = ((s' =? s) && bool_decide (k' = k) && existe t s k) || ativa t s' k'.
Proof.
  unfold ativa, existe, sqlUpdate. induction t as [|l t IH].
  - cbn. now rewrite andb_false_r.
  - rewrite fmap_cons. cbn [existsb]. rewrite IH.
    destruct (casa s k l) eqn:Hc.
    + rewrite casa_atualiza, (casa_outro s s' k k' l Hc).
      cbn [SANKHYA_ATUAL atualiza].
      destruct ((s' =? s) && bool_decide (k' = k)); reflexivity.
    + cbn [orb].
      destruct (casa s' k' l && SANKHYA_ATUAL l); cbn [orb];
        [now rewrite orb_true_r | reflexivity].
Qed.

Lemma existe_insert (s : Z) (k : Chave) (c : Campos) (agora : Z) (t : Tabela)
    (s' : Z) (k' : Chave) :
  existe (sqlInsert s k c agora t) s' k'
  = ((s' =? s) && bool_decide (k' = k)) || existe t s' k'.
Proof.
  unfold existe, sqlInsert. rewrite existsb_app. cbn.
  rewrite casa_novaLinha, orb_false_r. apply orb_comm.
Qed.

Lemma ativa_insert (s : Z) (k : Chave) (c : Campos) (agora : Z) (t : Tabela)
    (s' : Z) (k' : Chave) :
  ativa (sqlInsert s k c agora t) s' k'
  = ((s' =? s) && bool_decide (k' = k)) || ativa t s' k'.
Proof.
  unfold ativa, sqlInsert. rewrite existsb_app. cbn.
  rewrite casa_novaLinha, orb_false_r, andb_true_r. apply orb_comm.
Qed.

Lemma count_insert (s : Z) (k : Chave) (c : Campos) (agora : Z) (t : Tabela)
    (s' : Z) (k' : Chave) :
  sqlCount s' k' (sqlInsert s k c agora t)
  = (sqlCount s' k' t +
     (if (s' =? s)%Z && bool_decide (k' = k) then 1 else 0))%nat.
Proof.
  unfold sqlCount, sqlInsert. rewrite filter_app, length_app.
  rewrite filter_cons, filter_nil, casa_novaLinha.
  destruct ((s' =? s) && bool_decide (k' = k)); reflexivity.
Qed.

(** *** One step of the loop *)

Lemma ativa_tabelaApos (amb : Ambiente) (s : Z) (i : nat) (r : Registro)
    (t : Tabela) (s' : Z) (k' : Chave) :
  ativa (tabelaApos amb s i r t) s' k'
  = (negb (linhaFalha amb i) && ((s' =? s) && bool_decide (k' = chaveDe r)))
    || ativa t s' k'.
Proof.
  unfold tabelaApos. destruct (linhaFalha amb i); [reflexivity|]. cbn [negb andb].
  destruct (existe t s (chaveDe r)) eqn:He.
  - now rewrite ativa_update, He, andb_true_r.
  - apply ativa_insert.
Qed.

Lemma existe_tabelaApos (amb : Ambiente) (s : Z) (i : nat) (r : Registro)
    (t : Tabela) (s' : Z) (k' : Chave) :
  existe (tabelaApos amb s i r t) s' k'
  = (negb (linhaFalha amb i) && ((s' =? s) && bool_decide (k' = chaveDe r)))
    || existe t s' k'.
Proof.
  unfold tabelaApos. destruct (linhaFalha amb i); [reflexivity|]. cbn [negb andb].
  destruct (existe t s (chaveDe r)) eqn:He.
  - rewrite existe_update.
    destruct ((s' =? s) && bool_decide (k' = chaveDe r)) eqn:Hm; [|reflexivity].
    apply andb_true_iff in Hm as [->%Z.eqb_eq ->%bool_decide_eq_true].
    now rewrite He.
  - apply existe_insert.
Qed.

Lemma count_tabelaApos (amb : Ambiente) (s : Z) (i : nat) (r : Registro)
    (t : Tabela) :
  (forall s' k', sqlCount s' k' t <= 1)%nat ->
  (forall s' k', sqlCount s' k' (tabelaApos amb s i r t) <= 1)%nat.
Proof.
  intros Hone s' k'. unfold tabelaApos.
  destruct (linhaFalha amb i); [apply Hone|].
  destruct (existe t s (chaveDe r)) eqn:He.
  - rewrite count_update. apply Hone.
  - rewrite count_insert.
    destruct ((s' =? s) && bool_decide (k' = chaveDe r)) eqn:Hm.
    + apply andb_true_iff in Hm as [->%Z.eqb_eq ->%bool_decide_eq_true].
      rewrite <- sqlCount_existe in He. apply bool_decide_eq_false in He. lia.
    + specialize (Hone s' k'). lia.
Qed.

Lemma contagemApos_soma (amb : Ambiente) (s : Z) (i : nat) (r : Registro)
    (t : Tabela) (c : nat * nat) :
  let c' := contagemApos amb s i r t c in
  (c'.1 + c'.2 = c.1 + c.2 + if linhaFalha amb i then 0 else 1)%nat.
Proof.
  unfold contagemApos. destruct (linhaFalha amb i); cbn; [lia|].
  destruct (existe t s (chaveDe r)); cbn; lia.
Qed.

(** *** The whole loop *)

Lemma upsertPuro_cons (amb : Ambiente) (s : Z) (i : nat) (r : Registro)
    (resto : list Registro) (t : Tabela) (c : nat * nat) :
  upsertPuro amb s i (r :: resto) t c
  = let p := upsertPuro amb s (S i) resto (tabelaApos amb s i r t)
               (contagemApos amb s i r t c) in
    (p.1.1, p.1.2, eventosDe amb s i r t ++ p.2).
Proof.
  cbn [upsertPuro]. now destruct (upsertPuro amb s (S i) resto _ _) as [[? ?] ?].
Qed.

Lemma ativa_upsertPuro (amb : Ambiente) (s : Z) (registros : list Registro)
    (s' : Z) (k' : Chave) :
  forall (i : nat) (t : Tabela) (c : nat * nat),
    ativa (upsertPuro amb s i registros t c).1.1 s' k'
    = ((s' =? s) && bool_decide (k' ∈ chavesGravadas amb i registros))
      || ativa t s' k'.
Proof.
  induction registros as [|r resto IH]; intros i t c.
  - cbn. rewrite bool_decide_eq_false_2 by apply not_elem_of_nil.
    now rewrite andb_false_r.
  - rewrite upsertPuro_cons. cbn [fst snd]. rewrite IH, ativa_tabelaApos.
    cbn [chavesGravadas]. destruct (linhaFalha amb i); cbn [negb andb orb];
      [reflexivity|].
    destruct (s' =? s); cbn [andb orb]; [|reflexivity].
    rewrite orb_assoc. f_equal.
    destruct (decide (k' = chaveDe r)) as [->|Hne].
    + rewrite (bool_decide_eq_true_2 (chaveDe r = chaveDe r)) by reflexivity.
      rewrite orb_true_r. symmetry. apply bool_decide_eq_true_2. left.
    + rewrite (bool_decide_eq_false_2 (k' = _)) by assumption.
      rewrite orb_false_r. apply bool_decide_ext. rewrite elem_of_cons. tauto.
Qed.

Lemma existe_upsertPuro (amb : Ambiente) (s : Z) (registros : list Registro)
    (s' : Z) (k' : Chave) :
  forall (i : nat) (t : Tabela) (c : nat * nat),
    existe (upsertPuro amb s i registros t c).1.1 s' k'
    = ((s' =? s) && bool_decide (k' ∈ chavesGravadas amb i registros))
      || existe t s' k'.
Proof.
  induction registros as [|r resto IH]; intros i t c.
  - cbn. rewrite bool_decide_eq_false_2 by apply not_elem_of_nil.
    now rewrite andb_false_r.
  - rewrite upsertPuro_cons. cbn [fst snd]. rewrite IH, existe_tabelaApos.
    cbn [chavesGravadas]. destruct (linhaFalha amb i); cbn [negb andb orb];
      [reflexivity|].
    destruct (s' =? s); cbn [andb orb]; [|reflexivity].
    rewrite orb_assoc. f_equal.
    destruct (decide (k' = chaveDe r)) as [->|Hne].
    + rewrite (bool_decide_eq_true_2 (chaveDe r = chaveDe r)) by reflexivity.
      rewrite orb_true_r. symmetry. apply bool_decide_eq_true_2. left.
    + rewrite (bool_decide_eq_false_2 (k' = _)) by assumption.
      rewrite orb_false_r. apply bool_decide_ext. rewrite elem_of_cons. tauto.
Qed.

Lemma count_upsertPuro (amb : Ambiente) (s : Z) (registros : list Registro) :
  forall (i : nat) (t : Tabela) (c : nat * nat),
    (forall s' k', sqlCount s' k' t <= 1)%nat ->
    (forall s' k', sqlCount s' k' (upsertPuro amb s i registros t c).1.1 <= 1)%nat.
Proof.
  induction registros as [|r resto IH]; intros i t c Hone; [exact Hone|].
  rewrite upsertPuro_cons. cbn [fst snd]. apply IH. now apply count_tabelaApos.
Qed.

Lemma soma_upsertPuro (amb : Ambiente) (s : Z) (registros : list Registro) :
  forall (i : nat) (t : Tabela) (c : nat * nat),
    let c' := (upsertPuro amb s i registros t c).1.2 in
    (c'.1 + c'.2 = c.1 + c.2 + length (chavesGravadas amb i registros))%nat.
Proof.
  induction registros as [|r resto IH]; intros i t c; [cbn; lia|].
  rewrite upsertPuro_cons. cbn [fst snd]. cbv zeta in IH |- *. rewrite IH.
  pose proof (contagemApos_soma amb s i r t c) as Hs. cbv zeta in Hs. rewrite Hs.
  cbn [chavesGravadas]. destruct (linhaFalha amb i); cbn [length]; lia.
Qed.

(** When every record already has a row, the loop only updates. *)
Lemma atualiza_upsertPuro (amb : Ambiente) (s : Z) (registros : list Registro) :
  forall (i : nat) (t : Tabela) (c : nat * nat),
    (forall r, r ∈ registros -> existe t s (chaveDe r) = true) ->
    (upsertPuro amb s i registros t c).1.2
    = (c.1, (c.2 + length (chavesGravadas amb i registros))%nat).
Proof.
  induction registros as [|r resto IH]; intros i t [ins atu] Hex.
  - cbn. f_equal. lia.
  - rewrite upsertPuro_cons. cbn [fst snd]. rewrite IH.
    + unfold contagemApos. cbn [chavesGravadas].
      rewrite (Hex r) by left.
      destruct (linhaFalha amb i); cbn; f_equal; lia.
    + intros r' Hr'. rewrite existe_tabelaApos, (Hex r') by now right.
      apply orb_true_r.
Qed.

Lemma eventos_upsertPuro (amb : Ambiente) (s : Z) (registros : list Registro) :
  forall (i : nat) (t : Tabela) (c : nat * nat),
    Forall (fun ev => marco ev = false) (upsertPuro amb s i registros t c).2.
Proof.
  induction registros as [|r resto IH]; intros i t c; [constructor|].
  rewrite upsertPuro_cons. cbn [fst snd]. apply Forall_app. split; [|apply IH].
  unfold eventosDe.
  destruct (selectFalha amb i), (existe t s (chaveDe r)), (escritaFalha amb i);
    repeat constructor.
Qed.

Lemma elem_of_chavesGravadas (amb : Ambiente) (registros : list Registro) (k : Chave) :
  forall i : nat,
    k ∈ chavesGravadas amb i registros <->
    exists (j : nat) (r : Registro),
      registros !! j = Some r /\ chaveDe r = k /\ linhaFalha amb (i + j) = false.
Proof.
  induction registros as [|r resto IH]; intros i.
  - cbn. split; [intros H; now apply not_elem_of_nil in H|].
    intros (j & r & Hj & _). discriminate.
  - cbn [chavesGravadas]. split.
    + destruct (linhaFalha amb i) eqn:Hf.
      * intros (j & r' & Hj & Hk & Hfj)%IH. exists (S j), r'.
        now rewrite Nat.add_succ_r.
      * intros [->|(j & r' & Hj & Hk & Hfj)%IH]%elem_of_cons.
        -- exists 0%nat, r. now rewrite Nat.add_0_r.
        -- exists (S j), r'. now rewrite Nat.add_succ_r.
    + intros ([|j] & r' & Hj & Hk & Hfj).
      * injection Hj as ->. rewrite Nat.add_0_r in Hfj. rewrite Hfj, <- Hk. left.
      * rewrite Nat.add_succ_r in Hfj.
        assert (k ∈ chavesGravadas amb (S i) resto) by (apply IH; eauto).
        destruct (linhaFalha amb i); [assumption | now right].
Qed.

Lemma chavesGravadas_sem_falha (amb : Ambiente) (registros : list Registro) :
  forall i : nat,
    (forall j, linhaFalha amb j = false) ->
    chavesGravadas amb i registros = chaveDe <$> registros.
Proof.
  induction registros as [|r resto IH]; intros i Hf; [reflexivity|].
  cbn [chavesGravadas]. rewrite Hf, IH by assumption. reflexivity.
Qed.

Lemma ativasCount_le (s : Z) (k : Chave) (t : Tabela) :
  (ativasCount s k t <= sqlCount s k t)%nat.
Proof.
  unfold ativasCount, sqlCount. induction t as [|l t IH]; [reflexivity|].
  rewrite !filter_cons. destruct (casa s k l); cbn [andb].
  - rewrite (decide_True (P := true = true)) by reflexivity.
    destruct (decide (SANKHYA_ATUAL l = true)); cbn [length]; lia.
  - rewrite !decide_False by discriminate. exact IH.
Qed.

Lemma length_chavesGravadas_uma_falha (amb : Ambiente) (registros : list Registro) :
  forall i j : nat,
    (j < length registros)%nat ->
    linhaFalha amb (i + j) = true ->
    (forall j', (j' < length registros)%nat -> j' <> j ->
                linhaFalha amb (i + j') = false) ->
    length (chavesGravadas amb i registros) = (length registros - 1)%nat.
Proof.
  induction registros as [|r resto IH]; intros i j Hj Hf Houtros;
    [cbn in Hj; lia|].
  cbn [chavesGravadas length]. destruct j as [|j].
  - rewrite Nat.add_0_r in Hf. rewrite Hf.
    assert (Hlen : forall (l : list Registro) (n : nat),
              (forall j', (j' < length l)%nat -> linhaFalha amb (n + j') = false) ->
              length (chavesGravadas amb n l) = length l).
    { clear. induction l as [|x l IHl]; intros n Hn; [reflexivity|].
      cbn [chavesGravadas length].
      pose proof (Hn 0%nat ltac:(cbn; lia)) as H0. rewrite Nat.add_0_r in H0.
      rewrite H0. cbn [length]. f_equal. apply IHl. intros j' Hj'.
      replace (S n + j')%nat with (n + S j')%nat by lia. apply Hn. cbn. lia. }
    rewrite Hlen; [lia|]. intros j' Hj'.
    replace (S i + j')%nat with (i + S j')%nat by lia.
    apply Houtros; cbn [length]; lia.
  - pose proof (Houtros 0%nat ltac:(cbn; lia) ltac:(lia)) as H0.
    rewrite Nat.add_0_r in H0. rewrite H0. cbn [length].
    rewrite (IH (S i) j).
    + cbn [length] in Hj. lia.
    + cbn [length] in Hj. lia.
    + now replace (S i + j)%nat with (i + S j)%nat by lia.
    + intros j' Hj' Hne. replace (S i + j')%nat with (i + S j')%nat by lia.
      apply Houtros; cbn [length]; lia.
Qed.

Lemma erro_registrado (amb : Ambiente) (s : Z) (registros : list Registro) :
  forall (i j : nat) (t : Tabela) (c : nat * nat),
    (j < length registros)%nat ->
    linhaFalha amb (i + j) = true ->
    EvErroLinha (i + j) ∈ (upsertPuro amb s i registros t c).2.
Proof.
  induction registros as [|r resto IH]; intros i j t c Hj Hf; [cbn in Hj; lia|].
  rewrite upsertPuro_cons. cbn [fst snd]. apply elem_of_app. destruct j as [|j].
  - left. rewrite Nat.add_0_r in *. unfold eventosDe, linhaFalha in *.
    destruct (selectFalha amb i); [repeat constructor|].
    destruct (escritaFalha amb i); [repeat constructor | discriminate].
  - right. replace (i + S j)%nat with (S i + j)%nat in * by lia.
    apply IH; [cbn [length] in Hj; lia | assumption].
Qed.

Lemma filter_marco_nil (evs : list Evento) :
  Forall (fun ev => marco ev = false) evs ->
  filter (fun ev => marco ev = true) evs = [].
Proof.
  induction 1 as [|ev evs Hev _ IH]; [reflexivity|].
  rewrite filter_cons, decide_False by congruence. exact IH.
Qed.

(** A run requests its token first and writes its one log entry last
    among the delimiting events, whatever path it takes. *)
Lemma run_marcos (amb : Ambiente) (idSis : Z) (nome : string) (w : Mundo) :
  exists (w' : Mundo) (r : SyncResult),
    sincronizarPorEmpresa amb idSis nome w = (w', inr r)
    /\ idSistema r = idSis /\ empresa r = nome
    /\ filter (fun ev => marco ev = true) (rastro w')
        = filter (fun ev => marco ev = true) (rastro w)
          ++ [EvToken idSis; EvLog idSis (success r)].
Proof.
  destruct (tokenResp amb) as [e|token] eqn:Ht.
  { eexists _, _. split; [exact (run_token_falha _ _ _ _ e Ht)|].
    cbn [rastro]. rewrite filter_app. repeat split. }
  destruct (buscaResp amb) as [e|registros] eqn:Hb.
  { eexists _, _. split; [exact (run_busca_falha _ _ _ _ token e Ht Hb)|].
    cbn [rastro]. rewrite filter_app. repeat split. }
  destruct (conexaoResp amb) as [e|] eqn:Hc.
  { eexists _, _.
    split; [exact (run_conexao_falha _ _ _ _ token registros e Ht Hb Hc)|].
    cbn [rastro]. rewrite filter_app. repeat split. }
  destruct (marcarFalha amb) as [e|] eqn:Hm.
  { eexists _, _.
    split; [exact (run_marcar_falha _ _ _ _ token registros e Ht Hb Hc Hm)|].
    cbn [rastro]. rewrite filter_app. repeat split. }
  destruct (commitFalha amb) as [e|] eqn:Hk.
  { eexists _, _.
    split; [exact (run_commit_falha _ _ _ _ token registros e Ht Hb Hc Hm Hk)|].
    cbn [rastro]. rewrite !filter_app.
    rewrite (filter_marco_nil _ (eventos_upsertPuro _ _ _ _ _ _)).
    repeat split. }
  eexists _, _.
  split; [exact (run_sucesso _ _ _ _ token registros Ht Hb Hc Hm Hk)|].
  cbn [rastro]. rewrite !filter_app.
  rewrite (filter_marco_nil _ (eventos_upsertPuro _ _ _ _ _ _)).
  repeat split.
Qed.

(** Once the connection is acquired, closing it is the last effect of
    the run, on the success path and on both failure paths. *)
Lemma run_fecha_por_ultimo (amb : Ambiente) (idSis : Z) (nome : string) (w : Mundo)
    (token : string) (registros : list Registro) :
  tokenResp amb = inr token ->
  buscaResp amb = inr registros ->
  conexaoResp amb = None ->
  exists (w' : Mundo) (r : SyncResult) (evs : list Evento),
    sincronizarPorEmpresa amb idSis nome w = (w', inr r)
    /\ rastro w' = rastro w ++ evs
    /\ last evs = Some EvClose.
Proof.
  intros Ht Hb Hc.
  destruct (marcarFalha amb) as [e|] eqn:Hm.
  { eexists _, _, _.
    split; [exact (run_marcar_falha _ _ _ _ token registros e Ht Hb Hc Hm)|].
    split; reflexivity. }
  destruct (commitFalha amb) as [e|] eqn:Hk.
  { eexists _, _, _.
    split; [exact (run_commit_falha _ _ _ _ token registros e Ht Hb Hc Hm Hk)|].
    split; [reflexivity|].
    rewrite !app_assoc.
    change [EvCommit; EvRollback; EvLog idSis false; EvClose]
      with ([EvCommit; EvRollback; EvLog idSis false] ++ [EvClose]).
    rewrite app_assoc. apply last_snoc. }
  eexists _, _, _.
  split; [exact (run_sucesso _ _ _ _ token registros Ht Hb Hc Hm Hk)|].
  split; [reflexivity|].
  rewrite !app_assoc.
  change [EvCommit; EvLog idSis true; EvClose]
    with ([EvCommit; EvLog idSis true] ++ [EvClose]).
  rewrite app_assoc. apply last_snoc.
Qed.

(** *** The claims about one run *)

(** C1, as the code has it. After a run that returned [success = true],
    a row keyed [(S, K)] is active exactly when [K] is the key of a
    fetched record whose statements did not throw: with no row-level
    error, exactly when [K] appeared in the snapshot. An empty snapshot
    leaves no row of [S] active. If the table had at most one row per
    key before the run, it has at most one row, and so at most one active
    row, per key afterwards. *)
Theorem tombstone_after_run (amb : Ambiente) (idSistema : Z) (nome : string)
    (w w' : Mundo) (r : SyncResult) (registros : list Registro) :
  sincronizarPorEmpresa amb idSistema nome w = (w', inr r) ->
  success r = true ->
  buscaResp amb = inr registros ->
  (forall k : Chave,
     ativa (espelho w') idSistema k = true <->
     exists (j : nat) (reg : Registro),
       registros !! j = Some reg /\ chaveDe reg = k /\ linhaFalha amb j = false)
  /\ ((forall j, linhaFalha amb j = false) ->
      forall k : Chave,
        ativa (espelho w') idSistema k = true <-> k ∈ chaveDe <$> registros)
  /\ (registros = [] -> forall k : Chave, ativa (espelho w') idSistema k = false)
  /\ ((forall s k, sqlCount s k (espelho w) <= 1)%nat ->
      forall s k, (sqlCount s k (espelho w') <= 1 /\ ativasCount s k (espelho w') <= 1)%nat).
Proof.
  intros Hrun Hs Hb.
  destruct (run_sucesso_inv _ _ _ _ _ _ Hrun Hs)
    as (token & regs & Ht & Hb' & Hc & Hm & Hk).
  assert (regs = registros) as -> by congruence.
  pose proof (run_sucesso amb idSistema nome w token registros Ht Hb Hc Hm Hk) as Heq.
  cbv zeta in Heq. rewrite Heq in Hrun. injection Hrun as <- _.
  cbn [espelho].
  assert (Hativa : forall k,
    ativa (upsertPuro amb idSistema 0 registros
             (sqlMarcar idSistema (timestampMarcar amb) (espelho w)) (0%nat, 0%nat)).1.1
          idSistema k
    = bool_decide (k ∈ chavesGravadas amb 0 registros)).
  { intros k. rewrite ativa_upsertPuro, ativa_marcar, Z.eqb_refl.
    cbn [negb andb]. apply orb_false_r. }
  split; [|split; [|split]].
  - intros k. rewrite Hativa, bool_decide_eq_true.
    apply (elem_of_chavesGravadas amb registros k 0).
  - intros Hf k. rewrite Hativa, bool_decide_eq_true.
    now rewrite chavesGravadas_sem_falha.
  - intros -> k. rewrite Hativa. apply bool_decide_eq_false_2, not_elem_of_nil.
  - intros Hone s k.
    assert (sqlCount s k
              (upsertPuro amb idSistema 0 registros
                 (sqlMarcar idSistema (timestampMarcar amb) (espelho w))
                 (0%nat, 0%nat)).1.1 <= 1)%nat as Hle.
    { apply count_upsertPuro. intros s' k'. rewrite count_marcar. apply Hone. }
    split; [exact Hle|]. etransitivity; [apply ativasCount_le | exact Hle].
Qed.

(** C2. Two runs in a row for the same system over the same snapshot,
    neither with a row-level error: the active keys of every system are
    the same after the second run as after the first, and the second run
    inserts nothing and updates once per fetched record. *)
Theorem reconciliation_idempotent (amb1 amb2 : Ambiente) (idSistema : Z)
    (nome : string) (w w1 w2 : Mundo) (r1 r2 : SyncResult)
    (registros : list Registro) :
  buscaResp amb1 = inr registros ->
  buscaResp amb2 = inr registros ->
  (forall j, linhaFalha amb1 j = false) ->
  (forall j, linhaFalha amb2 j = false) ->
  sincronizarPorEmpresa amb1 idSistema nome w = (w1, inr r1) ->
  success r1 = true ->
  sincronizarPorEmpresa amb2 idSistema nome w1 = (w2, inr r2) ->
  success r2 = true ->
  (forall s k, ativa (espelho w2) s k = ativa (espelho w1) s k)
  /\ registrosInseridos r2 = 0%nat
  /\ registrosAtualizados r2 = length registros
  /\ totalRegistros r2 = length registros.
Proof.
  intros Hb1 Hb2 Hf1 Hf2 Hrun1 Hs1 Hrun2 Hs2.
  destruct (run_sucesso_inv _ _ _ _ _ _ Hrun1 Hs1)
    as (token1 & regs1 & Ht1 & Hb1' & Hc1 & Hm1 & Hk1).
  destruct (run_sucesso_inv _ _ _ _ _ _ Hrun2 Hs2)
    as (token2 & regs2 & Ht2 & Hb2' & Hc2 & Hm2 & Hk2).
  assert (regs1 = registros) as -> by congruence.
  assert (regs2 = registros) as -> by congruence.
  pose proof (run_sucesso amb1 idSistema nome w token1 registros Ht1 Hb1 Hc1 Hm1 Hk1)
    as Heq1.
  pose proof (run_sucesso amb2 idSistema nome w1 token2 registros Ht2 Hb2 Hc2 Hm2 Hk2)
    as Heq2.
  cbv zeta in Heq1, Heq2. rewrite Heq1 in Hrun1. rewrite Heq2 in Hrun2.
  injection Hrun2 as <- <-. cbn [espelho success registrosInseridos
    registrosAtualizados totalRegistros resultadoSucesso].
  assert (He1 : forall s k,
            ativa (espelho w1) s k
            = ((s =? idSistema) && bool_decide (k ∈ chaveDe <$> registros))
              || (negb (s =? idSistema) && ativa (espelho w) s k)).
  { intros s k. injection Hrun1 as <- _. cbn [espelho].
    now rewrite ativa_upsertPuro, ativa_marcar, chavesGravadas_sem_falha. }
  assert (Hx1 : forall reg, reg ∈ registros ->
            existe (espelho w1) idSistema (chaveDe reg) = true).
  { intros reg Hreg. injection Hrun1 as <- _. cbn [espelho].
    rewrite existe_upsertPuro, chavesGravadas_sem_falha, Z.eqb_refl by assumption.
    rewrite bool_decide_eq_true_2; [reflexivity|].
    apply list_elem_of_fmap. eauto. }
  split; [|split; [|split]].
  - intros s k.
    rewrite ativa_upsertPuro, ativa_marcar, chavesGravadas_sem_falha, He1
      by assumption.
    destruct (s =? idSistema); cbn [negb andb orb]; [|reflexivity].
    now rewrite !orb_false_r.
  - rewrite atualiza_upsertPuro; [reflexivity|].
    intros reg Hreg. rewrite existe_marcar. now apply Hx1.
  - rewrite atualiza_upsertPuro.
    + cbn [fst snd]. rewrite chavesGravadas_sem_falha by assumption.
      now rewrite length_fmap.
    + intros reg Hreg. rewrite existe_marcar. now apply Hx1.
  - reflexivity.
Qed.

(** C3. When the collaborators of the run do not fail and exactly one
    of the [N] fetched records has a statement that throws, the run
    returns [success = true] with [N] records fetched and
    [inserted + updated = N - 1]; the error was logged inside the loop,
    the transaction was committed, and every other record has an active
    row in the committed table. *)
Theorem partial_failure_isolation (amb : Ambiente) (idSistema : Z) (nome : string)
    (w : Mundo) (token : string) (registros : list Registro) (j : nat) :
  tokenResp amb = inr token ->
  buscaResp amb = inr registros ->
  conexaoResp amb = None ->
  marcarFalha amb = None ->
  commitFalha amb = None ->
  (j < length registros)%nat ->
  linhaFalha amb j = true ->
  (forall i, (i < length registros)%nat -> i <> j -> linhaFalha amb i = false) ->
  exists (w' : Mundo) (r : SyncResult),
    sincronizarPorEmpresa amb idSistema nome w = (w', inr r)
    /\ success r = true
    /\ totalRegistros r = length registros
    /\ (registrosInseridos r + registrosAtualizados r = length registros - 1)%nat
    /\ EvErroLinha j ∈ rastro w'
    /\ EvCommit ∈ rastro w'
    /\ (forall i reg, i <> j -> registros !! i = Some reg ->
          ativa (espelho w') idSistema (chaveDe reg) = true).
Proof.
  intros Ht Hb Hc Hm Hk Hj Hf Houtros.
  pose proof (run_sucesso amb idSistema nome w token registros Ht Hb Hc Hm Hk) as Heq.
  cbv zeta in Heq. eexists _, _. split; [exact Heq|].
  cbn [success totalRegistros registrosInseridos registrosAtualizados
       resultadoSucesso espelho rastro].
  split; [reflexivity|]. split; [reflexivity|]. split; [|split; [|split]].
  - pose proof (soma_upsertPuro amb idSistema registros 0
                  (sqlMarcar idSistema (timestampMarcar amb) (espelho w))
                  (0%nat, 0%nat)) as Hsoma.
    cbv zeta in Hsoma. rewrite Hsoma. cbn [fst snd].
    now rewrite (length_chavesGravadas_uma_falha amb registros 0 j).
  - rewrite !elem_of_app. right. right. left.
    apply (erro_registrado amb idSistema registros 0 j); assumption.
  - rewrite !elem_of_app. right. right. right. left.
  - intros i reg Hne Hi.
    rewrite ativa_upsertPuro, Z.eqb_refl. cbn [andb].
    rewrite bool_decide_eq_true_2; [reflexivity|].
    apply (elem_of_chavesGravadas amb registros (chaveDe reg) 0).
    exists i, reg. split; [exact Hi|]. split; [reflexivity|].
    apply Houtros; [|exact Hne]. now apply lookup_lt_Some in Hi.
Qed.

(** C7. Every run returns one result and writes one log entry, whose
    status is that of the result. When the token provider throws, or the
    fetch, or the connection provider, no connection exists: nothing is
    rolled back or closed.
    When the stale-marking or the commit throws, the transaction is rolled
    back. Whenever the connection was acquired, closing it is the last
    effect of the run. On each failure path the committed table is as
    before and the result returned has [success = false] and the message
    of the exception in [erro]; a failing rollback, log or close changes
    none of this. *)
Theorem failure_paths (amb : Ambiente) (idSis : Z) (nome : string) (w : Mundo) :
  (exists (w' : Mundo) (r : SyncResult),
     sincronizarPorEmpresa amb idSis nome w = (w', inr r)
     /\ idSistema r = idSis /\ empresa r = nome
     /\ filter (fun ev => marco ev = true) (rastro w')
         = filter (fun ev => marco ev = true) (rastro w)
           ++ [EvToken idSis; EvLog idSis (success r)])
  /\ (forall (token : string) (registros : list Registro),
        tokenResp amb = inr token ->
        buscaResp amb = inr registros ->
        conexaoResp amb = None ->
        exists (w' : Mundo) (r : SyncResult) (evs : list Evento),
          sincronizarPorEmpresa amb idSis nome w = (w', inr r)
          /\ rastro w' = rastro w ++ evs
          /\ last evs = Some EvClose)
  /\ (forall e : Erro,
        tokenResp amb = inl e ->
        exists (w' : Mundo) (r : SyncResult),
          sincronizarPorEmpresa amb idSis nome w = (w', inr r)
          /\ success r = false /\ erro r = Some (message e)
          /\ espelho w' = espelho w
          /\ rastro w' = rastro w ++ [EvToken idSis; EvLog idSis false])
  /\ (forall (token : string) (e : Erro),
        tokenResp amb = inr token ->
        buscaResp amb = inl e ->
        exists (w' : Mundo) (r : SyncResult),
          sincronizarPorEmpresa amb idSis nome w = (w', inr r)
          /\ success r = false /\ erro r = Some (message e)
          /\ espelho w' = espelho w
          /\ rastro w' = rastro w ++
               [EvToken idSis; EvBuscar idSis; EvLog idSis false])
  /\ (forall (token : string) (registros : list Registro) (e : Erro),
        tokenResp amb = inr token ->
        buscaResp amb = inr registros ->
        conexaoResp amb = Some e ->
        exists (w' : Mundo) (r : SyncResult),
          sincronizarPorEmpresa amb idSis nome w = (w', inr r)
          /\ success r = false /\ erro r = Some (message e)
          /\ espelho w' = espelho w
          /\ rastro w' = rastro w ++
               [EvToken idSis; EvBuscar idSis; EvConnect; EvLog idSis false])
  /\ (forall (token : string) (registros : list Registro) (e : Erro),
        tokenResp amb = inr token ->
        buscaResp amb = inr registros ->
        conexaoResp amb = None ->
        marcarFalha amb = Some e ->
        exists (w' : Mundo) (r : SyncResult),
          sincronizarPorEmpresa amb idSis nome w = (w', inr r)
          /\ success r = false /\ erro r = Some (message e)
          /\ espelho w' = espelho w
          /\ rastro w' = rastro w ++
               [EvToken idSis; EvBuscar idSis; EvConnect;
                EvMarcar idSis; EvRollback; EvLog idSis false; EvClose])
  /\ (forall (token : string) (registros : list Registro) (e : Erro),
        tokenResp amb = inr token ->
        buscaResp amb = inr registros ->
        conexaoResp amb = None ->
        marcarFalha amb = None ->
        commitFalha amb = Some e ->
        exists (w' : Mundo) (r : SyncResult) (evs : list Evento),
          sincronizarPorEmpresa amb idSis nome w = (w', inr r)
          /\ success r = false /\ erro r = Some (message e)
          /\ espelho w' = espelho w
          /\ Forall (fun ev => marco ev = false) evs
          /\ rastro w' = rastro w ++
               [EvToken idSis; EvBuscar idSis; EvConnect; EvMarcar idSis]
               ++ evs ++
               [EvCommit; EvRollback; EvLog idSis false; EvClose]).
Proof.
  split; [apply run_marcos|].
  split; [apply run_fecha_por_ultimo|].
  split; [|split; [|split; [|split]]].
  - intros e Ht. eexists _, _.
    split; [exact (run_token_falha _ _ _ _ e Ht)|]. repeat split.
  - intros token e Ht Hb. eexists _, _.
    split; [exact (run_busca_falha _ _ _ _ token e Ht Hb)|]. repeat split.
  - intros token registros e Ht Hb Hc. eexists _, _.
    split; [exact (run_conexao_falha _ _ _ _ token registros e Ht Hb Hc)|].
    repeat split.
  - intros token registros e Ht Hb Hc Hm. eexists _, _.
    split; [exact (run_marcar_falha _ _ _ _ token registros e Ht Hb Hc Hm)|].
    repeat split.
  - intros token registros e Ht Hb Hc Hm Hk. eexists _, _, _.
    split; [exact (run_commit_falha _ _ _ _ token registros e Ht Hb Hc Hm Hk)|].
    split; [reflexivity|]. split; [reflexivity|]. split; [reflexivity|].
    split; [apply eventos_upsertPuro | reflexivity].
Qed.

(** C9. When the token provider or the fetch throws, the run has no
    connection: it touches the database connection in no way (no
    statement, no commit, no rollback, no close), the committed table is
    exactly as before, and the failure result is returned. *)
Theorem fetch_failure_frame (amb : Ambiente) (idSistema : Z) (nome : string)
    (w : Mundo) (e : Erro) :
  tokenResp amb = inl e
  \/ (exists token, tokenResp amb = inr token /\ buscaResp amb = inl e) ->
  exists (w' : Mundo) (r : SyncResult) (evs : list Evento),
    sincronizarPorEmpresa amb idSistema nome w = (w', inr r)
    /\ espelho w' = espelho w
    /\ rastro w' = rastro w ++ evs
    /\ Forall (fun ev => eventoBD ev = false) evs
    /\ (EvRollback ∉ evs)
    /\ success r = false
    /\ erro r = Some (message e).
Proof.
  intros [Ht | (token & Ht & Hb)].
  - eexists _, _, _. split; [exact (run_token_falha _ _ _ _ e Ht)|].
    cbn. repeat split; [repeat constructor|].
    intros H. repeat (apply elem_of_cons in H as [H|H]; [discriminate|]).
    now apply not_elem_of_nil in H.
  - eexists _, _, _. split; [exact (run_busca_falha _ _ _ _ token e Ht Hb)|].
    cbn. repeat split; [repeat constructor|].
    intros H. repeat (apply elem_of_cons in H as [H|H]; [discriminate|]).
    now apply not_elem_of_nil in H.
Qed.

End ReconcilerProps.

(** ** The batch driver *)

Section BatchProps.
Context `{E : Esquema}.
Import Exec.

Ltac execL :=
  cbv beta iota zeta delta
    [mbind mret M_bind M_ret Exec.bind Exec.ret Exec.throw Exec.get Exec.modify
     Exec.tryCatch Exec.tryFinally emiteL emiteMundo noMundo setConnectionL
     falhaSeL mundoL connectionL espelho rastro].

Lemma loteDesde_run (lote : AmbienteLote) (empresas : list Empresa) :
  forall (i : nat) (resultados : list SyncResult) (w : Mundo) (b : bool),
  exists (w' : Mundo) (rs : list SyncResult),
    loteDesde lote i empresas resultados {| mundoL := w; connectionL := b |}
    = ({| mundoL := w'; connectionL := b |}, inr (resultados ++ rs))
    /\ Forall2 resultadoDe empresas rs
    /\ filter (fun ev => marco ev = true) (rastro w')
        = filter (fun ev => marco ev = true) (rastro w) ++ marcosDe rs.
Proof.
  induction empresas as [|emp resto IH]; intros i resultados w b.
  - exists w, []. cbn. rewrite !app_nil_r. repeat split. constructor.
  - destruct (run_marcos (ambienteDe lote i) (ID_EMPRESA emp) (EMPRESA emp) w)
      as ([e1 t1] & r & Hrun & Hid & Hnome & Hmarcos).
    destruct (IH (S i) (resultados ++ [r])
                {| espelho := e1; rastro := t1 ++ [EvSleep 2000] |} b)
      as (w' & rs & Hresto & Hall & Hmarcos').
    exists w', (r :: rs). split; [|split].
    + cbn [loteDesde]. execL. rewrite Hrun. execL.
      rewrite Hresto. now rewrite <- app_assoc.
    + constructor; [split; assumption | exact Hall].
    + rewrite Hmarcos'. cbn [rastro] in *. rewrite filter_app, Hmarcos.
      unfold marcosDe. cbn. rewrite Hid. now rewrite <- !app_assoc.
Qed.

(** C8. Once the directory has answered with its rows, the driver
    returns one result per row, in the order of the rows, each carrying
    the identifier and the name of its row, whatever happens inside the
    runs; and the runs do not overlap: the token requests, log entries
    and pauses of the batch come run after run, in directory order. *)
Theorem batch_sequential (lote : AmbienteLote) (w : Mundo) (empresas : list Empresa) :
  dirConexao lote = None ->
  dirConsulta lote = inr (Some empresas) ->
  dirClose lote = None ->
  exists (w' : Mundo) (rs : list SyncResult),
    sincronizarTodasEmpresas lote w = (w', inr rs)
    /\ Forall2 resultadoDe empresas rs
    /\ length rs = length empresas
    /\ filter (fun ev => marco ev = true) (rastro w')
        = filter (fun ev => marco ev = true) (rastro w) ++ marcosDe rs.
Proof.
  intros Hc Hq Hk. destruct w as [esp tr].
  unfold sincronizarTodasEmpresas, sincronizarTodasCorpo.
  destruct empresas as [|emp resto].
  - exists {| espelho := esp; rastro := tr ++ [EvConnect; EvDiretorio; EvClose] |}, [].
    split; [|split; [constructor | split; [reflexivity|]]].
    + execL. rewrite Hc. execL. rewrite Hq. execL. rewrite Hk. execL.
      now rewrite <- !app_assoc.
    + cbn [rastro]. rewrite filter_app. cbn. reflexivity.
  - destruct (loteDesde_run lote (emp :: resto) 0 []
                {| espelho := esp; rastro := tr ++ [EvConnect; EvDiretorio; EvClose] |}
                false)
      as (w' & rs & Hrun & Hall & Hmarcos).
    exists w', rs. split; [|split; [exact Hall | split]].
    + execL. rewrite Hc. execL. rewrite Hq. execL. rewrite Hk. execL.
      rewrite <- !app_assoc. cbn [app].
      rewrite Hrun. reflexivity.
    + symmetry. exact (Forall2_length _ _ _ Hall).
    + rewrite Hmarcos. cbn [rastro]. rewrite filter_app. cbn.
      now rewrite app_nil_r.
Qed.

End BatchProps.

(** ** The claims on the scenario *)

Module CenarioProps.
Import Cenario Financeiro.

(** Name the outcome of a run on concrete data. *)
Ltac evaluate_run run H :=
  let v := eval vm_compute in run in
  assert (H : run = v) by reflexivity.

(** C1 as stated fails. The run below returns [success = true] and its
    snapshot holds the key 5, but the write of that record was rejected
    and swallowed by the loop: the row keyed (1, 5), active before the
    run, is inactive after it. *)
Lemma tombstone_fails_on_row_error :
  let res := sincronizarFinanceiroPorEmpresa fuso ambLinhaRejeitada 1 "ACME" mundo0 in
  (exists r, res.2 = inr r /\ success r = true)
  /\ buscaResp ambLinhaRejeitada = inr snapshot
  /\ 5 ∈ NUFIN <$> snapshot
  /\ ativa (espelho mundo0) 1 5 = true
  /\ ativa (espelho res.1) 1 5 = false.
Proof.
  cbv zeta. split; [|split; [|split; [|split]]].
  - eexists. split; vm_compute; reflexivity.
  - reflexivity.
  - cbn. left.
  - vm_compute. reflexivity.
  - vm_compute. reflexivity.
Qed.

(** C1 on the scenario where nothing fails: after the run the keys 5
    and 7 of the snapshot are active in system 1 and the key 6, which left
    the snapshot, is not. *)
Lemma tombstone_after_run_witness :
  let res := sincronizarFinanceiroPorEmpresa fuso ambOk 1 "ACME" mundo0 in
  ativa (espelho res.1) 1 5 = true
  /\ ativa (espelho res.1) 1 7 = true
  /\ ativa (espelho res.1) 1 6 = false.
Proof.
  cbv zeta.
  evaluate_run (sincronizarFinanceiroPorEmpresa fuso ambOk 1 "ACME" mundo0) Hrun.
  rewrite Hrun. cbn [fst].
  destruct (tombstone_after_run (E := Cenario.esquema) ambOk 1 "ACME" mundo0 _ _ snapshot
              Hrun eq_refl eq_refl) as (_ & Hsem & _).
  specialize (Hsem (fun j => eq_refl)).
  split; [|split].
  - apply Hsem. cbn. left.
  - apply Hsem. cbn. right. left.
  - apply not_true_is_false. intros H%Hsem. cbn in H.
    apply elem_of_cons in H as [H|H]; [discriminate|].
    apply elem_of_cons in H as [H|H]; [discriminate|].
    now apply not_elem_of_nil in H.
Defined.

(** C2 on the scenario: a second run over the same snapshot inserts
    nothing and updates both records. *)
Lemma reconciliation_idempotent_witness :
  let res1 := sincronizarFinanceiroPorEmpresa fuso ambOk 1 "ACME" mundo0 in
  let res2 := sincronizarFinanceiroPorEmpresa fuso ambOk 1 "ACME" res1.1 in
  exists r2, res2.2 = inr r2
    /\ (forall s k, ativa (espelho res2.1) s k = ativa (espelho res1.1) s k)
    /\ registrosInseridos r2 = 0%nat
    /\ registrosAtualizados r2 = 2%nat.
Proof.
  cbv zeta.
  evaluate_run (sincronizarFinanceiroPorEmpresa fuso ambOk 1 "ACME" mundo0) Hrun1.
  rewrite Hrun1. cbn [fst].
  lazymatch type of Hrun1 with
  | _ = (?w1, _) =>
      evaluate_run (sincronizarFinanceiroPorEmpresa fuso ambOk 1 "ACME" w1) Hrun2
  end.
  rewrite Hrun2. cbn [fst snd].
  destruct (reconciliation_idempotent (E := Cenario.esquema) ambOk ambOk 1 "ACME"
              mundo0 _ _ _ _ snapshot eq_refl eq_refl
              (fun j => eq_refl) (fun j => eq_refl) Hrun1 eq_refl Hrun2 eq_refl)
    as (Hativa & Hins & Hatu & _).
  eexists. split; [reflexivity|]. repeat split; assumption.
Defined.

(** C3 on the scenario: the first of the two records is rejected, the
    run succeeds and counts one record. *)
Lemma partial_failure_isolation_witness :
  exists (w' : Mundo) (r : SyncResult),
    sincronizarFinanceiroPorEmpresa fuso ambLinhaRejeitada 1 "ACME" mundo0 = (w', inr r)
    /\ success r = true
    /\ (registrosInseridos r + registrosAtualizados r = 1)%nat
    /\ ativa (espelho w') 1 7 = true.
Proof.
  destruct (partial_failure_isolation (E := Cenario.esquema) ambLinhaRejeitada 1 "ACME"
              mundo0 "bearer" snapshot 0 eq_refl eq_refl eq_refl eq_refl eq_refl)
    as (w' & r & Hrun & Hs & _ & Hsoma & _ & _ & Houtros).
  - cbn. lia.
  - reflexivity.
  - intros [|[|i]] Hi Hne; [congruence | reflexivity | cbn in Hi; lia].
  - exists w', r. repeat split; try assumption.
    apply (Houtros 1%nat (titulo 7)); [discriminate | reflexivity].
Defined.

(** C7 on the scenario: the token provider throws. *)
Lemma failure_paths_witness :
  exists (w' : Mundo) (r : SyncResult),
    sincronizarFinanceiroPorEmpresa fuso ambSemToken 1 "ACME" mundo0 = (w', inr r)
    /\ success r = false
    /\ erro r = Some "connect ETIMEDOUT"%string
    /\ espelho w' = espelho mundo0
    /\ rastro w' = [EvToken 1; EvLog 1 false].
Proof.
  destruct (failure_paths (E := Cenario.esquema) ambSemToken 1 "ACME" mundo0)
    as (_ & _ & Htoken & _).
  exact (Htoken ETIMEDOUT eq_refl).
Defined.

(** C9 on the scenario: the token provider throws and the table stays. *)
Lemma fetch_failure_frame_witness :
  exists (w' : Mundo) (r : SyncResult) (evs : list Evento),
    sincronizarFinanceiroPorEmpresa fuso ambSemToken 1 "ACME" mundo0 = (w', inr r)
    /\ espelho w' = espelho mundo0
    /\ rastro w' = rastro mundo0 ++ evs
    /\ Forall (fun ev => eventoBD ev = false) evs
    /\ (EvRollback ∉ evs)
    /\ success r = false
    /\ erro r = Some (message ETIMEDOUT).
Proof.
  apply (fetch_failure_frame (E := Cenario.esquema) ambSemToken 1 "ACME" mundo0 ETIMEDOUT).
  left. reflexivity.
Defined.

(** C8 on the scenario: two companies, the first run fails, two results
    come back in directory order. *)
Lemma batch_sequential_witness :
  exists (w' : Mundo) (rs : list SyncResult),
    Financeiro.sincronizarTodasEmpresas fuso lote2 mundo0 = (w', inr rs)
    /\ Forall2 resultadoDe [ {| ID_EMPRESA := 1; EMPRESA := "ACME" |};
                              {| ID_EMPRESA := 2; EMPRESA := "BETA" |} ] rs
    /\ length rs = 2%nat
    /\ filter (fun ev => marco ev = true) (rastro w')
        = filter (fun ev => marco ev = true) (rastro mundo0) ++ marcosDe rs.
Proof.
  exact (batch_sequential (E := Cenario.esquema) lote2 mundo0 _ eq_refl eq_refl eq_refl).
Defined.

End CenarioProps.

(** * Further properties *)

(** ** The numeric sanitizer *)

Module NumericMore.
Import JS Sanitizer SanitizerNumeric.

(** What a result of the sanitizer looks like. *)
Lemma validar_resultado (v : value) (r : number) :
  validarValorNumerico v maxDigits_default = Some r ->
  isNaN r = false /\ gt (Math_abs r) limite = false
  /\ signbit r = signbit (ToNumber v).
Proof.
  intros H.
  assert (Hu : v <> undefined) by (intros ->; discriminate H).
  assert (Hn : v <> null) by (intros ->; discriminate H).
  rewrite (validar_unfold v Hu Hn) in H.
  set (x := ToNumber v) in *. clearbody x.
  destruct (isNaN x) eqn:Hnan; [discriminate|].
  destruct (gt (Math_abs x) limite) eqn:Hgt.
  - rewrite (gt_zero_signbit x Hgt) in H. apply (inj Some) in H. subst r.
    destruct (signbit x) eqn:Hs; cbn [negb]; rewrite limite_value;
      repeat split; reflexivity.
  - apply (inj Some) in H. subst r. auto.
Qed.

(** X1. Whatever number comes in, what the sanitizer returns is a number
    (never NaN) whose magnitude does not exceed the limit, with the sign
    of the input. *)
Theorem validarValorNumerico_bounded (x r : number) :
  validarValorNumerico (Num x) maxDigits_default = Some r ->
  isNaN r = false
  /\ gt (Math_abs r) limite = false
  /\ signbit r = signbit x.
Proof.
  intros H. destruct (validar_resultado _ _ H) as (Hnan & Hgt & Hs).
  repeat split; assumption.
Qed.

Lemma validarValorNumerico_bounded_witness :
  isNaN (neg limite) = false
  /\ gt (Math_abs (neg limite)) limite = false
  /\ signbit (neg limite) = signbit (S754_infinity true).
Proof.
  apply (validarValorNumerico_bounded (S754_infinity true) (neg limite)).
  reflexivity.
Defined.

(** X2. Sanitizing is idempotent: a value that came out of the sanitizer
    goes through it unchanged. *)
Theorem validarValorNumerico_idempotent (v : value) (r : number) :
  validarValorNumerico v maxDigits_default = Some r ->
  validarValorNumerico (Num r) maxDigits_default = Some r.
Proof.
  intros H. destruct (validar_resultado _ _ H) as (Hnan & Hgt & _).
  now rewrite validar_unfold_num, Hnan, Hgt.
Qed.

Lemma validarValorNumerico_idempotent_witness :
  validarValorNumerico (Num limite) maxDigits_default = Some limite.
Proof.
  apply (validarValorNumerico_idempotent (Num (ofZ (7 * 10 ^ 20))) limite).
  reflexivity.
Defined.

End NumericMore.

(** ** The date sanitizer *)

Module DatesMore.
Import JS Text DateTime Sanitizer DateForms SanitizerDates.

(** *** Trimming twice *)

Lemma trimEnd_head (c : ascii) (s : string) :
  isWhiteSpace c = false -> trimEnd (String c s) = String c (trimEnd s).
Proof. intros Hc. simpl. rewrite Hc. now destruct (trimEnd s). Qed.

Lemma trimEnd_idempotent (s : string) : trimEnd (trimEnd s) = trimEnd s.
Proof.
  induction s as [|c s IH]; [reflexivity|]. simpl.
  destruct (trimEnd s) as [|x t] eqn:Et.
  - destruct (isWhiteSpace c) eqn:Hc; [reflexivity|]. simpl. now rewrite Hc.
  - change (trimEnd (String c (String x t))) with
      (match trimEnd (String x t) with
       | EmptyString => if isWhiteSpace c then EmptyString else String c EmptyString
       | u => String c u
       end).
    now rewrite IH.
Qed.

Lemma trimStart_shape (s : string) :
  trimStart s = EmptyString
  \/ exists c s', trimStart s = String c s' /\ isWhiteSpace c = false.
Proof.
  induction s as [|c s IH]; [now left|]. simpl.
  destruct (isWhiteSpace c) eqn:Hc; [exact IH | right; eauto].
Qed.

Lemma trim_idempotent (s : string) : trim (trim s) = trim s.
Proof.
  unfold trim. destruct (trimStart_shape s) as [-> | (c & s' & -> & Hc)];
    [reflexivity|].
  rewrite (trimEnd_head c s' Hc). simpl trimStart at 1. rewrite Hc.
  rewrite <- (trimEnd_head c s' Hc). apply trimEnd_idempotent.
Qed.

Lemma parse_por_trim (tz : TimeZone) (c c' : ascii) (s s' : string) :
  trim (String c s) = trim (String c' s') ->
  parseDataSankhya tz (Str (String c s)) = parseDataSankhya tz (Str (String c' s')).
Proof. intros H. rewrite !parseDataSankhya_unfold. cbv zeta. now rewrite H. Qed.

(** X3. White space around the input is ignored: a string is parsed as
    its trimmed form, and one made of white space alone gives [null]. *)
Theorem parseDataSankhya_trim (tz : TimeZone) (s : string) :
  parseDataSankhya tz (Str s) = parseDataSankhya tz (Str (trim s)).
Proof.
  destruct s as [|c s]; [reflexivity|].
  destruct (trim (String c s)) as [|c' s'] eqn:Et.
  - rewrite parseDataSankhya_unfold. cbv zeta. rewrite Et. reflexivity.
  - apply parse_por_trim. rewrite <- Et. symmetry. apply trim_idempotent.
Qed.

(** *** What follows the date *)

(** X4. A time that two spaces separate from the date is dropped: the
    second of the parts split on single spaces is empty, so the time
    defaults to midnight and the result is that of the date alone. *)
Theorem parseDataSankhya_two_spaces (tz : TimeZone) (c : ascii) (d t : string) :
  isWhiteSpace c = false ->
  count " " (String c d) = 0%nat ->
  trimEnd (String c d) = String c d ->
  trimEnd t = t -> t <> EmptyString ->
  parseDataSankhya tz (Str (String c d +:+ "  " +:+ t))
  = parseDataSankhya tz (Str (String c d)).
Proof.
  intros Hc Hcount Hd Ht Hne.
  assert (Htrim : trim (String c d +:+ "  " +:+ t) = String c d +:+ "  " +:+ t).
  { unfold trim. unappend. simpl trimStart. rewrite Hc.
    rewrite <- !append_cons.
    change (String c d +:+ String " " (String " " t))
      with (String c d +:+ (String " " (String " " t))).
    apply trimEnd_append; [|discriminate].
    apply trimEnd_cons; [|discriminate]. now apply trimEnd_cons. }
  assert (Htrim' : trim (String c d) = String c d).
  { unfold trim. simpl trimStart. now rewrite Hc. }
  rewrite append_cons, !parseDataSankhya_unfold, <- append_cons. cbv zeta.
  rewrite Htrim, Htrim'. unappend. rewrite <- append_cons.
  rewrite (split_append " " (String c d)) by assumption.
  rewrite (split_without " " (String c d)) by assumption.
  simpl split at 1. cbn [lookup list_lookup default from_option id orElse].
  destruct (split " " t); reflexivity.
Qed.

Lemma parseDataSankhya_two_spaces_witness :
  parseDataSankhya utc (Str "15/03/2024  14:30:00")
  = parseDataSankhya utc (Str "15/03/2024").
Proof.
  apply (parseDataSankhya_two_spaces utc "1" "5/03/2024" "14:30:00");
    try reflexivity. discriminate.
Defined.

(** X5. A time with the seconds missing, or with the minutes and the
    seconds missing, is read with zero for what is missing: the date is
    that of the instant of this local time on the host. *)
Theorem parseDataSankhya_partial_time (tz : TimeZone) (dd mm yyyy hh mi : string) :
  boundedZone tz ->
  digitString 2 dd = true -> digitString 2 mm = true ->
  digitString 4 yyyy = true ->
  digitString 2 hh = true -> digitString 2 mi = true ->
  parseDataSankhya tz (Str (dateText dd mm yyyy +:+ " " +:+ hh +:+ ":" +:+ mi))
    = inr (DateObj (Some (UTC tz
             (MakeDate
                (MakeDay (fullYear (decimal yyyy)) (decimal mm - 1) (decimal dd))
                (MakeTime (decimal hh) (decimal mi) 0 0)))))
  /\ parseDataSankhya tz (Str (dateText dd mm yyyy +:+ " " +:+ hh))
    = inr (DateObj (Some (UTC tz
             (MakeDate
                (MakeDay (fullYear (decimal yyyy)) (decimal mm - 1) (decimal dd))
                (MakeTime (decimal hh) 0 0 0))))).
Proof.
  intros Htz Hd Hm Hy Hh Hi.
  pose proof (digitString_nonempty _ _ Hd) as Hdn.
  pose proof (digitString_nonempty _ _ Hm) as Hmn.
  pose proof (digitString_nonempty _ _ Hy) as Hyn.
  pose proof (digitString_nonempty _ _ Hh) as Hhn.
  pose proof (digitString_nonempty _ _ Hi) as Hin.
  apply digitString_inv in Hd as (Hd & _ & Bd), Hm as (Hm & _ & Bm),
    Hy as (Hy & _ & By), Hh as (Hh & _ & Bh), Hi as (Hi & _ & Bi).
  pose proof (split_dateText dd mm yyyy (count_digits "/" dd eq_refl Hd)
                (count_digits "/" mm eq_refl Hm) (count_digits "/" yyyy eq_refl Hy))
    as Hsplit.
  pose proof (count_space_dateText dd mm yyyy (count_digits " " dd eq_refl Hd)
                (count_digits " " mm eq_refl Hm) (count_digits " " yyyy eq_refl Hy))
    as Hcount.
  destruct (allDigits_cons_inv dd Hd Hdn) as (c & dd' & Edd & Hc & _).
  destruct (allDigits_cons_inv hh Hh Hhn) as (x & hh' & Ehh & Hx & _).
  assert (Ehead : forall rest,
            dateText dd mm yyyy +:+ rest = String c (dateText dd' mm yyyy +:+ rest)).
  { intros rest. unfold dateText. now rewrite Edd, !append_cons. }
  split.
  - set (whole := dateText dd mm yyyy +:+ " " +:+ hh +:+ ":" +:+ mi).
    assert (Htrim : trim whole = whole).
    { unfold trim, whole, dateText. rewrite Edd. unappend.
      rewrite (trimStart_digit c _ Hc). trim_end. }
    assert (Hcount' : count " " (hh +:+ String ":" mi) = 0%nat).
    { rewrite count_append. cbn [count].
      rewrite (count_digits " " hh), (count_digits " " mi)
        by (assumption || reflexivity). reflexivity. }
    assert (Hsplit' : split ":" (hh +:+ String ":" mi) = [hh; mi]).
    { rewrite (split_append ":" hh) by now apply count_digits.
      now rewrite (split_without ":" mi) by now apply count_digits. }
    assert (Etime : hh +:+ String ":" mi <> EmptyString).
    { rewrite Ehh, append_cons. discriminate. }
    unfold whole at 1. rewrite Ehead, parseDataSankhya_unfold, <- Ehead.
    fold whole. cbv zeta. rewrite Htrim. unfold whole. unappend.
    rewrite (split_append " " _ _ Hcount).
    rewrite (split_without " " _ Hcount').
    cbn [lookup list_lookup default from_option id].
    rewrite Hsplit. cbn [lookup list_lookup default from_option id].
    rewrite (orElse_nonempty _ _ Etime), Hsplit'.
    cbn [lookup list_lookup default from_option id].
    rewrite !falsy_nonempty by assumption. cbn [orb].
    rewrite !orElse_nonempty by assumption. cbn [orElse].
    rewrite !parseInt_digits by assumption.
    change (parseInt "0") with (Some 0). unfold Date_new.
    cbn [fmap option_fmap option_map].
    rewrite TimeClip_small by (assumption || (simpl in *; lia)). reflexivity.
  - set (whole := dateText dd mm yyyy +:+ " " +:+ hh).
    assert (Htrim : trim whole = whole).
    { unfold trim, whole, dateText. rewrite Edd. unappend.
      rewrite (trimStart_digit c _ Hc). trim_end. }
    assert (Hcount' : count " " hh = 0%nat)
      by (apply count_digits; [reflexivity | assumption]).
    assert (Hsplit' : split ":" hh = [hh])
      by (apply split_without, count_digits; [reflexivity | assumption]).
    unfold whole at 1. rewrite Ehead, parseDataSankhya_unfold, <- Ehead.
    fold whole. cbv zeta. rewrite Htrim. unfold whole. unappend.
    rewrite (split_append " " _ _ Hcount), (split_without " " _ Hcount').
    cbn [lookup list_lookup default from_option id].
    rewrite Hsplit. cbn [lookup list_lookup default from_option id].
    rewrite (orElse_nonempty _ _ Hhn), Hsplit'.
    cbn [lookup list_lookup default from_option id].
    rewrite !falsy_nonempty by assumption. cbn [orb].
    rewrite !orElse_nonempty by assumption. cbn [orElse].
    rewrite !parseInt_digits by assumption.
    change (parseInt "0") with (Some 0). unfold Date_new.
    cbn [fmap option_fmap option_map].
    rewrite TimeClip_small by (assumption || (simpl in *; lia)). reflexivity.
Qed.

(** In São Paulo, three hours behind UTC on that day. *)
Lemma parseDataSankhya_partial_time_witness :
  parseDataSankhya America_Sao_Paulo (Str "15/03/2024 14:30")
    = inr (DateObj (Some 1710523800000))
  /\ parseDataSankhya America_Sao_Paulo (Str "15/03/2024 14")
    = inr (DateObj (Some 1710522000000)).
Proof.
  apply (parseDataSankhya_partial_time America_Sao_Paulo "15" "03" "2024" "14" "30");
    try reflexivity.
  apply America_Sao_Paulo_bounded.
Defined.

(** *** Fields out of range *)

Lemma MakeDay_month_shift (y m q d : Z) :
  MakeDay y (m + 12 * q) d = MakeDay (y + q) m d.
Proof.
  unfold MakeDay.
  replace ((m + 12 * q) / 12) with (m / 12 + q)
    by (rewrite (Z.mul_comm 12 q), Z.div_add by lia; reflexivity).
  replace ((m + 12 * q) mod 12) with (m mod 12)
    by (rewrite (Z.mul_comm 12 q), Z.mod_add by lia; reflexivity).
  replace (y + (m / 12 + q)) with (y + q + m / 12) by lia. reflexivity.
Qed.

(** X6. A day or a month out of range is not rejected but rolls over.
    Day [DD] of a month is, in local time, the first of that month plus
    [DD - 1] days, whatever [DD] is (so [00] is the last day of the month
    before, and [31/02] is the second or third of March); month 13 to 24
    is month 1 to 12 of the next year, and month [00] is December of the
    year before. *)
Theorem parseDataSankhya_rollover (tz : TimeZone) (dd mm yyyy : string) :
  boundedZone tz ->
  digitString 2 dd = true -> digitString 2 mm = true ->
  digitString 4 yyyy = true ->
  (exists first : Z,
     first = MakeDate (MakeDay (fullYear (decimal yyyy)) (decimal mm - 1) 1) 0
     /\ parseDataSankhya tz (Str (dateText "01" mm yyyy))
        = inr (DateObj (Some (UTC tz first)))
     /\ parseDataSankhya tz (Str (dateText dd mm yyyy))
        = inr (DateObj (Some (UTC tz (first + (decimal dd - 1) * msPerDay)))))
  /\ (13 <= decimal mm <= 24 ->
      parseDataSankhya tz (Str (dateText dd mm yyyy))
      = inr (DateObj (Some (UTC tz
               (MakeDate (MakeDay (fullYear (decimal yyyy) + 1)
                                  (decimal mm - 13) (decimal dd)) 0)))))
  /\ (decimal mm = 0 ->
      parseDataSankhya tz (Str (dateText dd mm yyyy))
      = inr (DateObj (Some (UTC tz
               (MakeDate (MakeDay (fullYear (decimal yyyy) - 1) 11 (decimal dd))
                         0))))).
Proof.
  intros Htz Hd Hm Hy.
  pose proof (digitString_nonempty _ _ Hd) as Hdn.
  pose proof (digitString_nonempty _ _ Hm) as Hmn.
  pose proof (digitString_nonempty _ _ Hy) as Hyn.
  apply digitString_inv in Hd as (Hd & _ & Bd), Hm as (Hm & _ & Bm),
    Hy as (Hy & _ & By).
  assert (Hparse : parseDataSankhya tz (Str (dateText dd mm yyyy))
            = inr (DateObj (Some (UTC tz
                     (MakeDate (MakeDay (fullYear (decimal yyyy)) (decimal mm - 1)
                                        (decimal dd)) 0))))).
  { rewrite parseDataSankhya_date by assumption. unfold Date_new.
    rewrite TimeClip_small by (assumption || (simpl in *; lia)). reflexivity. }
  split; [|split].
  - eexists. split; [reflexivity|]. split.
    + rewrite parseDataSankhya_date by (assumption || reflexivity || discriminate).
      unfold Date_new. change (decimal "01") with 1.
      rewrite TimeClip_small by (assumption || (simpl in *; lia)). reflexivity.
    + rewrite Hparse. do 4 f_equal. unfold MakeDate, MakeDay, MakeTime. lia.
  - intros Hrange. rewrite Hparse. do 5 f_equal.
    replace (decimal mm - 1) with ((decimal mm - 13) + 12 * 1) by lia.
    apply MakeDay_month_shift.
  - intros Hzero. rewrite Hparse, Hzero. do 5 f_equal.
    change (0 - 1) with (11 + 12 * (-1)).
    now rewrite MakeDay_month_shift.
Qed.

Lemma parseDataSankhya_rollover_witness :
  (exists first : Z,
     first = MakeDate (MakeDay (fullYear (decimal "2024")) (decimal "02" - 1) 1) 0
     /\ parseDataSankhya America_Sao_Paulo (Str "01/02/2024")
        = inr (DateObj (Some (UTC America_Sao_Paulo first)))
     /\ parseDataSankhya America_Sao_Paulo (Str "31/02/2024")
        = inr (DateObj (Some (UTC America_Sao_Paulo
                 (first + (decimal "31" - 1) * msPerDay)))))
  /\ parseDataSankhya utc (Str "00/03/2024") = parseDataSankhya utc (Str "29/02/2024")
  /\ parseDataSankhya utc (Str "15/13/2023") = parseDataSankhya utc (Str "15/01/2024").
Proof.
  split; [|split].
  - exact (proj1 (parseDataSankhya_rollover America_Sao_Paulo "31" "02" "2024"
                    America_Sao_Paulo_bounded eq_refl eq_refl eq_refl)).
  - reflexivity.
  - etransitivity; [|reflexivity].
    refine (proj1 (proj2 (parseDataSankhya_rollover utc "15" "13" "2023"
                            utc_bounded eq_refl eq_refl eq_refl)) _).
    vm_compute. split; discriminate.
Defined.

(** *** The range of the result *)

(** X7. The date returned is never an invalid one. What the function
    returns is [null] or a date, and the date has a time value, which lies
    within the 8.64e15 milliseconds around the epoch that a date can hold:
    the date whose time value is NaN, which the constructor builds from a
    part that is no number or from fields out of that range, is replaced
    by [null]. *)
Theorem parseDataSankhya_valid (tz : TimeZone) (dataStr date : value) :
  parseDataSankhya tz dataStr = inr date ->
  date <> DateObj None
  /\ (date = null
      \/ exists t : Z,
           date = DateObj (Some t) /\ getTime date = Some t
           /\ - 8640000000000000 <= t <= 8640000000000000).
Proof.
  intros H.
  destruct (parseDataSankhya_returns tz dataStr) as [E | (t & E & Ht)];
    rewrite E in H; injection H as <-.
  - split; [discriminate | now left].
  - split; [discriminate|]. right. exists t. auto.
Qed.

(** The theorem at a date and at a year that the constructor turns into
    an invalid date. *)
Lemma parseDataSankhya_valid_witness :
  (DateObj (Some 1710460800000) <> DateObj None
   /\ (DateObj (Some 1710460800000) = null
       \/ exists t : Z,
            DateObj (Some 1710460800000) = DateObj (Some t)
            /\ getTime (DateObj (Some 1710460800000)) = Some t
            /\ - 8640000000000000 <= t <= 8640000000000000))
  /\ Date_new utc (Some 999999999) (Some 0) (Some 1) (Some 0) (Some 0) (Some 0) = None
  /\ (null <> DateObj None
      /\ (null = null
          \/ exists t : Z,
               null = DateObj (Some t) /\ getTime null = Some t
               /\ - 8640000000000000 <= t <= 8640000000000000)).
Proof.
  split; [|split].
  - apply (parseDataSankhya_valid utc (Str "15/03/2024")). reflexivity.
  - reflexivity.
  - apply (parseDataSankhya_valid utc (Str "01/01/999999999")). reflexivity.
Defined.

End DatesMore.

(** ** The field decoder and the fetch *)

Module DecoderMore.
Import Decoder DecoderForms DecoderProps.

Lemma size_list_to_set (l : list string) :
  (size (list_to_set l : gset string) <= length l)%nat.
Proof.
  induction l as [|n rest IH];
    [change (size (∅ : gset string) <= 0)%nat; now rewrite size_empty|].
  change (size ({[n]} ∪ list_to_set rest : gset string) <= S (length rest))%nat.
  rewrite size_union_alt, size_singleton.
  assert (Hsub : (list_to_set rest ∖ {[n]} : gset string) ⊆ list_to_set rest)
    by (intros x [Hx _]%elem_of_difference; exact Hx).
  apply subseteq_size in Hsub. lia.
Qed.

Lemma length_omap_le {A B : Type} (f : A -> option B) (l : list A) :
  (length (omap f l) <= length l)%nat.
Proof.
  induction l as [|x l IH]; [reflexivity|]. cbn [omap list_omap].
  destruct (f x); cbn [length]; lia.
Qed.

Lemma get_inr (v : json) (k : string) (x : json) :
  get v k = inr x -> nullish v = false /\ x = getOpt v k.
Proof. destruct v; cbn; intros [= <-]; auto. Qed.

Lemma get_inl (v : json) (k : string) (error : Erro) :
  get v k = inl error ->
  nullish v = true
  /\ error = cannotRead (if v is JNull then "null" else "undefined") k.
Proof. destruct v; cbn; intros [= <-]; auto. Qed.

(** The names of an array of declared fields can be read exactly when
    every entry is there. *)
Lemma names_inr (fields fieldNames : list json) :
  mapE (fun f => get f "name") fields = inr fieldNames
  <-> Forall (fun f => nullish f = false) fields
      /\ fieldNames = (fun f => getOpt f "name") <$> fields.
Proof.
  rewrite mapE_inr. split.
  - induction 1 as [|f n fs ns Hf _ [IH1 IH2]]; [split; [constructor | reflexivity]|].
    apply get_inr in Hf as [Hnull ->]. split; [now constructor|].
    cbn [fmap list_fmap]. now rewrite IH2.
  - intros [Hall ->]. induction Hall as [|f fs Hf _ IH]; [constructor|].
    cbn [fmap list_fmap]. constructor; [now apply get_getOpt | exact IH].
Qed.

Section Engine.
Variable NumberToString : JS.number -> string.

#[local] Abbreviation ToPropertyKey := (Decoder.ToPropertyKey NumberToString).
#[local] Abbreviation decodeFrom := (Decoder.decodeFrom NumberToString).
#[local] Abbreviation decodeEntity := (Decoder.decodeEntity NumberToString).
#[local] Abbreviation buscarSankhya := (Decoder.buscarSankhya NumberToString).
#[local] Abbreviation decodable := (DecoderForms.decodable NumberToString).
#[local] Abbreviation declared := (DecoderForms.declared NumberToString).
#[local] Abbreviation wellFormed := (DecoderForms.wellFormed NumberToString).

Lemma declared_key (fieldNames : list json) (j : nat) (fieldName : json)
    (key : string) :
  fieldNames !! j = Some fieldName -> ToPropertyKey fieldName = inr key ->
  key ∈ declared fieldNames.
Proof.
  intros Hj Hkey. unfold DecoderForms.declared.
  apply elem_of_list_to_set, list_elem_of_omap.
  exists fieldName. split; [eapply list_elem_of_lookup_2; eassumption|].
  now rewrite Hkey.
Qed.

(** X8. The decoder invents nothing: every field of a decoded record
    is a declared name, and its value is what a position declared under
    that name carries; a record has at most as many fields as there are
    declared names. *)
Theorem decodeEntity_origin (fieldNames : list json) (rawEntity : json)
    (o : object) :
  decodeEntity fieldNames rawEntity = inr o ->
  (forall (key : string) (v : json),
     own o !! key = Some v ->
     exists (j : nat) (fieldName : json),
       fieldNames !! j = Some fieldName /\ ToPropertyKey fieldName = inr key
       /\ present rawEntity j = true
       /\ v = getOpt (getOpt rawEntity (fieldKey j)) "$")
  /\ dom (own o) ⊆ declared fieldNames
  /\ (size (own o) <= length fieldNames)%nat.
Proof.
  intros Ho.
  assert (Horigin : forall key v,
            own o !! key = Some v ->
            exists j fieldName,
              fieldNames !! j = Some fieldName /\ ToPropertyKey fieldName = inr key
              /\ present rawEntity j = true
              /\ v = getOpt (getOpt rawEntity (fieldKey j)) "$").
  { intros key v Hv.
    destruct (decodeFrom_origin NumberToString fieldNames rawEntity key v
                0 emptyObject o Ho Hv) as [H|H]; [|exact H].
    cbn [own emptyObject] in H. now rewrite lookup_empty in H. }
  assert (Hdom : dom (own o) ⊆ declared fieldNames).
  { intros key [v Hv]%elem_of_dom.
    destruct (Horigin _ _ Hv) as (j & fieldName & Hj & Hkey & _).
    eapply declared_key; eassumption. }
  split; [exact Horigin|]. split; [exact Hdom|].
  rewrite <- size_dom.
  etransitivity; [apply subseteq_size, Hdom|].
  etransitivity; [apply size_list_to_set | apply length_omap_le].
Qed.

(** The fetch goes through exactly on the responses that are well
    formed. *)
Lemma buscarSankhya_returns (prefixo : string) (data : json) :
  truthyJ (getOpt (entitiesOf data) "entity") = true ->
  (exists records, buscarSankhya prefixo (inr data) = inr records)
  <-> wellFormed data.
Proof.
  intros Hentity. split.
  - intros (records & Hrecords).
    rewrite (buscarSankhya_entity NumberToString prefixo data Hentity) in Hrecords.
    destruct (get (getOpt (entitiesOf data) "metadata") "fields")
      as [|fields] eqn:Hfields; [discriminate|].
    destruct (get fields "field") as [|field] eqn:Hfield; [discriminate|].
    destruct (mapOf field _ _) as [|fieldNames] eqn:Hnames; [discriminate|].
    destruct (mapE (decodeEntity fieldNames) _) as [|records'] eqn:Hdecode;
      [discriminate|].
    apply get_inr in Hfields as [_ ->]. apply get_inr in Hfield as [_ ->].
    destruct (getOpt (getOpt (getOpt (entitiesOf data) "metadata") "fields") "field")
      as [| | | | |fs|] eqn:Hpath; try discriminate Hnames.
    cbn [mapOf] in Hnames. apply names_inr in Hnames as [Hall ->].
    exists fs. split; [exact Hpath|]. split; [exact Hall|].
    apply mapE_inr in Hdecode. clear - Hdecode.
    induction Hdecode as [|raw o raws os Ho _ IH]; constructor; [|exact IH].
    apply decodeEntity_returns. eauto.
  - intros (fields & Hpath & Hall & Hdec).
    rewrite (buscarSankhya_fields NumberToString prefixo data fields Hentity Hpath Hall).
    assert (Hmap : exists records,
              mapE (decodeEntity ((fun f => getOpt f "name") <$> fields))
                   (arrayOf (getOpt (entitiesOf data) "entity")) = inr records).
    { clear - Hdec. induction Hdec as [|raw raws Hraw _ (records & IH)];
        [now exists []|].
      apply decodeEntity_returns in Hraw as (o & Ho).
      exists (o :: records). cbn [mapE]. now rewrite Ho, IH. }
    destruct Hmap as (records & ->). eauto.
Qed.

(** X9. What the fetch gives. When the transport throws, the fetch
    throws the error of the transport under the text of the service.
    When what the response has under [responseBody.entities.entity] is
    falsy, missing or not, the fetch returns no record, declared names or
    not. Otherwise the fetch returns exactly when the response is well
    formed, and then one record for each element of an array of entities
    and one record for an entity that is no array. Every error it throws
    carries the text of the service before the message of the error
    caught: with no [metadata] that of reading [fields] of [undefined],
    with declared names that are no array that [map] is no function, with
    an entity that is [null] under declared names that of reading [f0]
    of [null]. *)
Theorem buscarSankhya_failures (prefixo : string) (resposta : Erro + json) :
  (forall e0 : Erro,
     resposta = inl e0 ->
     buscarSankhya prefixo resposta = inl {| message := prefixo +:+ message e0 |})
  /\ (forall data : json,
        resposta = inr data ->
        truthyJ (getOpt (entitiesOf data) "entity") = false ->
        buscarSankhya prefixo resposta = inr [])
  /\ (forall data : json,
        resposta = inr data ->
        truthyJ (getOpt (entitiesOf data) "entity") = true ->
        ((exists records, buscarSankhya prefixo resposta = inr records)
         <-> wellFormed data))
  /\ (forall (data : json) (records : list object),
        resposta = inr data ->
        truthyJ (getOpt (entitiesOf data) "entity") = true ->
        buscarSankhya prefixo resposta = inr records ->
        (forall entities : list json,
           getOpt (entitiesOf data) "entity" = JArr entities ->
           length records = length entities)
        /\ ((forall entities : list json,
               getOpt (entitiesOf data) "entity" <> JArr entities) ->
            length records = 1%nat))
  /\ (forall e : Erro,
        buscarSankhya prefixo resposta = inl e ->
        exists e0 : Erro, e = {| message := prefixo +:+ message e0 |})
  /\ (forall data : json,
        resposta = inr data ->
        truthyJ (getOpt (entitiesOf data) "entity") = true ->
        getOpt (entitiesOf data) "metadata" = JUndefined ->
        buscarSankhya prefixo resposta
        = inl {| message :=
                   prefixo
                   +:+ "Cannot read properties of undefined (reading 'fields')" |})
  /\ (forall (data : json) (props : list (string * json)),
        resposta = inr data ->
        truthyJ (getOpt (entitiesOf data) "entity") = true ->
        getOpt (getOpt (getOpt (entitiesOf data) "metadata") "fields") "field"
          = JObj props ->
        buscarSankhya prefixo resposta
        = inl {| message :=
                   prefixo
                   +:+ "entities.metadata.fields.field.map is not a function" |})
  /\ (forall (data : json) (field : json) (fields entities : list json),
        resposta = inr data ->
        getOpt (entitiesOf data) "entity" = JArr (JNull :: entities) ->
        getOpt (getOpt (getOpt (entitiesOf data) "metadata") "fields") "field"
          = JArr (field :: fields) ->
        Forall (fun f => nullish f = false) (field :: fields) ->
        buscarSankhya prefixo resposta
        = inl {| message :=
                   prefixo +:+ "Cannot read properties of null (reading 'f0')" |}).
Proof.
  split; [now intros e0 ->|].
  split.
  { intros data -> Hentity. unfold Decoder.buscarSankhya.
    change (getOpt (getOpt data "responseBody") "entities") with (entitiesOf data).
    now rewrite Hentity. }
  split; [intros data ->; apply buscarSankhya_returns|].
  split.
  { intros data records -> Hentity Hrecords.
    assert (Hlen : length records
                   = length (arrayOf (getOpt (entitiesOf data) "entity"))).
    { rewrite (buscarSankhya_entity NumberToString prefixo data Hentity) in Hrecords.
      destruct (get (getOpt (entitiesOf data) "metadata") "fields")
        as [|fields]; [discriminate|].
      destruct (get fields "field") as [|field]; [discriminate|].
      destruct (mapOf field _ _) as [|fieldNames]; [discriminate|].
      destruct (mapE (decodeEntity fieldNames) _) as [|records'] eqn:Hdecode;
        [discriminate|].
      injection Hrecords as <-. apply mapE_inr in Hdecode.
      symmetry. exact (Forall2_length _ _ _ Hdecode). }
    split.
    - intros entities Harr. now rewrite Hlen, Harr.
    - intros Hno. rewrite Hlen.
      destruct (getOpt (entitiesOf data) "entity"); try reflexivity.
      now contradiction (Hno elems). }
  split.
  { intros e. unfold Decoder.buscarSankhya.
    match goal with
    | |- match ?attempt with _ => _ end = _ -> _ => destruct attempt as [e0|records]
    end; [|discriminate].
    intros [= <-]. now exists e0. }
  split.
  { intros data -> Hentity Hmeta.
    rewrite (buscarSankhya_entity NumberToString prefixo data Hentity), Hmeta.
    reflexivity. }
  split.
  { intros data props -> Hentity Hfield.
    rewrite (buscarSankhya_entity NumberToString prefixo data Hentity).
    assert (Hf : exists fs,
              getOpt (getOpt (entitiesOf data) "metadata") "fields" = JObj fs).
    { apply (getOpt_object _ "field"). rewrite Hfield. discriminate. }
    destruct Hf as (fs & Hf).
    assert (Hm : exists ms, getOpt (entitiesOf data) "metadata" = JObj ms).
    { apply (getOpt_object _ "fields"). rewrite Hf. discriminate. }
    destruct Hm as (ms & Hm).
    rewrite Hm in *. rewrite (get_getOpt (JObj ms)) by reflexivity.
    rewrite Hf in *. rewrite (get_getOpt (JObj fs)) by reflexivity.
    rewrite Hfield. reflexivity. }
  intros data field fields entities -> Hentity Hfield Hall.
  rewrite (buscarSankhya_fields NumberToString prefixo data (field :: fields))
    by (assumption || now rewrite Hentity).
  rewrite Hentity. reflexivity.
Qed.

End Engine.

(** The financial fetch on a response with an empty array of entities
    and no [metadata], and on a response with two entities. *)
Lemma buscarSankhya_failures_witness :
  let entities := JObj [("entity"%string, JArr [])] in
  let none := JObj [("responseBody"%string, JObj [("entities"%string, entities)])] in
  let two :=
    body (JArr [named "NUFIN"])
         (JArr [JObj [("f0"%string, cell (JStr "1"))];
                JObj [("f0"%string, cell (JStr "2"))]]) in
  buscarFinanceiroSankhya unread (inr none)
  = inl {| message :=
             "Erro ao buscar títulos financeiros: "
             +:+ "Cannot read properties of undefined (reading 'fields')" |}
  /\ buscarFinanceiroSankhya unread (inl {| message := "timeout of 30000ms exceeded" |})
     = inl {| message :=
                "Erro ao buscar títulos financeiros: "
                +:+ "timeout of 30000ms exceeded" |}
  /\ buscarFinanceiroSankhya unread (inr (JObj [("status"%string, JStr "0")])) = inr []
  /\ (forall records : list object,
        buscarFinanceiroSankhya unread (inr two) = inr records ->
        length records = 2%nat).
Proof.
  intros entities none two.
  split; [|split; [|split]].
  - destruct (buscarSankhya_failures unread "Erro ao buscar títulos financeiros: "
                (inr none)) as (_ & _ & _ & _ & _ & Hmeta & _).
    apply (Hmeta none); reflexivity.
  - destruct (buscarSankhya_failures unread "Erro ao buscar títulos financeiros: "
                (inl {| message := "timeout of 30000ms exceeded" |}))
      as (Hthrow & _).
    exact (Hthrow {| message := "timeout of 30000ms exceeded" |} eq_refl).
  - destruct (buscarSankhya_failures unread "Erro ao buscar títulos financeiros: "
                (inr (JObj [("status"%string, JStr "0")]))) as (_ & Hnone & _).
    apply (Hnone (JObj [("status"%string, JStr "0")])); reflexivity.
  - intros records Hrecords.
    destruct (buscarSankhya_failures unread "Erro ao buscar títulos financeiros: "
                (inr two)) as (_ & _ & _ & Hlen & _).
    destruct (Hlen two records eq_refl eq_refl Hrecords) as (Harr & _).
    exact (Harr _ eq_refl).
Defined.

Lemma decodeEntity_origin_witness :
  let rawEntity := JObj [("f0"%string, cell (JStr "1042"))] in
  let fieldNames := [JStr "NUFIN"; JStr "CODPARC"] in
  exists o : object,
    decodeEntity unread fieldNames rawEntity = inr o
    /\ (forall (key : string) (v : json),
          own o !! key = Some v ->
          exists (j : nat) (fieldName : json),
            fieldNames !! j = Some fieldName
            /\ ToPropertyKey unread fieldName = inr key
            /\ present rawEntity j = true
            /\ v = getOpt (getOpt rawEntity (fieldKey j)) "$")
    /\ (size (own o) <= 2)%nat.
Proof.
  intros rawEntity fieldNames. eexists. split; [reflexivity|].
  destruct (decodeEntity_origin unread fieldNames rawEntity _ eq_refl)
    as (Horigin & _ & Hsize).
  split; [exact Horigin | exact Hsize].
Defined.

End DecoderMore.

(** ** The values bound by the financial service *)

Module BindsMore.
Import JS Sanitizer Financeiro.

Lemma quantia_bound (x : value) :
  let v := numOuNull (validarValorNumerico x maxDigits_default) in
  v = null
  \/ exists r, v = Num r /\ isNaN r = false /\ gt (Math_abs r) limite = false.
Proof.
  cbv zeta.
  destruct (validarValorNumerico x maxDigits_default) as [r|] eqn:Hv;
    [right | now left].
  exists r. apply NumericMore.validar_resultado in Hv as (Hnan & Hgt & _).
  repeat split; assumption.
Qed.

Lemma data_bound (tz : DateTime.TimeZone) (x : value) :
  let v := returned (parseDataSankhya tz x) in
  v = null
  \/ exists t,
       v = DateObj (Some t) /\ - 8640000000000000 <= t <= 8640000000000000.
Proof.
  cbv zeta.
  destruct (SanitizerDates.parseDataSankhya_returns tz x) as [E | (t & E & Ht)];
    rewrite E; [now left | right; eauto].
Qed.

(** X22. What the financial service binds can be stored, whatever the
    record holds: each of the two amounts bound is NULL or a number, never
    NaN, within the range of the column, and each of the three dates bound
    is NULL or a valid date. The UPDATE and the INSERT bind the same
    values for the same record. *)
Theorem financeiro_binds_storable (tz : DateTime.TimeZone) (financeiro : Financeiro) :
  let b := bindsDoInsert tz financeiro in
  let quantia (v : value) :=
    v = null
    \/ exists r, v = Num r /\ isNaN r = false /\ gt (Math_abs r) limite = false in
  let data (v : value) :=
    v = null
    \/ exists t,
         v = DateObj (Some t) /\ - 8640000000000000 <= t <= 8640000000000000 in
  quantia (vlrdesdob b) /\ quantia (vlrbaixa b)
  /\ data (dtvenc b) /\ data (dtneg b) /\ data (dhbaixa b)
  /\ bindsDoUpdate tz financeiro = b.
Proof.
  cbv zeta. cbn [bindsDoInsert vlrdesdob vlrbaixa dtvenc dtneg dhbaixa].
  split; [apply quantia_bound|]. split; [apply quantia_bound|].
  split; [apply data_bound|]. split; [apply data_bound|].
  split; [apply data_bound | reflexivity].
Qed.

End BindsMore.

(** ** The rows of the mirror through a run *)

Section ReconcilerMore.
Context `{E : Esquema}.
Import Exec.
Abbreviation Tabela := (list Linha).

#[local] Arguments sqlCount : simpl never.
#[local] Arguments sqlUpdate : simpl never.
#[local] Arguments sqlInsert : simpl never.
#[local] Arguments sqlMarcar : simpl never.
#[local] Arguments existe : simpl never.
#[local] Arguments ativa : simpl never.

Ltac exec :=
  cbv beta iota zeta delta
    [mbind mret M_bind M_ret Exec.bind Exec.ret Exec.throw Exec.get Exec.modify
     Exec.tryCatch Exec.tryFinally emite setConnection falhaSe sessao estado
     upsertUm obterToken buscar getOracleConnection marcarTodosComoNaoAtuais
     commit rollback close salvarLogSincronizacao
     mundo connection espelho rastro].

(** *** Every outcome of a run *)

Lemma run_casos (amb : Ambiente) (idSis : Z) (nome : string) (w : Mundo) :
  exists (w' : Mundo) (r : SyncResult),
    sincronizarPorEmpresa amb idSis nome w = (w', inr r)
    /\ ((colaboradorFalha amb /\ espelho w' = espelho w
         /\ exists e, r = resultadoFalha amb idSis nome e)
        \/ (exists (token : string) (registros : list Registro),
              tokenResp amb = inr token /\ buscaResp amb = inr registros
              /\ conexaoResp amb = None /\ marcarFalha amb = None
              /\ commitFalha amb = None
              /\ let fim := upsertPuro amb idSis 0 registros
                              (sqlMarcar idSis (timestampMarcar amb) (espelho w))
                              (0%nat, 0%nat) in
                 espelho w' = fim.1.1
                 /\ r = resultadoSucesso amb idSis nome (length registros)
                          (length (ativasDe idSis (espelho w))) fim.1.2)).
Proof.
  unfold colaboradorFalha.
  destruct (tokenResp amb) as [e|token] eqn:Ht.
  { eexists _, _. split; [exact (run_token_falha _ _ _ _ e Ht)|].
    left. eauto 10. }
  destruct (buscaResp amb) as [e|registros] eqn:Hb.
  { eexists _, _. split; [exact (run_busca_falha _ _ _ _ token e Ht Hb)|].
    left. eauto 10. }
  destruct (conexaoResp amb) as [e|] eqn:Hc.
  { eexists _, _.
    split; [exact (run_conexao_falha _ _ _ _ token registros e Ht Hb Hc)|].
    left. eauto 10. }
  destruct (marcarFalha amb) as [e|] eqn:Hm.
  { eexists _, _.
    split; [exact (run_marcar_falha _ _ _ _ token registros e Ht Hb Hc Hm)|].
    left. eauto 10. }
  destruct (commitFalha amb) as [e|] eqn:Hk.
  { eexists _, _.
    split; [exact (run_commit_falha _ _ _ _ token registros e Ht Hb Hc Hm Hk)|].
    left. eauto 12. }
  eexists _, _.
  split; [exact (run_sucesso _ _ _ _ token registros Ht Hb Hc Hm Hk)|].
  right. exists token, registros. repeat split.
Qed.

(** *** Rows are kept *)

Lemma mesmaLinha_refl (l : Linha) : mesmaLinha l l.
Proof. repeat split. Qed.

Lemma mesmaLinha_trans (l1 l2 l3 : Linha) :
  mesmaLinha l1 l2 -> mesmaLinha l2 l3 -> mesmaLinha l1 l3.
Proof. unfold mesmaLinha. intros (? & ? & ?) (? & ? & ?). repeat split; congruence. Qed.

Lemma mesmaLinha_fmap (f : Linha -> Linha) (t : Tabela) :
  (forall l, mesmaLinha l (f l)) -> Forall2 mesmaLinha t (f <$> t).
Proof.
  intros Hf. induction t as [|l t IH]; [constructor|].
  rewrite fmap_cons. constructor; [apply Hf | exact IH].
Qed.

Lemma mesmaLinha_sistema (idSis : Z) (t t' : Tabela) :
  Forall2 mesmaLinha t t' ->
  Forall (fun l => ID_SISTEMA l = idSis) t ->
  Forall (fun l => ID_SISTEMA l = idSis) t'.
Proof.
  induction 1 as [|l l' t t' (Hs & _) _ IH]; intros Hall; [constructor|].
  inversion Hall; subst. constructor; [congruence | now apply IH].
Qed.

Lemma mesmaLinha_refl_all (t : Tabela) : Forall2 mesmaLinha t t.
Proof. induction t; constructor; [apply mesmaLinha_refl | assumption]. Qed.

Lemma mesmaLinha_trans_all (t1 t2 t3 : Tabela) :
  Forall2 mesmaLinha t1 t2 -> Forall2 mesmaLinha t2 t3 -> Forall2 mesmaLinha t1 t3.
Proof.
  intros H12. revert t3. induction H12 as [|l1 l2 t1 t2 Hl _ IH]; intros t3 H23.
  - inversion H23. constructor.
  - inversion H23 as [|? l3 ? t3' Hl' Ht']; subst.
    constructor; [exact (mesmaLinha_trans _ _ _ Hl Hl') | now apply IH].
Qed.

Lemma conserva_refl (idSis : Z) (t : Tabela) : conserva idSis t t 0.
Proof.
  exists t, []. rewrite app_nil_r. repeat split; [|constructor].
  apply mesmaLinha_refl_all.
Qed.

Lemma conserva_trans (idSis : Z) (t t' t'' : Tabela) (n m : nat) :
  conserva idSis t t' n -> conserva idSis t' t'' m ->
  conserva idSis t t'' (n + m).
Proof.
  intros (a & nv & -> & Ha & Hnv & <-) (a' & nv' & -> & Ha' & Hnv' & <-).
  apply Forall2_app_inv_l in Ha' as (a1 & n1 & Ha1 & Hn1 & ->).
  exists a1, (n1 ++ nv'). rewrite app_assoc. repeat split.
  - exact (mesmaLinha_trans_all _ _ _ Ha Ha1).
  - apply Forall_app. split; [|exact Hnv'].
    exact (mesmaLinha_sistema idSis nv n1 Hn1 Hnv).
  - rewrite length_app. now rewrite (Forall2_length _ _ _ Hn1).
Qed.

Lemma conserva_marcar (idSis agora : Z) (t : Tabela) :
  conserva idSis t (sqlMarcar idSis agora t) 0.
Proof.
  exists (sqlMarcar idSis agora t), []. rewrite app_nil_r.
  repeat split; [|constructor].
  apply mesmaLinha_fmap. intros l. destruct (atualDe idSis l); repeat split.
Qed.

Lemma conserva_tabelaApos (amb : Ambiente) (idSis : Z) (i : nat) (r : Registro)
    (t : Tabela) (c : nat * nat) :
  exists n, conserva idSis t (tabelaApos amb idSis i r t) n
            /\ (contagemApos amb idSis i r t c).1 = (c.1 + n)%nat.
Proof.
  unfold tabelaApos, contagemApos. destruct (linhaFalha amb i).
  { exists 0%nat. split; [apply conserva_refl | lia]. }
  destruct (existe t idSis (chaveDe r)).
  - exists 0%nat. split; [|cbn; lia].
    exists (sqlUpdate idSis (chaveDe r) (bindsUpdate r) (timestampLinha amb i) t), [].
    rewrite app_nil_r. repeat split; [|constructor].
    apply mesmaLinha_fmap. intros l. destruct (casa idSis (chaveDe r) l); repeat split.
  - exists 1%nat. split; [|cbn; lia].
    exists t, [novaLinha idSis (chaveDe r) (bindsInsert r) (timestampLinha amb i)].
    repeat split; [apply mesmaLinha_refl_all | repeat constructor].
Qed.

Lemma conserva_upsertPuro (amb : Ambiente) (idSis : Z) (registros : list Registro) :
  forall (i : nat) (t : Tabela) (c : nat * nat),
  exists n, conserva idSis t (upsertPuro amb idSis i registros t c).1.1 n
            /\ (upsertPuro amb idSis i registros t c).1.2.1 = (c.1 + n)%nat.
Proof.
  induction registros as [|r resto IH]; intros i t c.
  - exists 0%nat. split; [apply conserva_refl | cbn; lia].
  - rewrite upsertPuro_cons. cbn [fst snd].
    destruct (conserva_tabelaApos amb idSis i r t c) as (n & Hn & Hc).
    destruct (IH (S i) (tabelaApos amb idSis i r t) (contagemApos amb idSis i r t c))
      as (m & Hm & Hc').
    exists (n + m)%nat. split; [exact (conserva_trans _ _ _ _ _ _ Hn Hm)|].
    rewrite Hc', Hc. lia.
Qed.

Lemma run_conserva (amb : Ambiente) (idSis : Z) (nome : string) (w : Mundo) :
  exists (w' : Mundo) (r : SyncResult),
    sincronizarPorEmpresa amb idSis nome w = (w', inr r)
    /\ idSistema r = idSis
    /\ conserva idSis (espelho w) (espelho w') (registrosInseridos r).
Proof.
  destruct (run_casos amb idSis nome w) as (w' & r & Hrun & Hcasos).
  exists w', r. split; [exact Hrun|].
  destruct Hcasos as [(_ & -> & e & ->) | (token & registros & _ & _ & _ & _ & _ & Hfim)].
  - split; [reflexivity | apply conserva_refl].
  - cbv zeta in Hfim. destruct Hfim as [-> ->]. split; [reflexivity|].
    cbn [registrosInseridos resultadoSucesso].
    destruct (conserva_upsertPuro amb idSis registros 0
                (sqlMarcar idSis (timestampMarcar amb) (espelho w)) (0%nat, 0%nat))
      as (n & Hn & ->).
    exact (conserva_trans _ _ _ _ _ _ (conserva_marcar _ _ _) Hn).
Qed.

(** X10. A run never deletes or moves a row, and never changes the
    system, the business key or the creation time of one: whatever the
    collaborators answer, the committed table after the run is the table
    before it, row by row with these three kept, followed by new rows of
    the system of the run only; and the number of new rows is the count
    of inserted records that the result reports. *)
Theorem run_keeps_rows (amb : Ambiente) (idSis : Z) (nome : string) (w : Mundo) :
  exists (w' : Mundo) (r : SyncResult) (antigas novas : Tabela),
    sincronizarPorEmpresa amb idSis nome w = (w', inr r)
    /\ espelho w' = antigas ++ novas
    /\ Forall2 mesmaLinha (espelho w) antigas
    /\ Forall (fun l => ID_SISTEMA l = idSis) novas
    /\ length novas = registrosInseridos r
    /\ length (espelho w') = (length (espelho w) + registrosInseridos r)%nat.
Proof.
  destruct (run_conserva amb idSis nome w)
    as (w' & r & Hrun & _ & antigas & novas & Heq & Ha & Hnv & Hlen).
  exists w', r, antigas, novas. repeat split; try assumption.
  rewrite Heq, length_app, Hlen. now rewrite (Forall2_length _ _ _ Ha).
Qed.

(** *** Rows of the other systems *)

Lemma alheias_fmap (idSis : Z) (f : Linha -> Linha) (t : Tabela) :
  (forall l, ID_SISTEMA l <> idSis -> f l = l) ->
  (forall l, ID_SISTEMA l = idSis -> ID_SISTEMA (f l) = idSis) ->
  alheias idSis (f <$> t) = alheias idSis t.
Proof.
  intros Hfora Hdentro. unfold alheias. induction t as [|l t IH]; [reflexivity|].
  rewrite fmap_cons, !filter_cons, IH.
  destruct (decide (ID_SISTEMA l <> idSis)) as [Hne|Heq].
  - rewrite (Hfora l Hne). now rewrite decide_True.
  - apply dec_stable in Heq. rewrite decide_False; [reflexivity|].
    intros Hne. apply Hne. now apply Hdentro.
Qed.

Lemma alheias_marcar (idSis agora : Z) (t : Tabela) :
  alheias idSis (sqlMarcar idSis agora t) = alheias idSis t.
Proof.
  apply alheias_fmap; intros l Hl.
  - unfold atualDe. apply Z.eqb_neq in Hl. now rewrite Hl.
  - destruct (atualDe idSis l); exact Hl.
Qed.

Lemma alheias_tabelaApos (amb : Ambiente) (idSis : Z) (i : nat) (r : Registro)
    (t : Tabela) :
  alheias idSis (tabelaApos amb idSis i r t) = alheias idSis t.
Proof.
  unfold tabelaApos. destruct (linhaFalha amb i); [reflexivity|].
  destruct (existe t idSis (chaveDe r)).
  - apply alheias_fmap; intros l Hl.
    + unfold casa. apply Z.eqb_neq in Hl. now rewrite Hl.
    + destruct (casa idSis (chaveDe r) l); exact Hl.
  - unfold sqlInsert, alheias. rewrite filter_app, filter_cons, filter_nil.
    rewrite decide_False; [apply app_nil_r|]. intros Hne. now apply Hne.
Qed.

Lemma alheias_upsertPuro (amb : Ambiente) (idSis : Z) (registros : list Registro) :
  forall (i : nat) (t : Tabela) (c : nat * nat),
    alheias idSis (upsertPuro amb idSis i registros t c).1.1 = alheias idSis t.
Proof.
  induction registros as [|r resto IH]; intros i t c; [reflexivity|].
  rewrite upsertPuro_cons. cbn [fst snd]. rewrite IH. apply alheias_tabelaApos.
Qed.

Lemma filter_sistema_alheias (idSis outro : Z) (t : Tabela) :
  outro <> idSis ->
  filter (fun l => ID_SISTEMA l = outro) (alheias idSis t)
  = filter (fun l => ID_SISTEMA l = outro) t.
Proof.
  intros Hne. unfold alheias. induction t as [|l t IH]; [reflexivity|].
  rewrite !filter_cons.
  destruct (decide (ID_SISTEMA l <> idSis)) as [Hl|Hl].
  - rewrite filter_cons, IH. reflexivity.
  - apply dec_stable in Hl. rewrite decide_False by congruence. exact IH.
Qed.

Lemma run_alheias (amb : Ambiente) (idSis : Z) (nome : string) (w : Mundo) :
  alheias idSis (espelho (sincronizarPorEmpresa amb idSis nome w).1)
  = alheias idSis (espelho w).
Proof.
  destruct (run_casos amb idSis nome w) as (w' & r & Hrun & Hcasos).
  rewrite Hrun. cbn [fst].
  destruct Hcasos as [(_ & -> & _) | (token & registros & _ & _ & _ & _ & _ & Hfim)];
    [reflexivity|].
  cbv zeta in Hfim. destruct Hfim as [-> _].
  rewrite alheias_upsertPuro. apply alheias_marcar.
Qed.

(** X11. A run for one system leaves the rows of every other system
    exactly as they were, all columns and their relative order included,
    whatever the collaborators answer and whatever the snapshot holds. *)
Theorem run_frame (amb : Ambiente) (idSis : Z) (nome : string) (w : Mundo) :
  exists (w' : Mundo) (r : SyncResult),
    sincronizarPorEmpresa amb idSis nome w = (w', inr r)
    /\ alheias idSis (espelho w') = alheias idSis (espelho w)
    /\ forall outro : Z, outro <> idSis ->
         filter (fun l => ID_SISTEMA l = outro) (espelho w')
         = filter (fun l => ID_SISTEMA l = outro) (espelho w).
Proof.
  pose proof (run_alheias amb idSis nome w) as Hfr.
  destruct (run_casos amb idSis nome w) as (w' & r & Hrun & _).
  rewrite Hrun in Hfr. cbn [fst] in Hfr.
  exists w', r. split; [exact Hrun|]. split; [exact Hfr|].
  intros outro Hne.
  rewrite <- (filter_sistema_alheias idSis outro (espelho w')) by assumption.
  rewrite Hfr. now apply filter_sistema_alheias.
Qed.

(** *** The stale-marking statement *)

Lemma ativasDe_marcar (idSis agora : Z) (t : Tabela) :
  ativasDe idSis (sqlMarcar idSis agora t) = [].
Proof.
  unfold ativasDe, sqlMarcar. induction t as [|l t IH]; [reflexivity|].
  rewrite fmap_cons, filter_cons, IH.
  destruct (atualDe idSis l) eqn:Ha.
  - rewrite decide_False; [reflexivity|].
    unfold atualDe. cbn. rewrite andb_false_r. discriminate.
  - rewrite decide_False; [reflexivity|]. now rewrite Ha.
Qed.

Lemma marcar_sem_ativas (idSis agora : Z) (t : Tabela) :
  ativasDe idSis t = [] -> sqlMarcar idSis agora t = t.
Proof.
  unfold ativasDe, sqlMarcar. induction t as [|l t IH]; [reflexivity|].
  rewrite filter_cons, fmap_cons.
  destruct (decide (atualDe idSis l = true)) as [Ha|Ha]; [discriminate|].
  intros Hnil. apply not_true_is_false in Ha. rewrite Ha. f_equal. now apply IH.
Qed.

(** X12. The stale-marking statement, when it does not throw, reports
    the number of rows of the system that were active, leaves none of them
    active, changes only the status and the load time of a row, and works
    inside the transaction: the committed table is untouched. Run a second
    time it reports zero and changes nothing. *)
Theorem marcarTodosComoNaoAtuais_effect (amb amb' : Ambiente) (idSis : Z)
    (e : Tabela) (tr : list Evento) (t : Tabela) :
  marcarFalha amb = None ->
  marcarFalha amb' = None ->
  exists t1 : Tabela,
    marcarTodosComoNaoAtuais amb idSis (estado e tr (Some t))
    = (estado e (tr ++ [EvMarcar idSis]) (Some t1),
       inr (length (ativasDe idSis t)))
    /\ ativasDe idSis t1 = []
    /\ Forall2 (fun l l1 => mesmaLinha l l1 /\ campos l1 = campos l) t t1
    /\ alheias idSis t1 = alheias idSis t
    /\ marcarTodosComoNaoAtuais amb' idSis
         (estado e (tr ++ [EvMarcar idSis]) (Some t1))
       = (estado e (tr ++ [EvMarcar idSis; EvMarcar idSis]) (Some t1), inr 0%nat).
Proof.
  intros Hm Hm'. exists (sqlMarcar idSis (timestampMarcar amb) t).
  pose proof (ativasDe_marcar idSis (timestampMarcar amb) t) as Hnil.
  split; [|split; [exact Hnil|split; [|split; [apply alheias_marcar|]]]].
  - exec. rewrite Hm. exec. reflexivity.
  - unfold sqlMarcar. clear. induction t as [|l t IH]; [constructor|].
    rewrite fmap_cons. constructor; [|exact IH].
    destruct (atualDe idSis l); repeat split.
  - exec. rewrite Hm'. exec.
    rewrite (marcar_sem_ativas idSis (timestampMarcar amb') _ Hnil).
    fold (ativasDe idSis (sqlMarcar idSis (timestampMarcar amb) t)).
    rewrite Hnil, <- app_assoc. reflexivity.
Qed.

(** *** Success and the counters *)

(** X13. A run reports [success = true] exactly when none of the token
    provider, the fetch, the connection provider, the stale-marking and the
    commit throws: statements that throw inside the loop, and a failing log
    or close, do not turn a run into a failure. A failed run reports all its
    counters as zero and carries an error message; a successful one
    carries none. *)
Theorem run_success_iff (amb : Ambiente) (idSis : Z) (nome : string) (w : Mundo) :
  exists (w' : Mundo) (r : SyncResult),
    sincronizarPorEmpresa amb idSis nome w = (w', inr r)
    /\ (success r = true <-> ~ colaboradorFalha amb)
    /\ (success r = true -> erro r = None)
    /\ (success r = false ->
        (exists m, erro r = Some m)
        /\ totalRegistros r = 0%nat /\ registrosInseridos r = 0%nat
        /\ registrosAtualizados r = 0%nat /\ registrosDeletados r = 0%nat
        /\ espelho w' = espelho w).
Proof.
  destruct (run_casos amb idSis nome w) as (w' & r & Hrun & Hcasos).
  exists w', r. split; [exact Hrun|].
  destruct Hcasos as [(Hf & Hesp & e & ->)
                     | (token & registros & Ht & Hb & Hc & Hm & Hk & Hfim)].
  - cbn. split; [split; [discriminate | intros Hn; now apply Hn in Hf]|].
    split; [discriminate|]. intros _. repeat split; eauto.
  - cbv zeta in Hfim. destruct Hfim as [_ ->]. cbn. repeat split; try discriminate.
    intros _ [(e & He) | [(e & He) | [(e & He) | [(e & He) | (e & He)]]]]; congruence.
Qed.

Lemma falhas_mais_gravadas (amb : Ambiente) (registros : list Registro) :
  forall i : nat,
    (length (filter (fun j => linhaFalha amb j = true) (seq i (length registros)))
     + length (chavesGravadas amb i registros) = length registros)%nat.
Proof.
  induction registros as [|r resto IH]; intros i; [reflexivity|].
  cbn [length seq chavesGravadas]. rewrite filter_cons. specialize (IH (S i)).
  destruct (linhaFalha amb i) eqn:Hf.
  - rewrite decide_True by reflexivity. cbn [length]. lia.
  - rewrite decide_False by discriminate. cbn [length]. lia.
Qed.

(** X14. The counters of a successful run add up: every fetched record
    was either inserted, or updated, or had a statement that threw, so
    inserted + updated + row errors is the number of fetched records; the
    count of deleted records is the number of rows of the system that were
    active before the run; and the duration is the difference of the two
    clock readings. *)
Theorem run_counters (amb : Ambiente) (idSis : Z) (nome : string)
    (w w' : Mundo) (r : SyncResult) (registros : list Registro) :
  sincronizarPorEmpresa amb idSis nome w = (w', inr r) ->
  success r = true ->
  buscaResp amb = inr registros ->
  totalRegistros r = length registros
  /\ (registrosInseridos r + registrosAtualizados r
      + falhasAte amb (length registros) = length registros)%nat
  /\ registrosDeletados r = length (ativasDe idSis (espelho w))
  /\ duracao r = dataFim r - dataInicio r
  /\ idSistema r = idSis /\ empresa r = nome.
Proof.
  intros Hrun Hs Hb.
  destruct (run_casos amb idSis nome w) as (w1 & r1 & Hrun1 & Hcasos).
  rewrite Hrun in Hrun1. injection Hrun1 as <- <-.
  destruct Hcasos as [(_ & _ & e & ->)
                     | (token & regs & _ & Hb' & _ & _ & _ & Hfim)];
    [discriminate|].
  rewrite Hb in Hb'. injection Hb' as <-.
  cbv zeta in Hfim. destruct Hfim as [_ ->]. cbn.
  repeat split.
  pose proof (soma_upsertPuro amb idSis registros 0
                (sqlMarcar idSis (timestampMarcar amb) (espelho w)) (0%nat, 0%nat))
    as Hsoma.
  cbv zeta in Hsoma. cbn [fst snd] in Hsoma.
  pose proof (falhas_mais_gravadas amb registros 0) as Hf.
  unfold falhasAte. lia.
Qed.

(** *** The last record of a key *)

Lemma existe_false (t : Tabela) (idSis : Z) (k : Chave) :
  existe t idSis k = false -> forall l, l ∈ t -> casa idSis k l = false.
Proof.
  unfold existe. intros He l Hl. apply not_true_is_false. intros Hc.
  apply not_true_iff_false in He. apply He, existsb_exists.
  exists l. split; [now apply list_elem_of_In | exact Hc].
Qed.

Lemma existe_true (t : Tabela) (idSis : Z) (k : Chave) (l : Linha) :
  l ∈ t -> casa idSis k l = true -> existe t idSis k = true.
Proof.
  intros Hl Hc. unfold existe. apply existsb_exists.
  exists l. split; [now apply list_elem_of_In | exact Hc].
Qed.

Lemma todasDe_tabelaApos_outra (amb : Ambiente) (idSis : Z) (i : nat) (r : Registro)
    (t : Tabela) (k : Chave) (P : Linha -> Prop) :
  linhaFalha amb i = true \/ chaveDe r <> k ->
  todasDe idSis k P t -> todasDe idSis k P (tabelaApos amb idSis i r t).
Proof.
  intros Hou Ht. unfold tabelaApos.
  destruct (linhaFalha amb i) eqn:Hf; [exact Ht|].
  destruct Hou as [Hou|Hne]; [discriminate|].
  destruct (existe t idSis (chaveDe r)); intros l Hl Hc.
  - unfold sqlUpdate in Hl. apply list_elem_of_fmap in Hl as (l0 & -> & Hl0).
    destruct (casa idSis (chaveDe r) l0) eqn:Hc0.
    + rewrite casa_atualiza in Hc.
      apply casa_spec in Hc as [_ Hk]. apply casa_spec in Hc0 as [_ Hk0]. congruence.
    + now apply Ht.
  - unfold sqlInsert in Hl. apply elem_of_app in Hl as [Hl|Hl]; [now apply Ht|].
    apply list_elem_of_singleton in Hl as ->. rewrite casa_novaLinha in Hc.
    apply andb_true_iff in Hc as [_ Hk%bool_decide_eq_true]. congruence.
Qed.

Lemma todasDe_upsertPuro (amb : Ambiente) (idSis : Z) (k : Chave)
    (P : Linha -> Prop) (registros : list Registro) :
  forall (i : nat) (t : Tabela) (c : nat * nat),
    (forall j r, registros !! j = Some r -> chaveDe r = k ->
                 linhaFalha amb (i + j) = true) ->
    todasDe idSis k P t ->
    todasDe idSis k P (upsertPuro amb idSis i registros t c).1.1.
Proof.
  induction registros as [|r resto IH]; intros i t c Hfalham Ht; [exact Ht|].
  rewrite upsertPuro_cons. cbn [fst snd]. apply IH.
  - intros j r' Hj Hk. replace (S i + j)%nat with (i + S j)%nat by lia.
    now apply (Hfalham (S j) r').
  - apply todasDe_tabelaApos_outra; [|exact Ht].
    destruct (decide (chaveDe r = k)) as [Hk|Hk]; [left | now right].
    rewrite <- (Nat.add_0_r i). now apply (Hfalham 0%nat r).
Qed.

Lemma todasDe_tabelaApos (amb : Ambiente) (idSis : Z) (i : nat) (r : Registro)
    (t : Tabela) :
  linhaFalha amb i = false ->
  bindsUpdate r = bindsInsert r ->
  todasDe idSis (chaveDe r)
    (fun l => campos l = bindsInsert r /\ SANKHYA_ATUAL l = true
              /\ DT_ULT_CARGA l = timestampLinha amb i)
    (tabelaApos amb idSis i r t).
Proof.
  intros Hf Hb. unfold tabelaApos. rewrite Hf.
  destruct (existe t idSis (chaveDe r)) eqn:He; intros l Hl Hc.
  - unfold sqlUpdate in Hl. apply list_elem_of_fmap in Hl as (l0 & -> & Hl0).
    destruct (casa idSis (chaveDe r) l0) eqn:Hc0; [|congruence].
    cbn. now rewrite Hb.
  - unfold sqlInsert in Hl. apply elem_of_app in Hl as [Hl|Hl].
    + now rewrite (existe_false t idSis (chaveDe r) He l Hl) in Hc.
    + apply list_elem_of_singleton in Hl as ->. repeat split.
Qed.

Lemma ultima_upsertPuro (amb : Ambiente) (idSis : Z) (registros : list Registro) :
  forall (i : nat) (t : Tabela) (c : nat * nat) (j : nat) (r : Registro),
    registros !! j = Some r ->
    linhaFalha amb (i + j) = false ->
    (forall j' r', (j < j')%nat -> registros !! j' = Some r' ->
                   chaveDe r' = chaveDe r -> linhaFalha amb (i + j') = true) ->
    bindsUpdate r = bindsInsert r ->
    todasDe idSis (chaveDe r)
      (fun l => campos l = bindsInsert r /\ SANKHYA_ATUAL l = true
                /\ DT_ULT_CARGA l = timestampLinha amb (i + j))
      (upsertPuro amb idSis i registros t c).1.1.
Proof.
  induction registros as [|r0 resto IH]; intros i t c j r Hj Hf Hdepois Hb;
    [discriminate|].
  rewrite upsertPuro_cons. cbn [fst snd]. destruct j as [|j].
  - injection Hj as ->. rewrite Nat.add_0_r in *.
    apply todasDe_upsertPuro.
    + intros j' r' Hj' Hk. replace (S i + j')%nat with (i + S j')%nat by lia.
      apply (Hdepois (S j') r'); [lia | exact Hj' | exact Hk].
    + now apply todasDe_tabelaApos.
  - replace (i + S j)%nat with (S i + j)%nat in * by lia.
    apply IH; try assumption.
    intros j' r' Hlt Hj' Hk. replace (S i + j')%nat with (i + S j')%nat by lia.
    apply (Hdepois (S j') r'); [lia | exact Hj' | exact Hk].
Qed.

(** X15. The last write wins. In a successful run, take a fetched
    record whose statements did not throw and after which no record of the
    same key was written. Then the committed table has a row for its key,
    and every row of that key is active, was loaded at the time of that
    record, and holds the values bound from that record: an earlier record
    of the same key in the same snapshot leaves no trace. The values are
    those of the INSERT; the services bind the same values in the UPDATE. *)
Theorem run_last_write_wins (amb : Ambiente) (idSis : Z) (nome : string)
    (w w' : Mundo) (res : SyncResult) (registros : list Registro)
    (j : nat) (r : Registro) :
  sincronizarPorEmpresa amb idSis nome w = (w', inr res) ->
  success res = true ->
  buscaResp amb = inr registros ->
  registros !! j = Some r ->
  linhaFalha amb j = false ->
  (forall j' r', (j < j')%nat -> registros !! j' = Some r' ->
                 chaveDe r' = chaveDe r -> linhaFalha amb j' = true) ->
  bindsUpdate r = bindsInsert r ->
  existe (espelho w') idSis (chaveDe r) = true
  /\ todasDe idSis (chaveDe r)
       (fun l => campos l = bindsInsert r /\ SANKHYA_ATUAL l = true
                 /\ DT_ULT_CARGA l = timestampLinha amb j)
       (espelho w').
Proof.
  intros Hrun Hs Hbusca Hj Hf Hdepois Hb.
  destruct (run_casos amb idSis nome w) as (w1 & r1 & Hrun1 & Hcasos).
  rewrite Hrun in Hrun1. injection Hrun1 as <- <-.
  destruct Hcasos as [(_ & _ & e & ->)
                     | (token & regs & _ & Hb' & _ & _ & _ & Hfim)];
    [discriminate|].
  rewrite Hbusca in Hb'. injection Hb' as <-.
  cbv zeta in Hfim. destruct Hfim as [-> _]. split.
  - rewrite existe_upsertPuro, Z.eqb_refl. cbn [andb].
    apply orb_true_iff. left. apply bool_decide_eq_true.
    apply elem_of_chavesGravadas. exists j, r. repeat split; assumption.
  - apply (ultima_upsertPuro amb idSis registros 0 _ _ j r); assumption.
Qed.

(** *** What is inserted *)

Lemma length_remove_dups_novo (S : Z) (t : Tabela) (k : Chave) (c : Campos)
    (agora : Z) (gravadas : list Chave) :
  existe t S k = false ->
  length (remove_dups
            (k :: filter (fun k' => existe t S k' = false) gravadas))
  = Datatypes.S
      (length (remove_dups
                 (filter (fun k' => existe (sqlInsert S k c agora t) S k' = false)
                         gravadas))).
Proof.
  intros He.
  change (Datatypes.S (length ?l)) with (length (k :: l)).
  apply Permutation_length, NoDup_Permutation.
  - apply NoDup_remove_dups.
  - apply NoDup_cons. split; [|apply NoDup_remove_dups].
    intros [Hk _]%elem_of_remove_dups%list_elem_of_filter.
    rewrite existe_insert, Z.eqb_refl in Hk. cbn [andb] in Hk.
    rewrite bool_decide_eq_true_2 in Hk by reflexivity. discriminate.
  - intros x. rewrite elem_of_remove_dups, !elem_of_cons, elem_of_remove_dups,
      !list_elem_of_filter, existe_insert, Z.eqb_refl.
    cbn [andb]. destruct (decide (x = k)) as [->|Hne]; [tauto|].
    rewrite (bool_decide_eq_false_2 (x = k)) by assumption. cbn [orb]. tauto.
Qed.

Lemma inseridos_upsertPuro (amb : Ambiente) (S : Z) (registros : list Registro) :
  forall (i : nat) (t : Tabela) (c : nat * nat),
    (upsertPuro amb S i registros t c).1.2.1
    = (c.1 + length (remove_dups
                       (filter (fun k => existe t S k = false)
                               (chavesGravadas amb i registros))))%nat.
Proof.
  induction registros as [|r resto IH]; intros i t c; [cbn; lia|].
  rewrite upsertPuro_cons. cbn [fst snd]. rewrite IH.
  unfold tabelaApos, contagemApos. cbn [chavesGravadas].
  destruct (linhaFalha amb i); [reflexivity|].
  rewrite filter_cons.
  destruct (existe t S (chaveDe r)) eqn:He.
  - rewrite decide_False by discriminate. cbn [fst]. f_equal. f_equal. f_equal.
    apply list_filter_iff. intros k. now rewrite existe_update.
  - rewrite decide_True by reflexivity. cbn [fst].
    rewrite (length_remove_dups_novo S t (chaveDe r) (bindsInsert r)
               (timestampLinha amb i) _ He).
    lia.
Qed.

(** X21. What a successful run inserts. The number of inserted records
    it reports, which is the number of rows the mirror gained, is the
    number of distinct keys, among the records whose statements did not
    throw, that had no row of the system before the run: a key met
    twice in the snapshot is inserted once and updated afterwards, and
    every other written record is counted as updated. *)
Theorem run_inserts_new_keys (amb : Ambiente) (idSis : Z) (nome : string)
    (w w' : Mundo) (r : SyncResult) (registros : list Registro) :
  sincronizarPorEmpresa amb idSis nome w = (w', inr r) ->
  success r = true ->
  buscaResp amb = inr registros ->
  let gravadas := chavesGravadas amb 0 registros in
  let novas := remove_dups
                 (filter (fun k => existe (espelho w) idSis k = false) gravadas) in
  registrosInseridos r = length novas
  /\ (registrosInseridos r + registrosAtualizados r = length gravadas)%nat
  /\ length (espelho w') = (length (espelho w) + length novas)%nat.
Proof.
  intros Hrun Hs Hb gravadas novas.
  destruct (run_conserva amb idSis nome w)
    as (w2 & r2 & Hrun2 & _ & antigas & nv & Heq & Ha & _ & Hlen).
  rewrite Hrun in Hrun2. injection Hrun2 as <- <-.
  destruct (run_casos amb idSis nome w) as (w1 & r1 & Hrun1 & Hcasos).
  rewrite Hrun in Hrun1. injection Hrun1 as <- <-.
  destruct Hcasos as [(_ & _ & e & Hr)
                     | (token & regs & _ & Hb' & _ & _ & _ & Hfim)];
    [rewrite Hr in Hs; discriminate|].
  rewrite Hb in Hb'. injection Hb' as <-.
  cbv zeta in Hfim. destruct Hfim as [_ Hr].
  assert (Hins : registrosInseridos r = length novas).
  { rewrite Hr. cbn [registrosInseridos resultadoSucesso].
    rewrite inseridos_upsertPuro. cbn [fst]. subst novas gravadas.
    rewrite Nat.add_0_l. f_equal. f_equal. apply list_filter_iff. intros k. now rewrite existe_marcar. }
  split; [exact Hins|]. split.
  - rewrite Hr. cbn [registrosInseridos registrosAtualizados resultadoSucesso].
    pose proof (soma_upsertPuro amb idSis registros 0
                  (sqlMarcar idSis (timestampMarcar amb) (espelho w)) (0%nat, 0%nat))
      as Hsoma.
    cbv zeta in Hsoma. cbn [fst snd] in Hsoma. subst gravadas. lia.
  - rewrite <- Hins, Heq, length_app, Hlen. now rewrite (Forall2_length _ _ _ Ha).
Qed.

End ReconcilerMore.

(** ** The statistics *)

Section StatisticsProps.
Context `{E : Esquema}.
Import Exec.
Abbreviation Tabela := (list Linha).

#[local] Arguments sqlEstatisticas : simpl never.

Ltac execL :=
  cbv beta iota zeta delta
    [mbind mret M_bind M_ret Exec.bind Exec.ret Exec.throw Exec.get Exec.modify
     Exec.tryCatch Exec.tryFinally emiteL emiteMundo noMundo setConnectionL
     falhaSeL mundoL connectionL espelho rastro].

Lemma estatisticas_conexao_falha (ae : AmbienteEstatisticas) (idSis : option Z)
    (w : Mundo) (e : Erro) :
  estConexao ae = Some e ->
  obterEstatisticasSincronizacao ae idSis w
  = ({| espelho := espelho w; rastro := rastro w ++ [EvConnect] |}, inl e).
Proof.
  intros Hc. destruct w as [esp tr].
  unfold obterEstatisticasSincronizacao, obterEstatisticasCorpo.
  execL. rewrite Hc. execL. reflexivity.
Qed.

Lemma estatisticas_consulta_falha (ae : AmbienteEstatisticas) (idSis : option Z)
    (w : Mundo) (e : Erro) :
  estConexao ae = None ->
  estConsulta ae = Some e ->
  obterEstatisticasSincronizacao ae idSis w
  = ({| espelho := espelho w; rastro := rastro w ++ [EvConnect; EvClose] |}, inl e).
Proof.
  intros Hc Hq. destruct w as [esp tr].
  unfold obterEstatisticasSincronizacao, obterEstatisticasCorpo.
  execL. rewrite Hc. execL. rewrite Hq. execL.
  rewrite <- app_assoc. destruct (estClose ae); reflexivity.
Qed.

Lemma estatisticas_sucesso (ae : AmbienteEstatisticas) (idSis : option Z) (w : Mundo) :
  estConexao ae = None ->
  estConsulta ae = None ->
  obterEstatisticasSincronizacao ae idSis w
  = ({| espelho := espelho w; rastro := rastro w ++ [EvConnect; EvClose] |},
     inr (sqlEstatisticas (filtroDe idSis) (espelho w))).
Proof.
  intros Hc Hq. destruct w as [esp tr].
  unfold obterEstatisticasSincronizacao, obterEstatisticasCorpo.
  execL. rewrite Hc. execL. rewrite Hq. execL.
  rewrite <- app_assoc. destruct (estClose ae); reflexivity.
Qed.

(** X16. The statistics function only reads: on every path the
    committed table is as before. It throws what the connection provider
    or the query throws; it closes the connection exactly when it was
    acquired, also when the query throws; and an exception of the close
    itself is swallowed, so that the rows, or the first exception, still
    reach the caller. *)
Theorem estatisticas_paths (ae : AmbienteEstatisticas) (idSis : option Z) (w : Mundo) :
  espelho (obterEstatisticasSincronizacao ae idSis w).1 = espelho w
  /\ (forall e, estConexao ae = Some e ->
        obterEstatisticasSincronizacao ae idSis w
        = ({| espelho := espelho w; rastro := rastro w ++ [EvConnect] |}, inl e))
  /\ (forall e, estConexao ae = None -> estConsulta ae = Some e ->
        obterEstatisticasSincronizacao ae idSis w
        = ({| espelho := espelho w; rastro := rastro w ++ [EvConnect; EvClose] |},
           inl e))
  /\ (estConexao ae = None -> estConsulta ae = None ->
        exists rows,
          obterEstatisticasSincronizacao ae idSis w
          = ({| espelho := espelho w; rastro := rastro w ++ [EvConnect; EvClose] |},
             inr rows)).
Proof.
  split; [|split; [|split]].
  - destruct (estConexao ae) as [e|] eqn:Hc.
    { now rewrite (estatisticas_conexao_falha ae idSis w e Hc). }
    destruct (estConsulta ae) as [e|] eqn:Hq.
    { now rewrite (estatisticas_consulta_falha ae idSis w e Hc Hq). }
    now rewrite (estatisticas_sucesso ae idSis w Hc Hq).
  - intros e. apply estatisticas_conexao_falha.
  - intros e. apply estatisticas_consulta_falha.
  - intros Hc Hq. eexists. now apply estatisticas_sucesso.
Qed.

(** *** The rows of the query *)

Lemma filter_sistema_idem (s : Z) (t : Tabela) :
  filter (fun l => ID_SISTEMA l = s) (filter (fun l => ID_SISTEMA l = s) t)
  = filter (fun l => ID_SISTEMA l = s) t.
Proof.
  induction t as [|l t IH]; [reflexivity|].
  rewrite filter_cons. destruct (decide (ID_SISTEMA l = s)) as [Hl|Hl]; [|exact IH].
  rewrite filter_cons, decide_True by exact Hl. now rewrite IH.
Qed.

Lemma agrega_filter (s : Z) (t : Tabela) :
  agrega (filter (fun l => ID_SISTEMA l = s) t) s = agrega t s.
Proof. unfold agrega. cbv zeta. now rewrite filter_sistema_idem. Qed.

Lemma sqlEstatisticas_elem (filtro : option Z) (t : Tabela) (row : Estatisticas.linha) :
  row ∈ sqlEstatisticas filtro t <->
  row = agrega t (Estatisticas.ID_SISTEMA row)
  /\ (exists l, l ∈ t /\ ID_SISTEMA l = Estatisticas.ID_SISTEMA row)
  /\ (forall s, filtro = Some s -> Estatisticas.ID_SISTEMA row = s).
Proof.
  unfold sqlEstatisticas. cbv zeta. rewrite list_elem_of_fmap. split.
  - intros (s & -> & Hs). apply elem_of_remove_dups, list_elem_of_fmap in Hs
      as (l & -> & Hl).
    destruct filtro as [s|].
    + apply list_elem_of_filter in Hl as [Hs Hl]. cbn [Estatisticas.ID_SISTEMA agrega].
      rewrite Hs, agrega_filter. repeat split; [eauto|]. now intros ? [= <-].
    + repeat split; [eauto | discriminate].
  - intros (Hrow & (l & Hl & Hs) & Hf). exists (Estatisticas.ID_SISTEMA row).
    destruct filtro as [s|].
    + rewrite (Hf s eq_refl) in *. rewrite agrega_filter. split; [exact Hrow|].
      apply elem_of_remove_dups, list_elem_of_fmap. exists l.
      split; [now rewrite Hs|]. now apply list_elem_of_filter.
    + split; [exact Hrow|].
      apply elem_of_remove_dups, list_elem_of_fmap. exists l. now rewrite Hs.
Qed.

Lemma sqlEstatisticas_sistemas (filtro : option Z) (t : Tabela) :
  Estatisticas.ID_SISTEMA <$> sqlEstatisticas filtro t
  = remove_dups (ID_SISTEMA <$> match filtro with
                                | Some s => filter (fun l => ID_SISTEMA l = s) t
                                | None => t
                                end).
Proof.
  unfold sqlEstatisticas. cbv zeta.
  induction (remove_dups _) as [|s0 sistemas IH]; [reflexivity|].
  rewrite !fmap_cons, IH. reflexivity.
Qed.

Lemma ativos_deletados (g : Tabela) :
  length g
  = (length (filter (fun l => SANKHYA_ATUAL l = true) g)
     + length (filter (fun l => SANKHYA_ATUAL l = false) g))%nat.
Proof.
  induction g as [|l g IH]; [reflexivity|].
  rewrite !filter_cons. destruct (SANKHYA_ATUAL l).
  - rewrite decide_True, decide_False by (reflexivity || discriminate). cbn [length]. lia.
  - rewrite decide_False, decide_True by (reflexivity || discriminate). cbn [length]. lia.
Qed.

(** X17. The rows of the statistics. With no identifier, and with the
    identifier zero, which the function treats as absent, there is one row
    per system that has rows in the mirror; with a non-zero identifier
    there is the row of that system, or no row when it has none. Each row
    counts the rows of its system, at least one, and its active and
    deleted counts add up to that total. *)
Theorem estatisticas_rows (ae : AmbienteEstatisticas) (idSis : option Z)
    (w w' : Mundo) (rows : list Estatisticas.linha) :
  obterEstatisticasSincronizacao ae idSis w = (w', inr rows) ->
  NoDup (Estatisticas.ID_SISTEMA <$> rows)
  /\ (forall s : Z,
        s ∈ Estatisticas.ID_SISTEMA <$> rows <->
        (exists l, l ∈ espelho w /\ ID_SISTEMA l = s)
        /\ (idSis = None \/ idSis = Some 0 \/ idSis = Some s))
  /\ (forall row, row ∈ rows ->
        row = agrega (espelho w) (Estatisticas.ID_SISTEMA row)
        /\ (0 < Estatisticas.TOTAL_REGISTROS row)%nat
        /\ Estatisticas.TOTAL_REGISTROS row
           = (Estatisticas.REGISTROS_ATIVOS row
              + Estatisticas.REGISTROS_DELETADOS row)%nat)
  /\ (forall s, idSis = Some s -> s <> 0 -> (length rows <= 1)%nat).
Proof.
  intros Hrun.
  destruct (estConexao ae) as [e|] eqn:Hc.
  { rewrite (estatisticas_conexao_falha ae idSis w e Hc) in Hrun. discriminate. }
  destruct (estConsulta ae) as [e|] eqn:Hq.
  { rewrite (estatisticas_consulta_falha ae idSis w e Hc Hq) in Hrun. discriminate. }
  rewrite (estatisticas_sucesso ae idSis w Hc Hq) in Hrun.
  injection Hrun as _ <-.
  assert (Hnodup : NoDup (Estatisticas.ID_SISTEMA
                            <$> sqlEstatisticas (filtroDe idSis) (espelho w))).
  { rewrite sqlEstatisticas_sistemas. apply NoDup_remove_dups. }
  split; [exact Hnodup|]. split; [|split].
  - intros s. rewrite list_elem_of_fmap. split.
    + intros (row & -> & (_ & Hl & Hf)%sqlEstatisticas_elem). split; [exact Hl|].
      destruct idSis as [s0|]; [|now left]. right. unfold filtroDe in Hf.
      destruct (s0 =? 0) eqn:Hz; [left; f_equal; now apply Z.eqb_eq|].
      right. f_equal. symmetry. now apply Hf.
    + intros ((l & Hl & Hs) & Hid). exists (agrega (espelho w) s).
      split; [reflexivity|]. apply sqlEstatisticas_elem. cbn [Estatisticas.ID_SISTEMA agrega].
      repeat split; [eauto|]. intros s0 Hf.
      destruct Hid as [-> | [-> | ->]]; [discriminate..|].
      unfold filtroDe in Hf. destruct (s =? 0); [discriminate | now injection Hf].
  - intros row (Hrow & (l & Hl & Hs) & _)%sqlEstatisticas_elem.
    split; [exact Hrow|]. rewrite Hrow. cbn. split; [|apply ativos_deletados].
    assert (Hin : l ∈ filter (fun l0 => ID_SISTEMA l0 = Estatisticas.ID_SISTEMA row)
                         (espelho w)) by now apply list_elem_of_filter.
    destruct (filter _ (espelho w)); [now apply not_elem_of_nil in Hin | cbn; lia].
  - intros s -> Hs.
    rewrite <- (length_fmap Estatisticas.ID_SISTEMA). rewrite sqlEstatisticas_sistemas.
    unfold filtroDe. apply Z.eqb_neq in Hs. rewrite Hs.
    generalize (espelho w). clear. intros t.
    assert (Hall : forall x, x ∈ remove_dups
                     (ID_SISTEMA <$> filter (fun l => ID_SISTEMA l = s) t) -> x = s).
    { intros x (l & -> & [Hl _]%list_elem_of_filter)%elem_of_remove_dups%list_elem_of_fmap.
      exact Hl. }
    pose proof (NoDup_remove_dups
                  (ID_SISTEMA <$> filter (fun l => ID_SISTEMA l = s) t)) as Hnd.
    destruct (remove_dups _) as [|x [|y rest]]; [cbn; lia..|].
    exfalso. apply NoDup_cons in Hnd as [Hx _]. apply Hx.
    rewrite (Hall x) by left. rewrite (Hall y) by (right; left). left.
Qed.

(** *** The statistics and the run *)

Lemma sqlCount_NoDup (t : Tabela) :
  NoDup ((fun l => (ID_SISTEMA l, chave l)) <$> t) ->
  forall s k, (sqlCount s k t <= 1)%nat.
Proof.
  induction t as [|l t IH]; intros Hnd s k; [unfold sqlCount; cbn; lia|].
  rewrite fmap_cons in Hnd. apply NoDup_cons in Hnd as [Hl Hnd].
  specialize (IH Hnd s k). unfold sqlCount in *. rewrite filter_cons.
  destruct (decide (casa s k l = true)) as [Hc|Hc]; [|exact IH].
  cbn [length].
  destruct (filter (fun l0 => casa s k l0 = true) t) as [|l' resto] eqn:Hf;
    [cbn; lia|].
  exfalso. apply Hl.
  assert (Hin : l' ∈ filter (fun l0 => casa s k l0 = true) t) by (rewrite Hf; left).
  apply list_elem_of_filter in Hin as [Hc' Hin].
  apply casa_spec in Hc as [Hs Hk]. apply casa_spec in Hc' as [Hs' Hk'].
  apply list_elem_of_fmap. exists l'. split; [congruence | exact Hin].
Qed.

Lemma ativos_agrega (t : Tabela) (s : Z) :
  Estatisticas.REGISTROS_ATIVOS (agrega t s) = length (ativasDe s t).
Proof.
  unfold agrega, ativasDe. cbn. induction t as [|l t IH]; [reflexivity|].
  rewrite !filter_cons.
  destruct (decide (ID_SISTEMA l = s)) as [Hl|Hl].
  - assert (Ha : atualDe s l = SANKHYA_ATUAL l).
    { unfold atualDe. apply Z.eqb_eq in Hl. now rewrite Hl. }
    rewrite filter_cons.
    destruct (decide (SANKHYA_ATUAL l = true)) as [Hat|Hat].
    + rewrite decide_True by congruence. cbn [length]. now rewrite IH.
    + rewrite decide_False by congruence. exact IH.
  - assert (Ha : atualDe s l = false).
    { unfold atualDe. apply Z.eqb_neq in Hl. now rewrite Hl. }
    rewrite decide_False by congruence. exact IH.
Qed.

Lemma elem_of_ativasDe (t : Tabela) (s : Z) (k : Chave) :
  k ∈ chave <$> ativasDe s t <-> ativa t s k = true.
Proof.
  unfold ativa, ativasDe. rewrite list_elem_of_fmap, existsb_exists. split.
  - intros (l & -> & [Ha Hl]%list_elem_of_filter). exists l.
    split; [now apply list_elem_of_In|].
    unfold atualDe in Ha. apply andb_true_iff in Ha as [Hs Hat].
    unfold casa. rewrite Hs, Hat, bool_decide_eq_true_2; reflexivity.
  - intros (l & Hl%list_elem_of_In & [Hc Hat]%andb_true_iff).
    apply casa_spec in Hc as [Hs Hk]. exists l. split; [now rewrite Hk|].
    apply list_elem_of_filter. split; [|exact Hl].
    unfold atualDe. apply Z.eqb_eq in Hs. now rewrite Hs, Hat.
Qed.

Lemma sqlCount_cons_le (s : Z) (k : Chave) (l : Linha) (t : Tabela) :
  (sqlCount s k t <= sqlCount s k (l :: t))%nat.
Proof.
  unfold sqlCount. rewrite filter_cons.
  destruct (decide (casa s k l = true)); cbn [length]; lia.
Qed.

Lemma NoDup_ativasDe (t : Tabela) (s : Z) :
  (forall k, sqlCount s k t <= 1)%nat -> NoDup (chave <$> ativasDe s t).
Proof.
  induction t as [|l t IH]; intros Hone; [constructor|].
  assert (Hone' : forall k, (sqlCount s k t <= 1)%nat).
  { intros k. etransitivity; [apply (sqlCount_cons_le s k l)|apply Hone]. }
  unfold ativasDe. rewrite filter_cons.
  destruct (decide (atualDe s l = true)) as [Ha|Ha]; [|now apply IH].
  rewrite fmap_cons. apply NoDup_cons. split; [|now apply IH].
  intros (l' & Hk & [Ha' Hl']%list_elem_of_filter)%list_elem_of_fmap.
  assert (Hc : casa s (chave l) l = true).
  { unfold atualDe in Ha. apply andb_true_iff in Ha as [Hs _].
    unfold casa. rewrite Hs, bool_decide_eq_true_2; reflexivity. }
  assert (Hc' : casa s (chave l) l' = true).
  { unfold atualDe in Ha'. apply andb_true_iff in Ha' as [Hs _].
    unfold casa. rewrite Hs, bool_decide_eq_true_2; [reflexivity | now symmetry]. }
  specialize (Hone (chave l)). unfold sqlCount in Hone.
  rewrite filter_cons, decide_True in Hone by exact Hc. cbn [length] in Hone.
  assert (Hin : l' ∈ filter (fun l0 => casa s (chave l) l0 = true) t)
    by now apply list_elem_of_filter.
  destruct (filter _ t); [now apply not_elem_of_nil in Hin | cbn in Hone; lia].
Qed.

Lemma ativasDe_upsertPuro (amb : Ambiente) (s : Z) (registros : list Registro)
    (t : Tabela) :
  (forall s' k', sqlCount s' k' t <= 1)%nat ->
  length (ativasDe s (upsertPuro amb s 0 registros
                        (sqlMarcar s (timestampMarcar amb) t) (0%nat, 0%nat)).1.1)
  = length (remove_dups (chavesGravadas amb 0 registros)).
Proof.
  intros Hone.
  set (fim := (upsertPuro amb s 0 registros _ _).1.1).
  rewrite <- (length_fmap chave). apply Permutation_length, NoDup_Permutation.
  - apply NoDup_ativasDe. intros k. apply count_upsertPuro.
    intros s' k'. rewrite count_marcar. apply Hone.
  - apply NoDup_remove_dups.
  - intros k. rewrite elem_of_ativasDe, elem_of_remove_dups. subst fim.
    rewrite ativa_upsertPuro, ativa_marcar, Z.eqb_refl. cbn [negb andb].
    rewrite orb_false_r. apply bool_decide_eq_true.
Qed.

(** X18. The statistics agree with the run. Asked after a successful
    run on a mirror that had at most one row per key, whether for that
    system or for all, the statistics report for the system of the run as
    many active rows as there are distinct keys among the records written;
    the rows of every other system are counted as before the run; and the
    number of deleted records that the run reported is the number of
    active rows that the statistics of the system showed before it. *)
Theorem estatisticas_after_run (amb : Ambiente) (ae : AmbienteEstatisticas)
    (idSis : Z) (nome : string) (filtro : option Z)
    (w w' : Mundo) (r : SyncResult) (registros : list Registro) :
  sincronizarPorEmpresa amb idSis nome w = (w', inr r) ->
  success r = true ->
  buscaResp amb = inr registros ->
  (forall s k, sqlCount s k (espelho w) <= 1)%nat ->
  estConexao ae = None ->
  estConsulta ae = None ->
  exists (w'' : Mundo) (rows : list Estatisticas.linha),
    obterEstatisticasSincronizacao ae filtro w' = (w'', inr rows)
    /\ (forall row, row ∈ rows ->
          (Estatisticas.ID_SISTEMA row = idSis ->
           Estatisticas.REGISTROS_ATIVOS row
           = length (remove_dups (chavesGravadas amb 0 registros)))
          /\ (Estatisticas.ID_SISTEMA row <> idSis ->
              row = agrega (espelho w) (Estatisticas.ID_SISTEMA row)))
    /\ registrosDeletados r
       = Estatisticas.REGISTROS_ATIVOS (agrega (espelho w) idSis).
Proof.
  intros Hrun Hs Hb Hone Hc Hq.
  pose proof (run_alheias amb idSis nome w) as Hfr. rewrite Hrun in Hfr.
  cbn [fst] in Hfr.
  destruct (run_casos amb idSis nome w) as (w1 & r1 & Hrun1 & Hcasos).
  rewrite Hrun in Hrun1. injection Hrun1 as <- <-.
  destruct Hcasos as [(_ & _ & e & ->)
                     | (token & regs & _ & Hb' & _ & _ & _ & Hfim)];
    [discriminate|].
  rewrite Hb in Hb'. injection Hb' as <-.
  cbv zeta in Hfim. destruct Hfim as [Hesp ->].
  eexists _, _. split; [exact (estatisticas_sucesso ae filtro w' Hc Hq)|].
  split; [|cbn [registrosDeletados resultadoSucesso]; now rewrite ativos_agrega].
  intros row (Hrow & _ & _)%sqlEstatisticas_elem. split.
  - intros Hid. rewrite Hrow, Hid, ativos_agrega, Hesp.
    now apply ativasDe_upsertPuro.
  - intros Hne. rewrite Hrow at 1. unfold agrega. cbv zeta.
    rewrite <- (filter_sistema_alheias idSis _ (espelho w')) by exact Hne.
    rewrite Hfr. now rewrite filter_sistema_alheias.
Qed.

End StatisticsProps.

(** ** The batch driver and the directory *)

Section BatchMore.
Context `{E : Esquema}.
Import Exec.
Abbreviation Tabela := (list Linha).

Ltac execL :=
  cbv beta iota zeta delta
    [mbind mret M_bind M_ret Exec.bind Exec.ret Exec.throw Exec.get Exec.modify
     Exec.tryCatch Exec.tryFinally emiteL emiteMundo noMundo setConnectionL
     falhaSeL mundoL connectionL espelho rastro].

(** X19. The batches that reconcile no company. When the directory
    connection cannot be acquired the driver throws and closes nothing.
    When the directory query throws, the driver closes the connection and
    throws. When closing the directory connection throws, the driver
    throws as well, although the directory had answered: it reconciles no
    company and tries the close a second time. When the directory
    answers with no rows the driver returns no result. In all four cases
    the mirror is untouched and no token is requested. *)
Theorem batch_without_runs (lote : AmbienteLote) (w : Mundo) :
  (forall e, dirConexao lote = Some e ->
     sincronizarTodasEmpresas lote w
     = ({| espelho := espelho w; rastro := rastro w ++ [EvConnect] |}, inl e))
  /\ (forall e, dirConexao lote = None -> dirConsulta lote = inl e ->
        sincronizarTodasEmpresas lote w
        = ({| espelho := espelho w;
              rastro := rastro w ++ [EvConnect; EvDiretorio; EvClose] |}, inl e))
  /\ (forall rows e,
        dirConexao lote = None -> dirConsulta lote = inr rows ->
        dirClose lote = Some e ->
        sincronizarTodasEmpresas lote w
        = ({| espelho := espelho w;
              rastro := rastro w ++ [EvConnect; EvDiretorio; EvClose; EvClose] |},
           inl e))
  /\ (forall rows,
        dirConexao lote = None -> dirConsulta lote = inr rows ->
        dirClose lote = None ->
        rows = None \/ rows = Some [] ->
        sincronizarTodasEmpresas lote w
        = ({| espelho := espelho w;
              rastro := rastro w ++ [EvConnect; EvDiretorio; EvClose] |}, inr [])).
Proof.
  destruct w as [esp tr].
  unfold sincronizarTodasEmpresas, sincronizarTodasCorpo.
  split; [|split; [|split]].
  - intros e Hc. execL. rewrite Hc. execL. reflexivity.
  - intros e Hc Hq. execL. rewrite Hc. execL. rewrite Hq. execL.
    rewrite <- !app_assoc. destruct (dirCloseFinal lote); reflexivity.
  - intros rows e Hc Hq Hk. execL. rewrite Hc. execL. rewrite Hq. execL.
    rewrite Hk. execL. rewrite <- !app_assoc.
    destruct (dirCloseFinal lote); reflexivity.
  - intros rows Hc Hq Hk Hrows. execL. rewrite Hc. execL. rewrite Hq. execL.
    rewrite Hk. execL. rewrite <- !app_assoc.
    destruct Hrows as [-> | ->]; reflexivity.
Qed.

Lemma loteDesde_conserva (lote : AmbienteLote) (empresas : list Empresa) :
  forall (i : nat) (resultados : list SyncResult) (w : Mundo) (b : bool),
  exists (w' : Mundo) (rs : list SyncResult),
    loteDesde lote i empresas resultados {| mundoL := w; connectionL := b |}
    = ({| mundoL := w'; connectionL := b |}, inr (resultados ++ rs))
    /\ (forall outro, outro ∉ ID_EMPRESA <$> empresas ->
          filter (fun l => ID_SISTEMA l = outro) (espelho w')
          = filter (fun l => ID_SISTEMA l = outro) (espelho w))
    /\ Forall2 mesmaLinha (espelho w) (take (length (espelho w)) (espelho w'))
    /\ length (espelho w')
       = (length (espelho w) + sum_list (registrosInseridos <$> rs))%nat.
Proof.
  induction empresas as [|emp resto IH]; intros i resultados w b.
  - exists w, []. cbn. rewrite !app_nil_r, Nat.add_0_r, firstn_all.
    repeat split. apply mesmaLinha_refl_all.
  - pose proof (run_alheias (ambienteDe lote i) (ID_EMPRESA emp) (EMPRESA emp) w)
      as Hfr.
    destruct (run_conserva (ambienteDe lote i) (ID_EMPRESA emp) (EMPRESA emp) w)
      as ([e1 t1] & r & Hrun & _ & antigas & novas & Heq & Ha & _ & Hlen).
    rewrite Hrun in Hfr. cbn [fst espelho] in Hfr, Heq.
    destruct (IH (S i) (resultados ++ [r])
                {| espelho := e1; rastro := t1 ++ [EvSleep 2000] |} b)
      as (w' & rs & Hresto & Hfora & Hmesmas & Hcresce).
    cbn [espelho] in Hfora, Hmesmas, Hcresce.
    pose proof (Forall2_length _ _ _ Ha) as Hla.
    exists w', (r :: rs). split; [|split; [|split]].
    + cbn [loteDesde]. execL. rewrite Hrun. execL.
      rewrite Hresto. now rewrite <- app_assoc.
    + intros outro Hout. rewrite fmap_cons in Hout.
      apply not_elem_of_cons in Hout as [Hne Hout].
      rewrite (Hfora outro Hout).
      rewrite <- (filter_sistema_alheias (ID_EMPRESA emp) outro e1) by exact Hne.
      rewrite Hfr. now apply filter_sistema_alheias.
    + apply (mesmaLinha_trans_all _ antigas); [exact Ha|].
      assert (Hant : antigas = take (length (espelho w)) e1).
      { rewrite Heq, Hla, take_app_length. reflexivity. }
      rewrite Hant.
      replace (take (length (espelho w)) (espelho w'))
        with (take (length (espelho w)) (take (length e1) (espelho w'))).
      * apply Forall2_take. exact Hmesmas.
      * rewrite take_take. f_equal. rewrite Heq, length_app. lia.
    + rewrite Hcresce, Heq, length_app, fmap_cons. cbn [sum_list sum_list_with id]. lia.
Qed.

(** X20. A batch touches only the systems of the directory. Once the
    directory has answered with its rows, the rows of every system that is
    not in the directory are after the batch exactly as before; no row of
    the mirror is deleted or loses its identity; and the mirror grows by
    the sum of the inserted counts that the results report. *)
Theorem batch_frame (lote : AmbienteLote) (w : Mundo) (empresas : list Empresa) :
  dirConexao lote = None ->
  dirConsulta lote = inr (Some empresas) ->
  dirClose lote = None ->
  exists (w' : Mundo) (rs : list SyncResult),
    sincronizarTodasEmpresas lote w = (w', inr rs)
    /\ (forall outro, outro ∉ ID_EMPRESA <$> empresas ->
          filter (fun l => ID_SISTEMA l = outro) (espelho w')
          = filter (fun l => ID_SISTEMA l = outro) (espelho w))
    /\ Forall2 mesmaLinha (espelho w) (take (length (espelho w)) (espelho w'))
    /\ length (espelho w')
       = (length (espelho w) + sum_list (registrosInseridos <$> rs))%nat.
Proof.
  intros Hc Hq Hk. destruct w as [esp tr].
  unfold sincronizarTodasEmpresas, sincronizarTodasCorpo.
  destruct empresas as [|emp resto].
  - exists {| espelho := esp; rastro := tr ++ [EvConnect; EvDiretorio; EvClose] |}, [].
    cbn [espelho]. split; [|split; [reflexivity | split]].
    + execL. rewrite Hc. execL. rewrite Hq. execL. rewrite Hk. execL.
      now rewrite <- !app_assoc.
    + rewrite firstn_all. apply mesmaLinha_refl_all.
    + cbn. lia.
  - destruct (loteDesde_conserva lote (emp :: resto) 0 []
                {| espelho := esp; rastro := tr ++ [EvConnect; EvDiretorio; EvClose] |}
                false)
      as (w' & rs & Hrun & Hfora & Hmesmas & Hcresce).
    exists w', rs. split; [|split; [exact Hfora | split; [exact Hmesmas | exact Hcresce]]].
    execL. rewrite Hc. execL. rewrite Hq. execL. rewrite Hk. execL.
    rewrite <- !app_assoc. cbn [app].
    rewrite Hrun. reflexivity.
Qed.

End BatchMore.

(** ** The further properties on the scenario *)

Module CenarioMore.
Import Cenario CenarioMais Financeiro.

Ltac evaluate_run run H :=
  let v := eval vm_compute in run in
  assert (H : run = v) by reflexivity.

(** X12 on the scenario: two rows of system 1 are marked, and none is
    active afterwards. *)
Lemma marcarTodosComoNaoAtuais_effect_witness :
  exists t1 : list Linha,
    marcarTodosComoNaoAtuais (E := Cenario.esquema) ambOk 1
      (estado (espelho mundo0) [] (Some (espelho mundo0)))
    = (estado (espelho mundo0) [EvMarcar 1] (Some t1), inr 2%nat)
    /\ ativasDe 1 t1 = [].
Proof.
  destruct (marcarTodosComoNaoAtuais_effect (E := Cenario.esquema) ambOk ambOk 1
              (espelho mundo0) [] (espelho mundo0) eq_refl eq_refl)
    as (t1 & H1 & H2 & _).
  exists t1. split; [exact H1 | exact H2].
Defined.

(** X14 on the scenario: of two records one is rejected and one
    inserted. *)
Lemma run_counters_witness :
  let res := sincronizarFinanceiroPorEmpresa fuso ambLinhaRejeitada 1 "ACME" mundo0 in
  exists r, res.2 = inr r
    /\ totalRegistros r = 2%nat
    /\ (registrosInseridos r + registrosAtualizados r
        + falhasAte ambLinhaRejeitada 2 = 2)%nat
    /\ registrosDeletados r = 2%nat.
Proof.
  cbv zeta.
  evaluate_run (sincronizarFinanceiroPorEmpresa fuso ambLinhaRejeitada 1 "ACME" mundo0) Hrun.
  rewrite Hrun. eexists. split; [reflexivity|].
  destruct (run_counters (E := Cenario.esquema) ambLinhaRejeitada 1 "ACME" mundo0 _ _
              snapshot Hrun eq_refl eq_refl) as (H1 & H2 & H3 & _).
  split; [exact H1 | split; [exact H2 | exact H3]].
Defined.

(** X15 on the scenario: the record 7 comes twice, and its row carries
    the load time of the second one. *)
Lemma run_last_write_wins_witness :
  let res := sincronizarFinanceiroPorEmpresa fuso ambRepetido 1 "ACME" mundo0 in
  existe (espelho res.1) 1 7 = true
  /\ todasDe (E := Cenario.esquema) 1 7
       (fun l => campos l = bindsDoInsert fuso (titulo 7) /\ SANKHYA_ATUAL l = true
                 /\ DT_ULT_CARGA l = 1103)
       (espelho res.1).
Proof.
  cbv zeta.
  evaluate_run (sincronizarFinanceiroPorEmpresa fuso ambRepetido 1 "ACME" mundo0) Hrun.
  rewrite Hrun. cbn [fst].
  refine (run_last_write_wins (E := Cenario.esquema) ambRepetido 1 "ACME" mundo0 _ _
            repetido 2 (titulo 7) Hrun eq_refl eq_refl eq_refl eq_refl _ eq_refl).
  intros [|[|[|j']]] r' Hlt Hj'; [lia | lia | lia | discriminate].
Defined.

(** X21 on the scenario: of the keys 7, 5 and 7 written only 7 is new. *)
Lemma run_inserts_new_keys_witness :
  let res := sincronizarFinanceiroPorEmpresa fuso ambRepetido 1 "ACME" mundo0 in
  exists r, res.2 = inr r
    /\ registrosInseridos r = 1%nat
    /\ (registrosInseridos r + registrosAtualizados r = 3)%nat
    /\ length (espelho res.1) = (3 + 1)%nat.
Proof.
  cbv zeta.
  evaluate_run (sincronizarFinanceiroPorEmpresa fuso ambRepetido 1 "ACME" mundo0) Hrun.
  rewrite Hrun. eexists. split; [reflexivity|].
  exact (run_inserts_new_keys (E := Cenario.esquema) ambRepetido 1 "ACME" mundo0 _ _
           repetido Hrun eq_refl eq_refl).
Defined.

(** X17 on the scenario: the statistics of system 1. *)
Lemma estatisticas_rows_witness :
  let res := obterEstatisticasSincronizacao (E := Cenario.esquema) estOk (Some 1) mundo0 in
  exists rows, res.2 = inr rows
    /\ NoDup (Estatisticas.ID_SISTEMA <$> rows)
    /\ (length rows <= 1)%nat.
Proof.
  cbv zeta.
  evaluate_run (obterEstatisticasSincronizacao (E := Cenario.esquema) estOk (Some 1) mundo0) Hrun.
  rewrite Hrun. eexists. split; [reflexivity|].
  destruct (estatisticas_rows (E := Cenario.esquema) estOk (Some 1) mundo0 _ _ Hrun)
    as (Hnd & _ & _ & Hlen).
  split; [exact Hnd | apply (Hlen 1 eq_refl); discriminate].
Defined.

(** X18 on the scenario: three records of two keys, two active rows. *)
Lemma estatisticas_after_run_witness :
  let res := sincronizarFinanceiroPorEmpresa fuso ambRepetido 1 "ACME" mundo0 in
  exists w'' rows,
    obterEstatisticasSincronizacao (E := Cenario.esquema) estOk None res.1 = (w'', inr rows)
    /\ (forall row, row ∈ rows -> Estatisticas.ID_SISTEMA row = 1 ->
          Estatisticas.REGISTROS_ATIVOS row = 2%nat).
Proof.
  cbv zeta.
  evaluate_run (sincronizarFinanceiroPorEmpresa fuso ambRepetido 1 "ACME" mundo0) Hrun.
  rewrite Hrun. cbn [fst].
  assert (Hone : forall s k, (sqlCount (E := Cenario.esquema) s k (espelho mundo0) <= 1)%nat).
  { apply sqlCount_NoDup. cbn. repeat constructor.
    - intros [H|[H|H]%elem_of_cons]%elem_of_cons;
        [discriminate | discriminate | now apply not_elem_of_nil in H].
    - intros [H|H]%elem_of_cons; [discriminate | now apply not_elem_of_nil in H].
    - apply not_elem_of_nil. }
  destruct (estatisticas_after_run (E := Cenario.esquema) ambRepetido estOk 1 "ACME" None
              mundo0 _ _ repetido Hrun eq_refl eq_refl Hone eq_refl eq_refl)
    as (w'' & rows & Hst & Hrows & _).
  exists w'', rows. split; [exact Hst|].
  intros row Hrow Hid. exact (proj1 (Hrows row Hrow) Hid).
Defined.

(** X20 on the scenario: the directory holds the company 1 only, and
    the row of system 2 stays. *)
Lemma batch_frame_witness :
  exists w' rs,
    Financeiro.sincronizarTodasEmpresas fuso lote1 mundo0 = (w', inr rs)
    /\ filter (fun l => ID_SISTEMA l = 2) (espelho w') = [linha 2 5 true]
    /\ length (espelho w') = (3 + sum_list (registrosInseridos <$> rs))%nat.
Proof.
  destruct (batch_frame (E := Cenario.esquema) lote1 mundo0 _ eq_refl eq_refl eq_refl)
    as (w' & rs & Hrun & Hfora & _ & Hlen).
  exists w', rs. split; [exact Hrun|]. split; [|exact Hlen].
  rewrite Hfora; [reflexivity|]. cbn.
  intros H%list_elem_of_singleton. discriminate.
Defined.

(** X19 on the scenario: closing the directory connection fails, and
    the company of the directory is not reconciled. *)
Lemma batch_without_runs_witness :
  Financeiro.sincronizarTodasEmpresas fuso loteCloseFalha mundo0
  = ({| espelho := espelho mundo0;
        rastro := [EvConnect; EvDiretorio; EvClose; EvClose] |}, inl ETIMEDOUT).
Proof.
  exact (proj1 (proj2 (proj2 (batch_without_runs (E := Cenario.esquema) loteCloseFalha mundo0)))
           _ ETIMEDOUT eq_refl eq_refl eq_refl).
Defined.

(** X16 on the scenario: the statistics leave the mirror as it is. *)
Lemma estatisticas_paths_witness :
  espelho (obterEstatisticasSincronizacao (E := Cenario.esquema) estOk None mundo0).1
  = espelho mundo0.
Proof.
  exact (proj1 (estatisticas_paths (E := Cenario.esquema) estOk None mundo0)).
Defined.

End CenarioMore.
